(** * A MySQL connection wrapper and its result cursor

    Shallow embedding of class [QueryResult] (declared in
    [include/query_result.h]) and of class [Connection]
    ([src/connection.cpp], declared in [connection.h]).

    - C++ exceptions, and the undefined behaviour of a value-returning
      function whose control reaches its closing brace, are outcomes of a
      small state-and-exception monad.
    - The MySQL client library is not part of the repository.  The buffered
      result set ([MYSQL_RES]) is modelled after the documented behaviour of
      [mysql_fetch_row], [mysql_fetch_lengths] and [mysql_data_seek]; the
      connection-side calls are the methods of a type class [Environment]:
      the general statements about [Connection] hold for every driver, and
      the concrete runs use one small instance of it. *)

From Stdlib Require Import List String Ascii ZArith NArith Bool Lia.
From Stdlib Require Import DecimalString SpecFloat.
Import ListNotations.

Local Open Scope string_scope.

(** ** Exceptions, log levels and outcomes shared by both classes *)

(** The three standard exception classes the sources throw; each derives from
    [std::exception] and carries its [what()] text. *)
Inductive exn : Type :=
| runtime_error (what_arg : string)
| out_of_range (what_arg : string)
| invalid_argument (what_arg : string).

Definition what (e : exn) : string :=
  match e with
  | runtime_error m => m
  | out_of_range m => m
  | invalid_argument m => m
  end.

Inductive LogLevel : Type := DEBUG | INFO | WARNING | ERROR | FATAL.

(** Kinds of undefined behaviour the sources can reach. *)
Inductive undefined : Type :=
| flow_off_end      (* a non-void function ends without a return statement *)
| null_dereference  (* a null pointer is indexed or handed to the driver *)
| bad_read.         (* an array is read past its end *)

Inductive outcome (A : Type) : Type :=
| Returned (a : A)
| Thrown (e : exn)
| UB (u : undefined)
| OutOfFuel.

Arguments Returned {A} a.
Arguments Thrown {A} e.
Arguments UB {A} u.
Arguments OutOfFuel {A}.

(** [std::to_string] on an unsigned value. *)
Definition to_string (n : N) : string := NilZero.string_of_uint (N.to_uint n).

(** Arithmetic of [unsigned int]. *)
Definition UINT_MODULUS : N := 4294967296.
Definition uint_sub (a b : N) : N := ((a + UINT_MODULUS - b mod UINT_MODULUS) mod UINT_MODULUS)%N.

(** Calls into the MySQL client library made by [Connection]. *)
Definition MYSQL_ptr : Type := N.

Inductive mysql_option : Type :=
| MYSQL_OPT_CONNECT_TIMEOUT
| MYSQL_OPT_READ_TIMEOUT
| MYSQL_OPT_WRITE_TIMEOUT
| MYSQL_SET_CHARSET_NAME.

Inductive api_call : Type :=
| call_mysql_init
| call_mysql_options (h : MYSQL_ptr) (o : mysql_option)
| call_mysql_real_connect (h : MYSQL_ptr)
| call_mysql_close (h : MYSQL_ptr)
| call_mysql_ping (h : MYSQL_ptr)
| call_mysql_query (h : MYSQL_ptr) (stmt : string)
| call_mysql_error (h : MYSQL_ptr)
| call_mysql_errno (h : MYSQL_ptr).

(** What a run leaves behind for an observer, oldest first. *)
Inductive event : Type :=
| Log (level : LogLevel) (msg : string)   (* Logger::getInstance().level(msg) *)
| Cerr (line : string)                    (* one line written to std::cerr *)
| Call (c : api_call).

(** ** A state-and-exception monad *)

Definition M (S A : Type) : Type := S -> outcome A * S.

Definition ret {S A : Type} (a : A) : M S A := fun s => (Returned a, s).
Definition throw {S A : Type} (e : exn) : M S A := fun s => (Thrown e, s).
Definition undefined_behaviour {S A : Type} (u : undefined) : M S A :=
  fun s => (UB u, s).
Definition out_of_fuel {S A : Type} : M S A := fun s => (OutOfFuel, s).

Definition bind {S A B : Type} (m : M S A) (k : A -> M S B) : M S B :=
  fun s =>
    match m s with
    | (Returned a, s') => k a s'
    | (Thrown e, s') => (Thrown e, s')
    | (UB u, s') => (UB u, s')
    | (OutOfFuel, s') => (OutOfFuel, s')
    end.

(** [try { body } catch (const std::exception &e) { handler e }]: every
    exception of [exn] is a [std::exception]. *)
Definition try_catch {S A : Type} (body : M S A) (handler : exn -> M S A) : M S A :=
  fun s =>
    match body s with
    | (Thrown e, s') => handler e s'
    | r => r
    end.

Declare Scope monad_scope.
Delimit Scope monad_scope with monad.
Notation "x <- c1 ;; c2" := (bind c1 (fun x => c2))
  (at level 61, c1 at next level, right associativity) : monad_scope.
Notation "c1 ;; c2" := (bind c1 (fun _ => c2))
  (at level 61, right associativity) : monad_scope.
Local Open Scope monad_scope.

(** ** The result cursor *)

Module QR.

(** *** Driver side: a buffered result set *)

(** One column of a [MYSQL_ROW] is a [char*]: null for SQL NULL, otherwise a
    pointer to the bytes of the value (which may contain zero bytes). *)
Definition cell : Type := option string.
Definition MYSQL_ROW : Type := list cell.

Record MYSQL_FIELD : Type := { name : string }.

Record MYSQL_RES : Type := {
  fields : list MYSQL_FIELD;
  data : list MYSQL_ROW;              (* all the rows, stored client side *)
  data_cursor : nat;                  (* position of the next row to fetch *)
  current_row : option MYSQL_ROW      (* the row last fetched, if any *)
}.

Definition mysql_num_fields (r : MYSQL_RES) : N := N.of_nat (List.length (fields r)).
Definition mysql_num_rowCount (r : MYSQL_RES) : N := N.of_nat (List.length (data r)).

Definition mysql_fetch_row (r : MYSQL_RES) : option MYSQL_ROW * MYSQL_RES :=
  match nth_error (data r) (data_cursor r) with
  | Some row =>
      (Some row,
       {| fields := fields r; data := data r;
          data_cursor := S (data_cursor r); current_row := Some row |})
  | None =>
      (None,
       {| fields := fields r; data := data r;
          data_cursor := data_cursor r; current_row := None |})
  end.

Definition cell_length (c : cell) : N :=
  match c with
  | None => 0%N
  | Some v => N.of_nat (String.length v)
  end.

(** Null when there is no current row, else one length per column. *)
Definition mysql_fetch_lengths (r : MYSQL_RES) : option (list N) :=
  match current_row r with
  | None => None
  | Some row => Some (map cell_length row)
  end.

Definition mysql_data_seek (r : MYSQL_RES) (offset : nat) : MYSQL_RES :=
  {| fields := fields r; data := data r;
     data_cursor := offset; current_row := None |}.

(** *** Standard library conversions used by [safeConvert] *)

(** The C string a [const char*] denotes: the bytes before the first zero. *)
Fixpoint c_str (s : string) : string :=
  match s with
  | EmptyString => EmptyString
  | String c rest =>
      if (N_of_ascii c =? 0)%N then EmptyString else String c (c_str rest)
  end.

(** [std::string(p, n)]: the first [n] bytes at [p]. *)
Definition string_of_bytes (p : string) (n : N) : string :=
  substring 0 (N.to_nat n) p.

Definition isspace (c : ascii) : bool :=
  let n := N_of_ascii c in
  ((n =? 32) || ((9 <=? n) && (n <=? 13)))%N.

Definition isdigit (c : ascii) : bool :=
  let n := N_of_ascii c in ((48 <=? n) && (n <=? 57))%N.

Definition digit_value (c : ascii) : Z := Z.of_N (N_of_ascii c) - 48.

Fixpoint skip_space (s : string) : string :=
  match s with
  | String c rest => if isspace c then skip_space rest else s
  | EmptyString => s
  end.

(** Reads the longest run of decimal digits; [None] when there is none. *)
Fixpoint read_digits (s : string) (acc : option Z) : option Z :=
  match s with
  | String c rest =>
      if isdigit c
      then read_digits rest
             (Some (10 * match acc with Some a => a | None => 0 end + digit_value c)%Z)
      else acc
  | EmptyString => acc
  end.

(** [strtol]/[strtoll] in base 10, before the range check: leading white
    space, an optional sign, then digits.  [None] means no conversion could
    be performed (the end pointer stays at the start). *)
Definition strtol10 (s : string) : option Z :=
  match skip_space s with
  | String "-" rest => option_map Z.opp (read_digits rest None)
  | String "+" rest => read_digits rest None
  | rest => read_digits rest None
  end.

Definition INT_MIN : Z := -2147483648.
Definition INT_MAX : Z := 2147483647.
Definition LLONG_MIN : Z := -9223372036854775808.
Definition LLONG_MAX : Z := 9223372036854775807.

(** [std::stoi] and [std::stoll]: [invalid_argument] when nothing converts,
    [out_of_range] when the value does not fit (the [what()] text is the
    function's name, as libstdc++ reports it). *)
Definition stoi (s : string) : Z + exn :=
  match strtol10 s with
  | None => inr (invalid_argument "stoi")
  | Some v =>
      if ((INT_MIN <=? v) && (v <=? INT_MAX))%Z then inl v
      else inr (out_of_range "stoi")
  end.

Definition stoll (s : string) : Z + exn :=
  match strtol10 s with
  | None => inr (invalid_argument "stoll")
  | Some v =>
      if ((LLONG_MIN <=? v) && (v <=? LLONG_MAX))%Z then inl v
      else inr (out_of_range "stoll")
  end.

(** A [double] is an IEEE 754 binary64 datum. *)
Definition double : Type := spec_float.
Definition double_zero : double := S754_zero false.

(** [std::stod] belongs to the C++ standard library; its result on a given
    text is taken from [strtod_model], a parameter of the accessors that
    convert to [double]. *)
Definition strtod_model : Type := string -> double + exn.

(** *** The class *)

Record QueryResult : Type := {
  m_result : option MYSQL_RES;       (* owned result set, null for updates *)
  m_currentRow : option MYSQL_ROW;
  m_lengths : option (list N);
  m_fieldCount : N;
  m_rowCount : N;
  m_affectedRows : N;
  m_fieldNames : list string
}.

Definition console : Type := list event.

Definition emit {A : Type} (e : event) (a : A) : M console A :=
  fun tr => (Returned a, (tr ++ [e])%list).
Definition LOG_DEBUG (msg : string) : M console unit := emit (Log DEBUG msg) tt.
Definition LOG_WARNING (msg : string) : M console unit := emit (Log WARNING msg) tt.
Definition cerr (line : string) : M console unit := emit (Cerr line) tt.

(** The loop of [initializeMetaData]: [count] iterations from index [i],
    each appending [fields[i].name]. *)
Fixpoint push_field_names (fs : list MYSQL_FIELD) (i count : nat)
    (names : list string) : outcome (list string) :=
  match count with
  | O => Returned names
  | S count' =>
      match nth_error fs i with
      | Some f => push_field_names fs (S i) count' (names ++ [name f])%list
      | None => UB bad_read
      end
  end.

Definition initializeMetaData (q : QueryResult) : M console QueryResult :=
  match m_result q with
  | None => ret q
  | Some r =>
      let fieldCount := mysql_num_fields r in
      let rowCount := mysql_num_rowCount r in
      match push_field_names (fields r) 0 (N.to_nat fieldCount) [] with
      | Returned names =>
          LOG_DEBUG ("QueryResult initialized: " ++ to_string fieldCount ++
                     " fields, " ++ to_string rowCount ++ " rows") ;;
          ret {| m_result := m_result q; m_currentRow := m_currentRow q;
                 m_lengths := m_lengths q; m_fieldCount := fieldCount;
                 m_rowCount := rowCount; m_affectedRows := m_affectedRows q;
                 m_fieldNames := names |}
      | Thrown e => throw e
      | UB u => undefined_behaviour u
      | OutOfFuel => out_of_fuel
      end
  end.

(** The constructor [QueryResult(MYSQL_RES *result, unsigned long long affectedRows)]. *)
Definition construct (result : option MYSQL_RES) (affectedRows : N)
  : M console QueryResult :=
  let q := {| m_result := result; m_currentRow := None; m_lengths := None;
              m_fieldCount := 0; m_rowCount := 0;
              m_affectedRows := affectedRows; m_fieldNames := [] |} in
  match result with
  | Some _ =>
      q' <- initializeMetaData q ;;
      LOG_DEBUG ("QueryResult created with " ++ to_string (m_rowCount q') ++
                 " rows, " ++ to_string (m_fieldCount q') ++ " fields.") ;;
      ret q'
  | None =>
      LOG_DEBUG ("QueryResult created for non-select operation with " ++
                 to_string affectedRows ++ " affectedRows.") ;;
      ret q
  end.

Definition set_cursor (q : QueryResult) (r : MYSQL_RES)
    (row : option MYSQL_ROW) (lengths : option (list N)) : QueryResult :=
  {| m_result := Some r; m_currentRow := row; m_lengths := lengths;
     m_fieldCount := m_fieldCount q; m_rowCount := m_rowCount q;
     m_affectedRows := m_affectedRows q; m_fieldNames := m_fieldNames q |}.

Definition next (q : QueryResult) : bool * QueryResult :=
  match m_result q with
  | None => (false, q)
  | Some r =>
      let (row, r') := mysql_fetch_row r in
      match row with
      | Some _ => (true, set_cursor q r' row (mysql_fetch_lengths r'))
      | None => (false, set_cursor q r' None (m_lengths q))
      end
  end.

Definition reset (q : QueryResult) : bool * QueryResult :=
  match m_result q with
  | None => (false, q)
  | Some r => (true, set_cursor q (mysql_data_seek r 0) None None)
  end.

Definition getFieldCount (q : QueryResult) : N := m_fieldCount q.
Definition getRowCount (q : QueryResult) : N := m_rowCount q.
Definition getAffectedRows (q : QueryResult) : N := m_affectedRows q.
Definition getFieldNames (q : QueryResult) : list string := m_fieldNames q.
Definition hasResultSet (q : QueryResult) : bool :=
  match m_result q with Some _ => true | None => false end.
Definition isEmpty (q : QueryResult) : bool :=
  hasResultSet q && (m_rowCount q =? 0)%N.

Definition checkIndex (q : QueryResult) (index : N) : M console unit :=
  if (m_fieldCount q <=? index)%N
  then throw (out_of_range ("Field index out of range: " ++ to_string index ++
                            ", max = " ++ to_string (uint_sub (m_fieldCount q) 1)))
  else ret tt.

Definition checkRow (q : QueryResult) : M console unit :=
  match m_currentRow q with
  | None => throw (runtime_error "No currentRow available, call next() first.")
  | Some _ => ret tt
  end.

(** [m_currentRow[index]]. *)
Definition currentRow_at (q : QueryResult) (index : N) : M console cell :=
  match m_currentRow q with
  | None => undefined_behaviour null_dereference
  | Some row =>
      match nth_error row (N.to_nat index) with
      | Some c => ret c
      | None => undefined_behaviour bad_read
      end
  end.

(** [m_lengths[index]]. *)
Definition lengths_at (q : QueryResult) (index : N) : M console N :=
  match m_lengths q with
  | None => undefined_behaviour null_dereference
  | Some ls =>
      match nth_error ls (N.to_nat index) with
      | Some n => ret n
      | None => undefined_behaviour bad_read
      end
  end.

(** The three overloads of [safeConvert], told apart by the default's type. *)
Definition safeConvert_int (value : cell) (defaultValue : Z) : M console Z :=
  match value with
  | None => ret defaultValue
  | Some p =>
      match stoi (c_str p) with
      | inl v => ret v
      | inr e =>
          LOG_WARNING ("Failed to convert '" ++ c_str p ++ "' to int: " ++ what e) ;;
          ret defaultValue
      end
  end.

Definition safeConvert_long (value : cell) (defaultValue : Z) : M console Z :=
  match value with
  | None => ret defaultValue
  | Some p =>
      match stoll (c_str p) with
      | inl v => ret v
      | inr e =>
          LOG_WARNING ("Failed to convert '" ++ c_str p ++ "' to long long: " ++ what e) ;;
          ret defaultValue
      end
  end.

Definition safeConvert_double (stod : strtod_model) (value : cell)
    (defaultValue : double) : M console double :=
  match value with
  | None => ret defaultValue
  | Some p =>
      match stod (c_str p) with
      | inl v => ret v
      | inr e =>
          LOG_WARNING ("Failed to convert '" ++ c_str p ++ "' to double: " ++ what e) ;;
          ret defaultValue
      end
  end.

(** The handler shared by the index-based accessors: print [what()], then
    reach the end of the function without returning. *)
Definition print_and_fall_through {A : Type} (e : exn) : M console A :=
  cerr (what e) ;; undefined_behaviour flow_off_end.

Definition getString (q : QueryResult) (index : N) : M console string :=
  match m_result q, m_currentRow q with
  | Some _, Some _ =>
      try_catch
        (checkIndex q index ;;
         checkRow q ;;
         c <- currentRow_at q index ;;
         match c with
         | None => ret EmptyString
         | Some p => n <- lengths_at q index ;; ret (string_of_bytes p n)
         end)
        print_and_fall_through
  | None, _ => throw (runtime_error "this is non-select operation, cannot getString")
  | Some _, None => throw (runtime_error "Please invoke next() before getString()")
  end.

Definition getInt (q : QueryResult) (index : N) : M console Z :=
  try_catch
    (checkIndex q index ;;
     checkRow q ;;
     c <- currentRow_at q index ;;
     match c with
     | None => ret 0%Z
     | Some _ => safeConvert_int c 0%Z
     end)
    print_and_fall_through.

Definition getLong (q : QueryResult) (index : N) : M console Z :=
  try_catch
    (checkIndex q index ;;
     checkRow q ;;
     c <- currentRow_at q index ;;
     match c with
     | None => ret 0%Z
     | Some _ => safeConvert_long c 0%Z
     end)
    print_and_fall_through.

Definition getDouble (stod : strtod_model) (q : QueryResult) (index : N)
  : M console double :=
  try_catch
    (checkIndex q index ;;
     checkRow q ;;
     c <- currentRow_at q index ;;
     match c with
     | None => ret double_zero
     | Some _ => safeConvert_double stod c double_zero
     end)
    print_and_fall_through.

Definition isNull (q : QueryResult) (index : N) : M console bool :=
  try_catch
    (checkIndex q index ;;
     checkRow q ;;
     c <- currentRow_at q index ;;
     ret (match c with None => true | Some _ => false end))
    print_and_fall_through.

(** A sequence of navigation calls. *)
Inductive navigation : Type := do_next | do_reset.

Definition navigate (q : QueryResult) (n : navigation) : QueryResult :=
  match n with
  | do_next => snd (next q)
  | do_reset => snd (reset q)
  end.

Definition navigate_all (ns : list navigation) (q : QueryResult) : QueryResult :=
  fold_left navigate ns q.

End QR.

(** ** The connection *)

Module Conn.

Record Connection : Type := {
  m_mysql : option MYSQL_ptr;     (* the native handle, null once closed *)
  m_host : string;
  m_user : string;
  m_password : string;
  m_database : string;
  m_port : N;
  m_connectionId : string;
  m_creationTime : Z;
  m_lastActiveTime : Z;
  m_mutex : nat;                  (* std::recursive_mutex: how often the caller holds it *)
  m_connected : bool
}.

(** The value handed to [mysql_options]. *)
Inductive option_value : Type :=
| uint_value (n : N)
| text_value (s : string).

(** Everything outside the object: the client library with the server behind
    it, the system clock and the random source.  [D] is the state of that
    outside world; each call may change it. *)
Class Environment (D : Type) : Type := {
  generateRandomString : N -> D -> string * D;
  currentTimeMillis : D -> Z * D;
  mysql_init : D -> option MYSQL_ptr * D;
  mysql_options : MYSQL_ptr -> mysql_option -> option_value -> D -> Z * D;
  mysql_real_connect :
    MYSQL_ptr -> string -> string -> string -> string -> N -> D -> option MYSQL_ptr * D;
  mysql_close : MYSQL_ptr -> D -> D;
  mysql_ping : MYSQL_ptr -> D -> Z * D;
  mysql_query : MYSQL_ptr -> string -> D -> Z * D;
  mysql_error : MYSQL_ptr -> D -> string;
  mysql_errno : MYSQL_ptr -> D -> N
}.

Record World (D : Type) : Type := {
  self : Connection;
  env : D;
  trace : list event
}.

Arguments self {D} w.
Arguments env {D} w.
Arguments trace {D} w.

Section Methods.

Context {D : Type} `{Environment D}.

Definition get_self : M (World D) Connection :=
  fun w => (Returned (self w), w).

Definition update_self (f : Connection -> Connection) : M (World D) unit :=
  fun w => (Returned tt, {| self := f (self w); env := env w; trace := trace w |}).

Definition observe (e : event) : M (World D) unit :=
  fun w => (Returned tt, {| self := self w; env := env w; trace := (trace w ++ [e])%list |}).

(** A call that reads and may change the outside world. *)
Definition outside {A : Type} (c : option api_call) (f : D -> A * D) : M (World D) A :=
  fun w =>
    let (a, d) := f (env w) in
    (Returned a,
     {| self := self w; env := d;
        trace := match c with
                 | Some c => (trace w ++ [Call c])%list
                 | None => trace w
                 end |}).

Definition LOG_DEBUG (msg : string) : M (World D) unit := observe (Log DEBUG msg).
Definition LOG_INFO (msg : string) : M (World D) unit := observe (Log INFO msg).
Definition LOG_WARNING (msg : string) : M (World D) unit := observe (Log WARNING msg).
Definition LOG_ERROR (msg : string) : M (World D) unit := observe (Log ERROR msg).

Definition set_mysql (h : option MYSQL_ptr) (c : Connection) : Connection :=
  {| m_mysql := h; m_host := m_host c; m_user := m_user c;
     m_password := m_password c; m_database := m_database c; m_port := m_port c;
     m_connectionId := m_connectionId c; m_creationTime := m_creationTime c;
     m_lastActiveTime := m_lastActiveTime c; m_mutex := m_mutex c;
     m_connected := m_connected c |}.

Definition set_connected (b : bool) (c : Connection) : Connection :=
  {| m_mysql := m_mysql c; m_host := m_host c; m_user := m_user c;
     m_password := m_password c; m_database := m_database c; m_port := m_port c;
     m_connectionId := m_connectionId c; m_creationTime := m_creationTime c;
     m_lastActiveTime := m_lastActiveTime c; m_mutex := m_mutex c;
     m_connected := b |}.

Definition set_lastActiveTime (t : Z) (c : Connection) : Connection :=
  {| m_mysql := m_mysql c; m_host := m_host c; m_user := m_user c;
     m_password := m_password c; m_database := m_database c; m_port := m_port c;
     m_connectionId := m_connectionId c; m_creationTime := m_creationTime c;
     m_lastActiveTime := t; m_mutex := m_mutex c;
     m_connected := m_connected c |}.

Definition set_mutex (n : nat) (c : Connection) : Connection :=
  {| m_mysql := m_mysql c; m_host := m_host c; m_user := m_user c;
     m_password := m_password c; m_database := m_database c; m_port := m_port c;
     m_connectionId := m_connectionId c; m_creationTime := m_creationTime c;
     m_lastActiveTime := m_lastActiveTime c; m_mutex := n;
     m_connected := m_connected c |}.

(** [std::unique_lock lock(m_mutex)] and the release that ends its life, be
    it [lock.unlock()] or the destructor at a [return].  [connection.h]
    declares [m_mutex] as a [std::recursive_mutex]: the thread that holds it
    may take it again, which [isValid] does when a locked method asks for
    [getLastError]. *)
Definition lock : M (World D) unit := update_self (fun c => set_mutex (S (m_mutex c)) c).
Definition unlock : M (World D) unit := update_self (fun c => set_mutex (pred (m_mutex c)) c).

Definition updateLastActiveTime : M (World D) unit :=
  t <- outside None currentTimeMillis ;;
  update_self (set_lastActiveTime t).

(** The client library dereferences the handle it is given. *)
Definition on_handle {A : Type} (h : option MYSQL_ptr) (k : MYSQL_ptr -> M (World D) A)
  : M (World D) A :=
  match h with
  | None => undefined_behaviour null_dereference
  | Some p => k p
  end.

Definition do_mysql_query (h : option MYSQL_ptr) (stmt : string) : M (World D) Z :=
  on_handle h (fun p => outside (Some (call_mysql_query p stmt)) (mysql_query p stmt)).

Definition do_mysql_ping (h : option MYSQL_ptr) : M (World D) Z :=
  on_handle h (fun p => outside (Some (call_mysql_ping p)) (mysql_ping p)).

Definition do_mysql_error (h : option MYSQL_ptr) : M (World D) string :=
  on_handle h (fun p => outside (Some (call_mysql_error p)) (fun d => (mysql_error p d, d))).

Definition do_mysql_errno (h : option MYSQL_ptr) : M (World D) N :=
  on_handle h (fun p => outside (Some (call_mysql_errno p)) (fun d => (mysql_errno p d, d))).

Definition do_mysql_options (p : MYSQL_ptr) (o : mysql_option) (v : option_value)
  : M (World D) Z :=
  outside (Some (call_mysql_options p o)) (mysql_options p o v).

Definition warn_unless_zero (rc : Z) (msg : string) : M (World D) unit :=
  if (rc =? 0)%Z then ret tt else LOG_WARNING msg.

Definition init : M (World D) unit :=
  h <- outside (Some call_mysql_init) mysql_init ;;
  update_self (set_mysql h) ;;
  match h with
  | None =>
      let error := "Failed to initialize MYSQL connection object." in
      LOG_ERROR error ;;
      throw (runtime_error error)
  | Some p =>
      rc <- do_mysql_options p MYSQL_OPT_CONNECT_TIMEOUT (uint_value 5) ;;
      warn_unless_zero rc "Failed to set connection timeout" ;;
      rc <- do_mysql_options p MYSQL_OPT_READ_TIMEOUT (uint_value 30) ;;
      warn_unless_zero rc "Failed to set read timeout" ;;
      rc <- do_mysql_options p MYSQL_OPT_WRITE_TIMEOUT (uint_value 30) ;;
      warn_unless_zero rc "Failed to set write timeout" ;;
      rc <- do_mysql_options p MYSQL_SET_CHARSET_NAME (text_value "uft8mb4") ;;
      warn_unless_zero rc "Failed to set charset to utf8mb4" ;;
      c <- get_self ;;
      LOG_INFO ("MYSQL connection object initialized [" ++ m_connectionId c ++ "]")
  end.

(** The constructor, run in the outside world [d] with an empty trace. *)
Definition construct (host user password database : string) (port : N) (d : D)
  : outcome unit * World D :=
  let (id, d1) := generateRandomString 16 d in
  let (now, d2) := currentTimeMillis d1 in
  let c := {| m_mysql := None; m_host := host; m_user := user;
              m_password := password; m_database := database; m_port := port;
              m_connectionId := id; m_creationTime := now;
              m_lastActiveTime := now; m_mutex := 0; m_connected := false |} in
  (LOG_INFO ("Creating connection [" ++ id ++ "] to " ++ user ++ "@" ++ host ++
             ":" ++ to_string port ++ "/" ++ database) ;;
   init) {| self := c; env := d2; trace := [] |}.

(** [getLastError] and [getLastErrorCode], given the liveness check they
    start with. *)
Definition getLastError_with (isValid : M (World D) bool) : M (World D) string :=
  valid <- isValid ;;
  if negb valid then ret "MySQL connection not established!"
  else c <- get_self ;; do_mysql_error (m_mysql c).

Definition getLastErrorCode_with (isValid : M (World D) bool) : M (World D) N :=
  valid <- isValid ;;
  if negb valid then ret 0%N
  else c <- get_self ;; do_mysql_errno (m_mysql c).

(** [isValid] and [getLastError] call each other; [fuel] bounds the depth of
    that recursion. *)
Fixpoint isValid (fuel : nat) : M (World D) bool :=
  match fuel with
  | O => out_of_fuel
  | S fuel' =>
      lock ;;
      c <- get_self ;;
      match m_mysql c with
      | None =>
          LOG_WARNING ("Please initialize mysql connection object [" ++
                       m_connectionId c ++ "]") ;;
          unlock ;; ret false
      | Some p =>
          if negb (m_connected c) then
            LOG_WARNING ("Please connect to MySQL Server [" ++ m_connectionId c ++ "]") ;;
            unlock ;; ret false
          else
            rc <- do_mysql_ping (Some p) ;;
            if (rc =? 0)%Z then
              updateLastActiveTime ;;
              unlock ;; ret true
            else
              error <- getLastError_with (isValid fuel') ;;
              LOG_ERROR ("Connection validation failed [" ++ m_connectionId c ++
                         "]: " ++ error) ;;
              unlock ;; ret false
      end
  end.

Definition getLastError (fuel : nat) : M (World D) string :=
  getLastError_with (isValid fuel).

Definition getLastErrorCode (fuel : nat) : M (World D) N :=
  getLastErrorCode_with (isValid fuel).

Definition connect (fuel : nat) : M (World D) bool :=
  lock ;;
  c <- get_self ;;
  if m_connected c then
    LOG_WARNING ("connection to MySQL Server has established [" ++
                 m_connectionId c ++ "]") ;;
    unlock ;; ret true
  else
    match m_mysql c with
    | None =>
        LOG_ERROR ("MySQL connection object not initialized [" ++
                   m_connectionId c ++ "]") ;;
        unlock ;; ret false
    | Some p =>
        LOG_INFO ("Connecting to MySQL server [" ++ m_connectionId c ++ "]") ;;
        result <- outside (Some (call_mysql_real_connect p))
                    (mysql_real_connect p (m_host c) (m_user c) (m_password c)
                       (m_database c) (m_port c)) ;;
        match result with
        | None =>
            error <- getLastError fuel ;;
            LOG_ERROR ("Failed to connect to MySQL Server: [" ++ m_connectionId c ++
                       "]: " ++ error) ;;
            unlock ;; ret false
        | Some _ =>
            update_self (set_connected true) ;;
            updateLastActiveTime ;;
            LOG_INFO ("Successfully to connect to MySQL Server: [" ++
                      m_connectionId c ++ "]") ;;
            unlock ;; ret true
        end
    end.

Definition close : M (World D) unit :=
  lock ;;
  c <- get_self ;;
  match m_mysql c with
  | Some p =>
      outside (Some (call_mysql_close p)) (fun d => (tt, mysql_close p d)) ;;
      update_self (set_mysql None) ;;
      update_self (set_connected false)
  | None => ret tt
  end ;;
  LOG_INFO ("MySQL Connection closed [" ++ m_connectionId c ++ "]") ;;
  unlock.

(** The destructor. *)
Definition destroy : M (World D) unit :=
  close ;;
  update_self (set_connected false) ;;
  c <- get_self ;;
  LOG_INFO ("destroy connection object [" ++ m_connectionId c ++ "]").

Definition not_established (c : Connection) : bool :=
  match m_mysql c with
  | None => true
  | Some _ => negb (m_connected c)
  end.

Definition beginTransaction (fuel : nat) : M (World D) bool :=
  lock ;;
  c <- get_self ;;
  if not_established c then
    LOG_ERROR ("Connection not established [" ++ m_connectionId c ++ "]") ;;
    unlock ;; ret false
  else
    LOG_DEBUG ("start transaction [" ++ m_connectionId c ++ "]") ;;
    rc <- do_mysql_query (m_mysql c) "START TRANSACTION" ;;
    if negb (rc =? 0)%Z then
      last <- getLastError fuel ;;
      let error := "Failed to begin transaction [" ++ m_connectionId c ++ "]: " ++ last in
      LOG_ERROR error ;;
      unlock ;; ret false
    else
      updateLastActiveTime ;;
      unlock ;; ret true.

Definition commit (fuel : nat) : M (World D) bool :=
  lock ;;
  c <- get_self ;;
  if not_established c then
    LOG_ERROR ("Connection not established! [" ++ m_connectionId c ++ "]") ;;
    unlock ;; ret false
  else
    LOG_DEBUG ("commit transaction [" ++ m_connectionId c ++ "]") ;;
    rc <- do_mysql_query (m_mysql c) "COMMIT" ;;
    if negb (rc =? 0)%Z then
      last <- getLastError fuel ;;
      let error := "Failed to commit transaction [" ++ m_connectionId c ++ "]: " ++ last in
      LOG_ERROR error ;;
      unlock ;; ret false
    else
      updateLastActiveTime ;;
      unlock ;; ret true.

Definition rollback (fuel : nat) : M (World D) bool :=
  lock ;;
  c <- get_self ;;
  (if not_established c
   then LOG_ERROR ("Connection not eatablished [" ++ m_connectionId c ++ "]")
   else ret tt) ;;
  LOG_DEBUG ("roll back transaction [" ++ m_connectionId c ++ "]") ;;
  rc <- do_mysql_query (m_mysql c) "ROLLBACK" ;;
  if negb (rc =? 0)%Z then
    last <- getLastError fuel ;;
    LOG_ERROR ("Failed to rollback [" ++ m_connectionId c ++ "]: " ++ last) ;;
    unlock ;; ret false
  else
    updateLastActiveTime ;;
    unlock ;; ret true.

Definition getCreationTime (c : Connection) : Z := m_creationTime c.

Definition getLastActiveTime : M (World D) Z :=
  lock ;;
  c <- get_self ;;
  unlock ;; ret (m_lastActiveTime c).

Definition getConnectionId (c : Connection) : string := m_connectionId c.

(** [n] calls of [close] in a row. *)
Fixpoint close_times (n : nat) : M (World D) unit :=
  match n with
  | O => ret tt
  | S n' => close ;; close_times n'
  end.

(** The events a run added to the trace. *)
Definition added (before after : World D) : list event :=
  skipn (List.length (trace before)) (trace after).

Definition is_call_mysql_close (e : event) : bool :=
  match e with Call (call_mysql_close _) => true | _ => false end.

Definition is_call_mysql_real_connect (e : event) : bool :=
  match e with Call (call_mysql_real_connect _) => true | _ => false end.

Definition is_call_mysql_query (e : event) : bool :=
  match e with Call (call_mysql_query _ _) => true | _ => false end.

Definition count_events (p : event -> bool) (l : list event) : nat :=
  List.length (filter p l).

(** Two objects that agree on every member but [m_lastActiveTime]. *)
Definition same_but_lastActiveTime (c c' : Connection) : Prop :=
  m_mysql c' = m_mysql c /\
  m_host c' = m_host c /\
  m_user c' = m_user c /\
  m_password c' = m_password c /\
  m_database c' = m_database c /\
  m_port c' = m_port c /\
  m_connectionId c' = m_connectionId c /\
  m_creationTime c' = m_creationTime c /\
  m_mutex c' = m_mutex c /\
  m_connected c' = m_connected c.

(** The class invariant: a session is only ever marked connected on an
    allocated handle. *)
Definition handle_invariant (c : Connection) : Prop :=
  m_mysql c = None -> m_connected c = false.

(** A computation that leaves the handle and the connected flag alone. *)
Definition keeps_handle {A : Type} (m : M (World D) A) : Prop :=
  forall w,
    m_mysql (self (snd (m w))) = m_mysql (self w) /\
    m_connected (self (snd (m w))) = m_connected (self w).

(** The public methods modelled above, and the world one call leaves. *)
Inductive method : Type :=
| do_connect
| do_close
| do_isValid
| do_beginTransaction
| do_commit
| do_rollback
| do_getLastError
| do_getLastErrorCode
| do_getLastActiveTime.

Definition after (fuel : nat) (w : World D) (m : method) : World D :=
  match m with
  | do_connect => snd (connect fuel w)
  | do_close => snd (close w)
  | do_isValid => snd (isValid fuel w)
  | do_beginTransaction => snd (beginTransaction fuel w)
  | do_commit => snd (commit fuel w)
  | do_rollback => snd (rollback fuel w)
  | do_getLastError => snd (getLastError fuel w)
  | do_getLastErrorCode => snd (getLastErrorCode fuel w)
  | do_getLastActiveTime => snd (getLastActiveTime w)
  end.

End Methods.

End Conn.

(** ** A small concrete outside world

    One server that either answers or not, one handle, a clock that ticks
    once per reading.  It gives the statements about [Connection] concrete
    runs to be checked on. *)

Module Sim.

Import Conn.

Record Server : Type := {
  reachable : bool;            (* the server answers connection attempts and probes *)
  session : bool;              (* the handle has a session *)
  rejected : list string;      (* statements the server refuses *)
  last_error : string;
  last_errno : N;
  clock : Z
}.

Definition with_error (s : Server) (live : bool) (msg : string) (code : N) : Server :=
  {| reachable := reachable s; session := live; rejected := rejected s;
     last_error := msg; last_errno := code; clock := clock s |}.

Definition tick (s : Server) : Z * Server :=
  (clock s,
   {| reachable := reachable s; session := session s; rejected := rejected s;
      last_error := last_error s; last_errno := last_errno s;
      clock := (clock s + 1)%Z |}).

Definition sim_real_connect (p : MYSQL_ptr) (s : Server) : option MYSQL_ptr * Server :=
  if reachable s then (Some p, with_error s true EmptyString 0)
  else (None, with_error s false "Can't connect to MySQL server on 'localhost' (111)" 2003).

Definition sim_ping (s : Server) : Z * Server :=
  if session s && reachable s then (0%Z, with_error s true EmptyString 0)
  else (1%Z, with_error s (session s) "MySQL server has gone away" 2006).

Definition sim_query (stmt : string) (s : Server) : Z * Server :=
  if session s && reachable s then
    if existsb (String.eqb stmt) (rejected s)
    then (1%Z, with_error s true "You have an error in your SQL syntax" 1064)
    else (0%Z, with_error s true EmptyString 0)
  else (1%Z, with_error s (session s) "MySQL server has gone away" 2006).

#[export] Instance server_environment : Environment Server := {
  generateRandomString := fun _ s => ("k3Yx09QwErTy42Zz", s);
  currentTimeMillis := tick;
  mysql_init := fun s => (Some 1%N, s);
  mysql_options := fun _ _ _ s => (0%Z, s);
  mysql_real_connect := fun p _ _ _ _ _ s => sim_real_connect p s;
  mysql_close := fun _ s => with_error s false (last_error s) (last_errno s);
  mysql_ping := fun _ s => sim_ping s;
  mysql_query := fun _ stmt s => sim_query stmt s;
  mysql_error := fun _ s => last_error s;
  mysql_errno := fun _ s => last_errno s
}.

Definition server_up : Server :=
  {| reachable := true; session := false; rejected := ["COMMIT"];
     last_error := EmptyString; last_errno := 0; clock := 1000 |}.

Definition server_down : Server :=
  {| reachable := false; session := false; rejected := [];
     last_error := EmptyString; last_errno := 0; clock := 1000 |}.

(** The world right after [Connection conn("localhost", "admin", "123456", "testdb")]. *)
Definition fresh (s : Server) : World Server :=
  snd (construct "localhost" "admin" "123456" "testdb" 3306 s).

(** The same after a first [connect()]. *)
Definition connected (s : Server) : World Server :=
  snd (connect 1 (fresh s)).

(** The server stops answering. *)
Definition unplug (w : World Server) : World Server :=
  {| self := self w;
     env := {| reachable := false; session := session (env w);
               rejected := rejected (env w); last_error := last_error (env w);
               last_errno := last_errno (env w); clock := clock (env w) |};
     trace := trace w |}.

End Sim.

(** ** Sample data for concrete runs *)

Module Samples.

Import QR.

(** [SELECT id, name, note]: two rows; the first has a NULL note, the second
    a name that is no number and a note with an embedded zero byte. *)
Definition users : MYSQL_RES :=
  {| fields := [ {| name := "id" |}; {| name := "name" |}; {| name := "note" |} ];
     data := [ [Some "7"; Some "41"; None];
               [Some "8"; Some "li si"; Some (String "a" (String zero "b"))] ];
     data_cursor := 0;
     current_row := None |}.

Definition empty_cursor : QueryResult :=
  {| m_result := None; m_currentRow := None; m_lengths := None;
     m_fieldCount := 0; m_rowCount := 0; m_affectedRows := 0; m_fieldNames := [] |}.

Definition built (r : outcome QueryResult * console) : QueryResult :=
  match fst r with
  | Returned q => q
  | _ => empty_cursor
  end.

(** The cursor as constructed, then on its first and on its second row. *)
Definition before_first : QueryResult := built (construct (Some users) 0 []).
Definition on_first : QueryResult := snd (next before_first).
Definition on_second : QueryResult := snd (next on_first).

(** A [strtod_model] that converts integral text only, rounding to binary64. *)
Definition stod_integral : strtod_model :=
  fun s =>
    match strtol10 s with
    | None => inr (invalid_argument "stod")
    | Some v => inl (binary_normalize 53 1024 v 0 false)
    end.

End Samples.

(** ** The rest of the result cursor: access by name, destruction, moves *)

Module QRMore.

Import QR.

(** [std::find(m_fieldNames.cbegin(), m_fieldNames.cend(), fieldName) ==
    m_fieldNames.cend()]. *)
Definition not_a_field (q : QueryResult) (fieldName : string) : bool :=
  negb (existsb (String.eqb fieldName) (m_fieldNames q)).

(** The loop of [getFieldIndex], entered at index [i] with [names] still to
    visit.  The counter is an [unsigned int] compared with the size of a
    vector that the constructor fills with [m_fieldCount] names, itself an
    [unsigned int]: it cannot wrap. *)
Fixpoint find_field (names : list string) (i : N) (fieldName : string) : option N :=
  match names with
  | [] => None
  | n :: rest =>
      if String.eqb n fieldName then Some i
      else find_field rest (i + 1)%N fieldName
  end.

Definition getFieldIndex (q : QueryResult) (fieldName : string) : M console N :=
  match find_field (m_fieldNames q) 0%N fieldName with
  | Some i => ret i
  | None => throw (out_of_range ("Field name not found: " ++ fieldName))
  end.

Definition invalid_field (fieldName : string) : exn :=
  invalid_argument (fieldName ++ " is an invalid fieldName, please check and input again!").

(** The accessors by field name. *)
Definition getString_byName (q : QueryResult) (fieldName : string) : M console string :=
  if not_a_field q fieldName then throw (invalid_field fieldName)
  else index <- getFieldIndex q fieldName ;; getString q index.

Definition getInt_byName (q : QueryResult) (fieldName : string) : M console Z :=
  if not_a_field q fieldName then throw (invalid_field fieldName)
  else index <- getFieldIndex q fieldName ;; getInt q index.

Definition getLong_byName (q : QueryResult) (fieldName : string) : M console Z :=
  if not_a_field q fieldName then throw (invalid_field fieldName)
  else index <- getFieldIndex q fieldName ;; getLong q index.

Definition getDouble_byName (stod : strtod_model) (q : QueryResult) (fieldName : string)
  : M console double :=
  if not_a_field q fieldName then throw (invalid_field fieldName)
  else index <- getFieldIndex q fieldName ;; getDouble stod q index.

Definition isNull_byName (q : QueryResult) (fieldName : string) : M console bool :=
  if not_a_field q fieldName then throw (invalid_field fieldName)
  else index <- getFieldIndex q fieldName ;; isNull q index.

(** The destructor.  Its value is the result set handed to
    [mysql_free_result], if any. *)
Definition destroy (q : QueryResult) : M console (option MYSQL_RES) :=
  match m_result q with
  | Some r =>
      LOG_DEBUG "QueryResult destoryed, free resultSet." ;;
      ret (Some r)
  | None =>
      LOG_DEBUG "QueryResult destoryed." ;;
      ret None
  end.

(** What a moved-from cursor holds: null pointers, zero counts, and the
    moved-from (empty) vector of names. *)
Definition moved_from : QueryResult :=
  {| m_result := None; m_currentRow := None; m_lengths := None;
     m_fieldCount := 0; m_rowCount := 0; m_affectedRows := 0; m_fieldNames := [] |}.

(** The move constructor: the new object, then [other] as it is left. *)
Definition move_construct (other : QueryResult) : QueryResult * QueryResult :=
  ({| m_result := m_result other; m_currentRow := m_currentRow other;
      m_lengths := m_lengths other; m_fieldCount := m_fieldCount other;
      m_rowCount := m_rowCount other; m_affectedRows := m_affectedRows other;
      m_fieldNames := m_fieldNames other |},
   moved_from).

(** The move assignment [this = std::move(other)].  [distinct] is the test
    [this != &other]; when it fails, [other] is [this].  The value is the
    object assigned to, [other] as it is left, and the result set handed to
    [mysql_free_result], if any. *)
Definition move_assign (distinct : bool) (this other : QueryResult)
  : QueryResult * QueryResult * option MYSQL_RES :=
  if distinct then
    ({| m_result := m_result other; m_currentRow := m_currentRow other;
        m_lengths := m_lengths other; m_fieldCount := m_fieldCount other;
        m_rowCount := m_rowCount other; m_affectedRows := m_affectedRows other;
        m_fieldNames := m_fieldNames other |},
     moved_from,
     m_result this)
  else (this, this, None).

(** The result sets a sequence of releases has freed. *)
Definition freed (releases : list (option MYSQL_RES)) : list MYSQL_RES :=
  flat_map (fun o => match o with Some r => [r] | None => [] end) releases.

End QRMore.

(** ** The rest of the connection: statements and escaping *)

Module ConnMore.

Import Conn.

(** The further driver calls of [executeInternal] and [escapeString].
    [mysql_real_escape_string] yields the escaped text it writes through its
    output pointer (followed by a terminating zero byte); the length it
    returns is the length of that text.  These calls are not recorded in the
    trace. *)
Class StatementDriver (D : Type) : Type := {
  mysql_store_result : MYSQL_ptr -> D -> option QR.MYSQL_RES * D;
  mysql_field_count : MYSQL_ptr -> D -> N;
  mysql_affected_rows : MYSQL_ptr -> D -> N;
  mysql_real_escape_string : MYSQL_ptr -> string -> D -> string * D
}.

Section Statements.

Context {D : Type} `{Environment D} `{StatementDriver D}.

(** A computation of the cursor, run on the trace of the world. *)
Definition on_console {A : Type} (m : M QR.console A) : M (World D) A :=
  fun w =>
    let (o, tr) := m (trace w) in
    (o, {| self := self w; env := env w; trace := tr |}).

Definition statement_kind (isQuery : bool) : string :=
  if isQuery then "query" else "update".

Definition executeInternal (fuel : nat) (sql : string) (isQuery : bool)
  : M (World D) QR.QueryResult :=
  valid <- isValid fuel ;;
  c <- get_self ;;
  if negb valid then
    LOG_ERROR ("Connection not established [" ++ m_connectionId c ++ "]") ;;
    throw (runtime_error ("Connection not established [" ++ m_connectionId c ++ "]"))
  else
    lock ;;
    LOG_DEBUG ("Connection execute " ++ statement_kind isQuery ++
               " [" ++ m_connectionId c ++ "], sql: " ++ sql) ;;
    updateLastActiveTime ;;
    rc <- do_mysql_query (m_mysql c) (QR.c_str sql) ;;
    if negb (rc =? 0)%Z then
      error <- getLastError fuel ;;
      LOG_ERROR ("connection failed to execute " ++ statement_kind isQuery ++
                 " [" ++ m_connectionId c ++ "]: " ++ error ++ ", SQL: " ++ sql) ;;
      unlock ;;
      throw (runtime_error ("SQL execution failed: " ++ error))
    else if isQuery then
      result <- on_handle (m_mysql c) (fun p => outside None (mysql_store_result p)) ;;
      columns <- match result with
                 | Some _ => ret 0%N
                 | None =>
                     on_handle (m_mysql c)
                       (fun p => outside None (fun d => (mysql_field_count p d, d)))
                 end ;;
      if (0 <? columns)%N then
        error <- getLastError fuel ;;
        LOG_ERROR ("Failed to store query result [" ++ m_connectionId c ++ "]: " ++ error) ;;
        unlock ;;
        throw (runtime_error ("Failed to store query result [" ++ m_connectionId c ++
                              "]: " ++ error))
      else
        q <- on_console (QR.construct result 0) ;;
        unlock ;;
        ret q
    else
      affects <- on_handle (m_mysql c)
                   (fun p => outside None (fun d => (mysql_affected_rows p d, d))) ;;
      q <- on_console (QR.construct None affects) ;;
      unlock ;;
      ret q.

Definition executeQuery (fuel : nat) (sql : string) : M (World D) QR.QueryResult :=
  executeInternal fuel sql true.

(** The shared pointer is the only owner: the cursor dies at the return. *)
Definition executeUpdate (fuel : nat) (sql : string) : M (World D) N :=
  result <- executeInternal fuel sql false ;;
  on_console (QRMore.destroy result) ;;
  ret (QR.getAffectedRows result).

(** How [escapeString] can end: like any other method, or with the driver
    having written [needed] bytes into the [capacity] bytes of [escaped]. *)
Inductive escape_outcome : Type :=
| escape_ended (o : outcome string)
| escape_overrun (capacity needed : N).

Definition escapeString (fuel : nat) (sql : string) : World D -> escape_outcome * World D :=
  fun w =>
    match
      (valid <- isValid fuel ;;
       c <- get_self ;;
       if negb valid then
         LOG_ERROR ("Connection not established, can not escape string [" ++
                    m_connectionId c ++ "]") ;;
         throw (runtime_error "connection not established, cannot escape string!")
       else
         on_handle (m_mysql c) (fun p => outside None (mysql_real_escape_string p sql))) w
    with
    | (Returned text, w') =>
        let capacity := (N.of_nat (String.length sql) + 1)%N in
        let needed := (N.of_nat (String.length text) + 1)%N in
        if (needed <=? capacity)%N
        then (escape_ended
                (Returned (QR.string_of_bytes text (N.of_nat (String.length text)))), w')
        else (escape_overrun capacity needed, w')
    | (Thrown e, w') => (escape_ended (Thrown e), w')
    | (UB u, w') => (escape_ended (UB u), w')
    | (OutOfFuel, w') => (escape_ended OutOfFuel, w')
    end.

(** A call has settled when it returned or threw. *)
Definition settled {A : Type} (o : outcome A) : bool :=
  match o with
  | Returned _ | Thrown _ => true
  | UB _ | OutOfFuel => false
  end.

(** Every public method, with its arguments. *)
Inductive call : Type :=
| connect_
| close_
| isValid_
| executeQuery_ (sql : string)
| executeUpdate_ (sql : string)
| beginTransaction_
| commit_
| rollback_
| getLastError_
| getLastErrorCode_
| escapeString_ (sql : string)
| getLastActiveTime_.

Definition finish {A : Type} (r : outcome A * World D) : bool * World D :=
  (settled (fst r), snd r).

(** One call: whether it settled, and the world it leaves. *)
Definition perform (fuel : nat) (c : call) (w : World D) : bool * World D :=
  match c with
  | connect_ => finish (connect fuel w)
  | close_ => finish (close w)
  | isValid_ => finish (isValid fuel w)
  | executeQuery_ sql => finish (executeQuery fuel sql w)
  | executeUpdate_ sql => finish (executeUpdate fuel sql w)
  | beginTransaction_ => finish (beginTransaction fuel w)
  | commit_ => finish (commit fuel w)
  | rollback_ => finish (rollback fuel w)
  | getLastError_ => finish (getLastError fuel w)
  | getLastErrorCode_ => finish (getLastErrorCode fuel w)
  | escapeString_ sql =>
      match escapeString fuel sql w with
      | (escape_ended o, w') => (settled o, w')
      | (escape_overrun _ _, w') => (false, w')
      end
  | getLastActiveTime_ => finish (getLastActiveTime w)
  end.

Definition perform_all (fuel : nat) (cs : list call) (w : World D) : World D :=
  fold_left (fun w c => snd (perform fuel c w)) cs w.

(** The members fixed by the constructor. *)
Definition identity (c : Connection) : string * string * string * string * N * string * Z :=
  (m_host c, m_user c, m_password c, m_database c, m_port c,
   m_connectionId c, m_creationTime c).

(** The pair that tells the state of the connection. *)
Definition state (c : Connection) : option MYSQL_ptr * bool :=
  (m_mysql c, m_connected c).

(** A computation that leaves [f] of the object as it finds it. *)
Definition preserves {X A : Type} (f : Connection -> X) (m : M (World D) A) : Prop :=
  forall w, f (self (snd (m w))) = f (self w).

(** A computation entered with the mutex held [n] times more than some base
    count: it returns with it held [k] times more, and throws with it held
    [e] times more. *)
Definition moves {A : Type} (n k e : nat) (m : M (World D) A) : Prop :=
  forall base w,
    m_mutex (self w) = base + n ->
    match fst (m w) with
    | Returned _ => m_mutex (self (snd (m w))) = base + k
    | Thrown _ => m_mutex (self (snd (m w))) = base + e
    | _ => True
    end.

Definition is_call (e : event) : bool :=
  match e with Call _ => true | _ => false end.

End Statements.

End ConnMore.

(** ** A concrete outside world with statements

    The sample server, with what the last statement left on the handle: a
    result set to store, the number of columns it should have, the number
    of rows it affected. *)

Module Live.

Import Conn ConnMore.

#[local] Existing Instance Sim.server_environment.

Record Session : Type := {
  server : Sim.Server;
  pending : option QR.MYSQL_RES;
  columns : N;
  affected : N
}.

Definition on_server {A : Type} (f : Sim.Server -> A * Sim.Server) (s : Session)
  : A * Session :=
  let (a, sv) := f (server s) in
  (a, {| server := sv; pending := pending s; columns := columns s;
         affected := affected s |}).

(** [(my_ulonglong)-1], what [mysql_affected_rows] gives after a failure or
    a result-producing statement. *)
Definition NO_ROWS : N := 18446744073709551615.

Definition live_query (stmt : string) (s : Session) : Z * Session :=
  let (rc, sv) := Sim.sim_query stmt (server s) in
  if (rc =? 0)%Z then
    if String.eqb stmt "SELECT id, name, note FROM users" then
      (rc, {| server := sv; pending := Some Samples.users; columns := 3;
              affected := NO_ROWS |})
    else if String.eqb stmt "SELECT note FROM archive" then
      (* the server answers, the client cannot store the rows *)
      (rc, {| server := sv; pending := None; columns := 1; affected := NO_ROWS |})
    else
      (rc, {| server := sv; pending := None; columns := 0; affected := 1 |})
  else
    (rc, {| server := sv; pending := None; columns := 0; affected := NO_ROWS |}).

(** The escaping rule of the client library for a single-byte character
    set: a backslash before the bytes 0, 10, 13, 26, 34, 39 and 92, the
    first four written as [0], [n], [r] and [Z]. *)
Definition needs_escape (c : ascii) : bool :=
  let n := N_of_ascii c in
  ((n =? 0) || (n =? 10) || (n =? 13) || (n =? 26) || (n =? 34) || (n =? 39) ||
   (n =? 92))%N.

Definition escaped_byte (c : ascii) : ascii :=
  let n := N_of_ascii c in
  if (n =? 0)%N then "0"%char
  else if (n =? 10)%N then "n"%char
  else if (n =? 13)%N then "r"%char
  else if (n =? 26)%N then "Z"%char
  else c.

Fixpoint escape_text (s : string) : string :=
  match s with
  | EmptyString => EmptyString
  | String c rest =>
      if needs_escape c
      then String "\"%char (String (escaped_byte c) (escape_text rest))
      else String c (escape_text rest)
  end.

(** How many bytes of a text the rule escapes. *)
Fixpoint specials (s : string) : nat :=
  match s with
  | EmptyString => 0
  | String c rest => (if needs_escape c then 1 else 0) + specials rest
  end.

#[export] Instance session_environment : Environment Session := {
  generateRandomString := fun n => on_server (generateRandomString n);
  currentTimeMillis := on_server currentTimeMillis;
  mysql_init := on_server mysql_init;
  mysql_options := fun p o v => on_server (mysql_options p o v);
  mysql_real_connect := fun p h u pw db port =>
                          on_server (mysql_real_connect p h u pw db port);
  mysql_close := fun p s => snd (on_server (fun sv => (tt, mysql_close p sv)) s);
  mysql_ping := fun p => on_server (mysql_ping p);
  mysql_query := fun _ stmt => live_query stmt;
  mysql_error := fun p s => mysql_error p (server s);
  mysql_errno := fun p s => mysql_errno p (server s)
}.

#[export] Instance session_statements : StatementDriver Session := {
  mysql_store_result := fun _ s =>
    (pending s,
     {| server := server s; pending := None; columns := columns s;
        affected := affected s |});
  mysql_field_count := fun _ s => columns s;
  mysql_affected_rows := fun _ s => affected s;
  mysql_real_escape_string := fun _ text s => (escape_text text, s)
}.

Definition idle (sv : Sim.Server) : Session :=
  {| server := sv; pending := None; columns := 0; affected := 0 |}.

(** The world right after construction, and after a first [connect()]. *)
Definition fresh (sv : Sim.Server) : World Session :=
  snd (construct "localhost" "admin" "123456" "testdb" 3306 (idle sv)).

Definition connected (sv : Sim.Server) : World Session :=
  snd (connect 1 (fresh sv)).

(** The server stops answering. *)
Definition down (sv : Sim.Server) : Sim.Server :=
  {| Sim.reachable := false; Sim.session := Sim.session sv;
     Sim.rejected := Sim.rejected sv; Sim.last_error := Sim.last_error sv;
     Sim.last_errno := Sim.last_errno sv; Sim.clock := Sim.clock sv |}.

Definition unplug (w : World Session) : World Session :=
  {| self := self w;
     env := {| server := down (server (env w)); pending := pending (env w);
               columns := columns (env w); affected := affected (env w) |};
     trace := trace w |}.

(** The three worlds of the sample runs, evaluated once. *)
Definition unconnected : World Session := Eval vm_compute in fresh Sim.server_up.
Definition online : World Session := Eval vm_compute in connected Sim.server_up.
Definition stranded : World Session := Eval vm_compute in unplug online.

End Live.

(** ** More sample data *)

Module MoreSamples.

Import QR.

(** [SELECT a.n, b.n]: two columns of the same name, one row; the cursor is
    on that row. *)
Definition twin_columns : MYSQL_RES :=
  {| fields := [ {| name := "n" |}; {| name := "n" |} ];
     data := [ [Some "1"; Some "2"] ];
     data_cursor := 0;
     current_row := None |}.

Definition twins : QueryResult :=
  snd (next (Samples.built (construct (Some twin_columns) 0 []))).

(** [SELECT code, price, label]: one row of texts that begin with a number
    and go on with something else; the cursor is on that row. *)
Definition labels : MYSQL_RES :=
  {| fields := [ {| name := "code" |}; {| name := "price" |}; {| name := "label" |} ];
     data := [ [Some "12abc"; Some "3.7"; Some "99 bottles"] ];
     data_cursor := 0;
     current_row := None |}.

Definition on_labels : QueryResult :=
  snd (next (Samples.built (construct (Some labels) 0 []))).

End MoreSamples.

(** * Properties of the result cursor *)

Module QRFacts.

Import QR.

Lemma substring_whole (s : string) : substring 0 (String.length s) s = s.
Proof.
  induction s as [|c s IH]; simpl; [reflexivity|now rewrite IH].
Qed.

Lemma string_of_bytes_exact (v : string) :
  string_of_bytes v (N.of_nat (String.length v)) = v.
Proof.
  unfold string_of_bytes. rewrite Nat2N.id. apply substring_whole.
Qed.

(** What a successful [next] leaves in the cursor. *)
Lemma next_true_inv (q q' : QueryResult) :
  next q = (true, q') ->
  exists r row,
    m_result q = Some r /\
    nth_error (data r) (data_cursor r) = Some row /\
    m_result q' = Some (snd (mysql_fetch_row r)) /\
    m_currentRow q' = Some row /\
    m_lengths q' = Some (map cell_length row) /\
    m_fieldCount q' = m_fieldCount q.
Proof.
  unfold next, mysql_fetch_row.
  destruct (m_result q) as [r|] eqn:Hr; [|discriminate].
  destruct (nth_error (data r) (data_cursor r)) as [row|] eqn:Hrow; [|discriminate].
  intros Heq. injection Heq as <-.
  exists r, row. unfold mysql_fetch_lengths. simpl.
  rewrite Hrow. simpl. repeat split; reflexivity.
Qed.

Lemma checkIndex_ok (q : QueryResult) (index : N) (tr : console) :
  (index < m_fieldCount q)%N -> checkIndex q index tr = (Returned tt, tr).
Proof.
  intros Hlt. unfold checkIndex.
  destruct (m_fieldCount q <=? index)%N eqn:Hle; [|reflexivity].
  apply N.leb_le in Hle. lia.
Qed.

Lemma checkIndex_fails (q : QueryResult) (index : N) (tr : console) :
  (m_fieldCount q <= index)%N ->
  exists msg, checkIndex q index tr = (Thrown (out_of_range msg), tr).
Proof.
  intros Hle. unfold checkIndex.
  apply N.leb_le in Hle. rewrite Hle. eexists. reflexivity.
Qed.

(** The common prefix of every index-based accessor, once both checks pass. *)
Lemma checked_cell {A : Type} (q : QueryResult) (row : MYSQL_ROW) (index : N)
    (c : cell) (k : cell -> M console A) (tr : console) :
  (index < m_fieldCount q)%N ->
  m_currentRow q = Some row ->
  nth_error row (N.to_nat index) = Some c ->
  (checkIndex q index ;; checkRow q ;; x <- currentRow_at q index ;; k x)%monad tr
  = k c tr.
Proof.
  intros Hi Hrow Hc. unfold bind at 1. rewrite (checkIndex_ok q index tr Hi).
  unfold bind at 1, checkRow. rewrite Hrow. unfold ret at 1.
  unfold bind at 1, currentRow_at. rewrite Hrow, Hc. reflexivity.
Qed.

Lemma try_catch_returned {S A : Type} (body : M S A) (h : exn -> M S A)
    (s s' : S) (a : A) :
  body s = (Returned a, s') -> try_catch body h s = (Returned a, s').
Proof.
  intros Hb. unfold try_catch. now rewrite Hb.
Qed.

Lemma navigate_frame (q : QueryResult) (n : navigation) :
  m_fieldCount (navigate q n) = m_fieldCount q /\
  m_rowCount (navigate q n) = m_rowCount q /\
  m_fieldNames (navigate q n) = m_fieldNames q /\
  m_affectedRows (navigate q n) = m_affectedRows q /\
  option_map fields (m_result (navigate q n)) = option_map fields (m_result q) /\
  option_map data (m_result (navigate q n)) = option_map data (m_result q).
Proof.
  destruct n; unfold navigate, next, reset, mysql_fetch_row;
    destruct (m_result q) as [r|] eqn:Hr; simpl; rewrite ?Hr; auto 10;
    destruct (nth_error (data r) (data_cursor r)); simpl; auto 10.
Qed.

(** The constructor on a result set always returns, with the metadata of the
    result set. *)
Lemma push_field_names_all (fs : list MYSQL_FIELD) (done todo : list MYSQL_FIELD)
    (names : list string) :
  fs = (done ++ todo)%list ->
  push_field_names fs (List.length done) (List.length todo) names
  = Returned (names ++ map name todo)%list.
Proof.
  revert done names. induction todo as [|f todo IH]; intros done names Hfs; simpl.
  - now rewrite app_nil_r.
  - assert (Hnth : nth_error fs (List.length done) = Some f).
    { subst fs. rewrite nth_error_app2 by lia. now rewrite Nat.sub_diag. }
    rewrite Hnth.
    specialize (IH (done ++ [f])%list (names ++ [name f])%list).
    rewrite length_app in IH. simpl in IH. rewrite Nat.add_1_r in IH.
    rewrite IH by (subst fs; now rewrite <- app_assoc).
    now rewrite <- app_assoc.
Qed.

Lemma construct_result_set (r : MYSQL_RES) (affected : N) (tr : console) :
  exists q tr',
    construct (Some r) affected tr = (Returned q, tr') /\
    m_result q = Some r /\
    m_currentRow q = None /\
    m_fieldCount q = mysql_num_fields r /\
    m_rowCount q = mysql_num_rowCount r /\
    m_fieldNames q = map name (fields r).
Proof.
  pose proof (push_field_names_all (fields r) [] (fields r) [] eq_refl) as Hp.
  cbn [List.length app] in Hp.
  unfold construct, initializeMetaData, bind, ret, LOG_DEBUG, emit.
  cbn [m_result]. unfold mysql_num_fields. rewrite Nat2N.id, Hp.
  do 2 eexists. split; [reflexivity|]. cbn. auto.
Qed.

(** Navigation on any cursor leaves everything but the cursor position. *)
Lemma navigate_all_frame (ns : list navigation) (q : QueryResult) :
  getFieldCount (navigate_all ns q) = getFieldCount q /\
  getRowCount (navigate_all ns q) = getRowCount q /\
  getFieldNames (navigate_all ns q) = getFieldNames q /\
  getAffectedRows (navigate_all ns q) = getAffectedRows q /\
  option_map fields (m_result (navigate_all ns q)) = option_map fields (m_result q) /\
  option_map data (m_result (navigate_all ns q)) = option_map data (m_result q).
Proof.
  unfold navigate_all, getFieldCount, getRowCount, getFieldNames, getAffectedRows.
  revert q. induction ns as [|n ns IH]; intros q; simpl.
  - auto 10.
  - destruct (IH (navigate q n)) as (H1 & H2 & H3 & H4 & H5 & H6).
    destruct (navigate_frame q n) as (F1 & F2 & F3 & F4 & F5 & F6).
    rewrite H1, H2, H3, H4, H5, H6. auto 10.
Qed.

(** C8: the constructor, given a result set, returns a cursor [q]; after any
    sequence of [next()] and [reset()] calls [getFieldCount()],
    [getRowCount()] and [getFieldNames()] answer as they did on [q].  Such
    calls change the current row and the lengths array only: the
    affected-row count and the columns and rows of the owned result set stay
    as they are (inside the result set the driver moves its row position). *)
Theorem C8_metadata_stable (r : MYSQL_RES) (affected : N) (tr : console)
    (ns : list navigation) :
  exists q tr',
    construct (Some r) affected tr = (Returned q, tr') /\
    getFieldCount (navigate_all ns q) = getFieldCount q /\
    getRowCount (navigate_all ns q) = getRowCount q /\
    getFieldNames (navigate_all ns q) = getFieldNames q /\
    getAffectedRows (navigate_all ns q) = getAffectedRows q /\
    option_map fields (m_result (navigate_all ns q)) = Some (fields r) /\
    option_map data (m_result (navigate_all ns q)) = Some (data r).
Proof.
  destruct (construct_result_set r affected tr) as (q & tr' & Hq & Hres & _).
  destruct (navigate_all_frame ns q) as (H1 & H2 & H3 & H4 & H5 & H6).
  exists q, tr'. rewrite H5, H6, Hres. cbn [option_map]. auto 10.
Qed.

(** C4: on a current row established by a successful [next()], at a valid
    index whose value is SQL NULL, [isNull] returns true, [getString] the
    empty string, [getInt] and [getLong] 0 and [getDouble] 0.0; nothing is
    printed or logged. *)
Theorem C4_null_field (stod : strtod_model) (q q' : QueryResult) (row : MYSQL_ROW)
    (index : N) (tr : console) :
  next q = (true, q') ->
  m_currentRow q' = Some row ->
  (index < getFieldCount q')%N ->
  nth_error row (N.to_nat index) = Some None ->
  isNull q' index tr = (Returned true, tr) /\
  getString q' index tr = (Returned EmptyString, tr) /\
  getInt q' index tr = (Returned 0%Z, tr) /\
  getLong q' index tr = (Returned 0%Z, tr) /\
  getDouble stod q' index tr = (Returned double_zero, tr).
Proof.
  intros Hnext Hrow Hi Hnull.
  destruct (next_true_inv q q' Hnext) as (r & row0 & _ & _ & Hres & _).
  unfold getFieldCount in Hi.
  unfold isNull, getString, getInt, getLong, getDouble.
  rewrite Hres, Hrow.
  repeat split; apply try_catch_returned;
    rewrite (checked_cell q' row index None _ tr Hi Hrow Hnull); reflexivity.
Qed.

(** C4 on the first row of the sample, whose third column is NULL. *)
Lemma C4_null_field_witness :
  isNull Samples.on_first 2 [] = (Returned true, []) /\
  getString Samples.on_first 2 [] = (Returned EmptyString, []) /\
  getInt Samples.on_first 2 [] = (Returned 0%Z, []) /\
  getLong Samples.on_first 2 [] = (Returned 0%Z, []) /\
  getDouble Samples.stod_integral Samples.on_first 2 [] = (Returned double_zero, []).
Proof.
  apply (C4_null_field Samples.stod_integral Samples.before_first Samples.on_first
           [Some "7"; Some "41"; None] 2 []).
  - reflexivity.
  - reflexivity.
  - reflexivity.
  - reflexivity.
Defined.

(** What [strtol] reads from a text that begins with a decimal numeral.  The
    numerals are those of the standard library: [NilZero.string_of_uint] and
    [NilZero.string_of_int] print them, [Z.of_uint] and [Z.of_int] are their
    values. *)
Lemma read_digits_stops (rest : string) (acc : option Z) :
  (forall c tail, rest = String c tail -> isdigit c = false) ->
  read_digits rest acc = acc.
Proof.
  intros Hrest. destruct rest as [|c tail]; [reflexivity|].
  cbn [read_digits]. rewrite (Hrest c tail eq_refl). reflexivity.
Qed.

Lemma read_digits_acc (u : Decimal.uint) (rest : string) (p : positive) :
  (forall c tail, rest = String c tail -> isdigit c = false) ->
  read_digits (NilEmpty.string_of_uint u ++ rest) (Some (Z.pos p))
  = Some (Z.pos (Pos.of_uint_acc u p)).
Proof.
  intros Hrest. revert p.
  induction u as [|u IH|u IH|u IH|u IH|u IH|u IH|u IH|u IH|u IH|u IH]; intros p;
    cbn [NilEmpty.string_of_uint append Pos.of_uint_acc];
    [ apply read_digits_stops; exact Hrest | .. ];
    cbn [read_digits];
    match goal with
    | |- context [isdigit ?c] => change (isdigit c) with true; cbv iota
    end;
    match goal with
    | |- context [digit_value ?c] =>
        let d := eval vm_compute in (digit_value c) in
        change (digit_value c) with d
    end;
    rewrite <- IH; do 2 f_equal; lia.
Qed.

Lemma read_digits_zero (u : Decimal.uint) (rest : string) :
  (forall c tail, rest = String c tail -> isdigit c = false) ->
  read_digits (NilEmpty.string_of_uint u ++ rest) (Some 0%Z) = Some (Z.of_uint u).
Proof.
  intros Hrest.
  induction u as [|u IH|u IH|u IH|u IH|u IH|u IH|u IH|u IH|u IH|u IH];
    cbn [NilEmpty.string_of_uint append];
    [ apply read_digits_stops; exact Hrest | .. ];
    cbn [read_digits];
    match goal with
    | |- context [isdigit ?c] => change (isdigit c) with true; cbv iota
    end;
    match goal with
    | |- context [(10 * 0 + digit_value ?c)%Z] =>
        let d := eval vm_compute in (10 * 0 + digit_value c)%Z in
        change (10 * 0 + digit_value c)%Z with d
    end;
    [ exact IH | apply read_digits_acc; exact Hrest .. ].
Qed.

Lemma read_digits_numeral (u : Decimal.uint) (rest : string) :
  (forall c tail, rest = String c tail -> isdigit c = false) ->
  read_digits (NilZero.string_of_uint u ++ rest) None = Some (Z.of_uint u).
Proof.
  intros Hrest.
  destruct u as [|u|u|u|u|u|u|u|u|u|u];
    [ cbn [NilZero.string_of_uint append read_digits];
      change (isdigit "0") with true; cbv iota;
      apply (read_digits_stops rest (Some 0%Z) Hrest)
    | rewrite <- (read_digits_zero _ rest Hrest); reflexivity .. ].
Qed.

Lemma strtol10_numeral (i : Decimal.int) (rest : string) :
  (forall c tail, rest = String c tail -> isdigit c = false) ->
  strtol10 (NilZero.string_of_int i ++ rest) = Some (Z.of_int i).
Proof.
  intros Hrest. destruct i as [u|u].
  - cbn [NilZero.string_of_int Z.of_int].
    rewrite <- (read_digits_numeral u rest Hrest).
    destruct u; reflexivity.
  - cbn [NilZero.string_of_int append]. unfold strtol10.
    cbn [skip_space]. change (isspace "-") with false. cbv iota.
    rewrite (read_digits_numeral u rest Hrest). reflexivity.
Qed.

(** C5, amended: on a current row, at a valid index whose value is not NULL,
    a text that [std::stoi], [std::stoll] or [std::stod] refuses makes
    [getInt], [getLong] or [getDouble] log one warning and return zero; a
    text the conversion accepts is returned converted and nothing is logged;
    in neither case does the conversion error reach the caller.  The
    conversion accepts every text that begins with a number: a text made of a
    decimal integer followed by something that is no digit gives [getInt] and
    [getLong] that integer, and is refused only when the integer does not fit
    the type. *)
Theorem C5_conversion_failure_is_soft (stod : strtod_model) (q : QueryResult)
    (row : MYSQL_ROW) (index : N) (v : string) (tr : console) :
  m_currentRow q = Some row ->
  (index < getFieldCount q)%N ->
  nth_error row (N.to_nat index) = Some (Some v) ->
  let refused (type reason : string) :=
    (tr ++ [Log WARNING ("Failed to convert '" ++ c_str v ++ "' to " ++ type ++ ": "
                         ++ reason)])%list in
  (forall e, stoi (c_str v) = inr e ->
     getInt q index tr = (Returned 0%Z, refused "int" (what e))) /\
  (forall e, stoll (c_str v) = inr e ->
     getLong q index tr = (Returned 0%Z, refused "long long" (what e))) /\
  (forall e, stod (c_str v) = inr e ->
     getDouble stod q index tr = (Returned double_zero, refused "double" (what e))) /\
  (forall n, stoi (c_str v) = inl n -> getInt q index tr = (Returned n, tr)) /\
  (forall n, stoll (c_str v) = inl n -> getLong q index tr = (Returned n, tr)) /\
  (forall d, stod (c_str v) = inl d -> getDouble stod q index tr = (Returned d, tr)) /\
  (forall (i : Decimal.int) (rest : string),
     c_str v = NilZero.string_of_int i ++ rest ->
     (forall c tail, rest = String c tail -> isdigit c = false) ->
     getInt q index tr =
       (if ((INT_MIN <=? Z.of_int i) && (Z.of_int i <=? INT_MAX))%Z
        then (Returned (Z.of_int i), tr)
        else (Returned 0%Z, refused "int" "stoi")) /\
     getLong q index tr =
       (if ((LLONG_MIN <=? Z.of_int i) && (Z.of_int i <=? LLONG_MAX))%Z
        then (Returned (Z.of_int i), tr)
        else (Returned 0%Z, refused "long long" "stoll"))).
Proof.
  intros Hrow Hi Hv refused. unfold getFieldCount in Hi. unfold refused.
  unfold getInt, getLong, getDouble.
  repeat match goal with |- _ /\ _ => split end.
  1-6: intros e He; apply try_catch_returned;
    rewrite (checked_cell q row index (Some v) _ tr Hi Hrow Hv);
    unfold safeConvert_int, safeConvert_long, safeConvert_double;
    rewrite He; reflexivity.
  intros i rest Htext Hrest.
  assert (Hn := strtol10_numeral i rest Hrest). rewrite <- Htext in Hn.
  split.
  - destruct ((INT_MIN <=? Z.of_int i) && (Z.of_int i <=? INT_MAX))%Z eqn:Hfits;
      apply try_catch_returned;
      rewrite (checked_cell q row index (Some v) _ tr Hi Hrow Hv);
      unfold safeConvert_int, stoi; rewrite Hn, Hfits; reflexivity.
  - destruct ((LLONG_MIN <=? Z.of_int i) && (Z.of_int i <=? LLONG_MAX))%Z eqn:Hfits;
      apply try_catch_returned;
      rewrite (checked_cell q row index (Some v) _ tr Hi Hrow Hv);
      unfold safeConvert_long, stoll; rewrite Hn, Hfits; reflexivity.
Qed.

(** C5 on the second row of the sample, whose name column holds [li si],
    which no conversion accepts, and on a row whose first column holds
    [12abc], the numeral 12 followed by [abc]. *)
Lemma C5_conversion_failure_is_soft_witness :
  (getInt Samples.on_second 1 [] =
     (Returned 0%Z, [Log WARNING "Failed to convert 'li si' to int: stoi"]) /\
   getLong Samples.on_second 1 [] =
     (Returned 0%Z, [Log WARNING "Failed to convert 'li si' to long long: stoll"]) /\
   getDouble Samples.stod_integral Samples.on_second 1 [] =
     (Returned double_zero, [Log WARNING "Failed to convert 'li si' to double: stod"])) /\
  (getInt MoreSamples.on_labels 0 [] = (Returned 12%Z, []) /\
   getLong MoreSamples.on_labels 0 [] = (Returned 12%Z, [])).
Proof.
  split.
  - destruct (C5_conversion_failure_is_soft Samples.stod_integral Samples.on_second
                [Some "8"; Some "li si"; Some (String "a" (String zero "b"))]
                1 "li si" [] eq_refl eq_refl eq_refl)
      as (Hint & Hlong & Hdouble & _).
    split; [|split].
    + exact (Hint (invalid_argument "stoi") eq_refl).
    + exact (Hlong (invalid_argument "stoll") eq_refl).
    + exact (Hdouble (invalid_argument "stod") eq_refl).
  - destruct (C5_conversion_failure_is_soft Samples.stod_integral MoreSamples.on_labels
                [Some "12abc"; Some "3.7"; Some "99 bottles"]
                0 "12abc" [] eq_refl eq_refl eq_refl)
      as (_ & _ & _ & _ & _ & _ & Hnumeral).
    apply (Hnumeral (Decimal.Pos (Decimal.D1 (Decimal.D2 Decimal.Nil))) "abc" eq_refl).
    intros c tail Hrest. injection Hrest as <- _. reflexivity.
Defined.

(** C5 as it is worded fails on a row holding [12abc], [3.7] and
    [99 bottles].  None of the three texts is a decimal integer, yet [getInt]
    and [getLong] return 12, 3 and 99: not zero, and with no warning
    logged. *)
Lemma C5_leading_number_counterexample :
  m_currentRow MoreSamples.on_labels
  = Some [Some "12abc"; Some "3.7"; Some "99 bottles"] /\
  NilZero.int_of_string "12abc" = None /\
  NilZero.int_of_string "3.7" = None /\
  NilZero.int_of_string "99 bottles" = None /\
  getInt MoreSamples.on_labels 0 [] = (Returned 12%Z, []) /\
  getLong MoreSamples.on_labels 0 [] = (Returned 12%Z, []) /\
  getInt MoreSamples.on_labels 1 [] = (Returned 3%Z, []) /\
  getLong MoreSamples.on_labels 1 [] = (Returned 3%Z, []) /\
  getInt MoreSamples.on_labels 2 [] = (Returned 99%Z, []) /\
  getLong MoreSamples.on_labels 2 [] = (Returned 99%Z, []).
Proof.
  repeat split; vm_compute; reflexivity.
Qed.

(** C10: on a current row established by a successful [next()], at a valid
    index whose value is not NULL, [getString] returns the bytes of the
    value up to the length the driver reported for that column: all of
    them, zero bytes included. *)
Theorem C10_getString_uses_reported_length (q q' : QueryResult) (row : MYSQL_ROW)
    (index : N) (v : string) (tr : console) :
  next q = (true, q') ->
  m_currentRow q' = Some row ->
  (index < getFieldCount q')%N ->
  nth_error row (N.to_nat index) = Some (Some v) ->
  exists (lengths : list N) (len : N) (s : string),
    m_lengths q' = Some lengths /\
    nth_error lengths (N.to_nat index) = Some len /\
    getString q' index tr = (Returned s, tr) /\
    N.of_nat (String.length s) = len /\
    s = v.
Proof.
  intros Hnext Hrow Hi Hv.
  destruct (next_true_inv q q' Hnext) as (r & row0 & _ & _ & Hres & Hrow0 & Hlen & _).
  rewrite Hrow in Hrow0. injection Hrow0 as <-.
  unfold getFieldCount in Hi.
  exists (map cell_length row), (N.of_nat (String.length v)), v.
  split; [exact Hlen|]. split.
  { rewrite nth_error_map, Hv. reflexivity. }
  split; [|split; reflexivity].
  unfold getString. rewrite Hres, Hrow. apply try_catch_returned.
  rewrite (checked_cell q' row index (Some v) _ tr Hi Hrow Hv).
  unfold bind, lengths_at. rewrite Hlen, nth_error_map, Hv. simpl.
  unfold ret. now rewrite string_of_bytes_exact.
Qed.

(** C10 on the second row of the sample: the note is [a], a zero byte, [b]. *)
Lemma C10_getString_uses_reported_length_witness :
  exists (lengths : list N) (len : N) (s : string),
    m_lengths Samples.on_second = Some lengths /\
    nth_error lengths (N.to_nat 2) = Some len /\
    getString Samples.on_second 2 [] = (Returned s, []) /\
    N.of_nat (String.length s) = len /\
    s = String "a" (String zero "b").
Proof.
  apply (C10_getString_uses_reported_length Samples.on_first Samples.on_second
           [Some "8"; Some "li si"; Some (String "a" (String zero "b"))] 2 _ []).
  - reflexivity.
  - reflexivity.
  - reflexivity.
  - reflexivity.
Defined.

(** What the index-based accessors do with a bad index or a missing row, on
    every cursor: the exception of [checkIndex] or [checkRow] is caught
    inside the accessor, its text goes to [std::cerr], and the function ends
    without a return statement. *)
Lemma getInt_bad_index (q : QueryResult) (index : N) (tr : console) :
  (getFieldCount q <= index)%N ->
  exists msg,
    getInt q index tr = (UB flow_off_end, (tr ++ [Cerr msg])%list) /\
    getLong q index tr = (UB flow_off_end, (tr ++ [Cerr msg])%list) /\
    isNull q index tr = (UB flow_off_end, (tr ++ [Cerr msg])%list).
Proof.
  intros Hle. destruct (checkIndex_fails q index tr Hle) as (msg & Hmsg).
  exists msg. unfold getInt, getLong, isNull, try_catch, bind.
  rewrite Hmsg. repeat split; reflexivity.
Qed.

(** C1 (the code departs from it): with three columns and a current row,
    [getInt(5)], [getLong(5)], [getDouble(5)], [isNull(5)] and
    [getString(5)] raise nothing: they print the out-of-range text and run
    off the end of the function.  Before the first [next()], [getInt(0)],
    [getLong(0)], [getDouble(0)] and [isNull(0)] do the same with the
    no-current-row text; only [getString(0)] throws. *)
Theorem C1_failures_are_swallowed :
  let range := [Cerr "Field index out of range: 5, max = 2"] in
  let norow := [Cerr "No currentRow available, call next() first."] in
  getInt Samples.on_first 5 [] = (UB flow_off_end, range) /\
  getLong Samples.on_first 5 [] = (UB flow_off_end, range) /\
  getDouble Samples.stod_integral Samples.on_first 5 [] = (UB flow_off_end, range) /\
  isNull Samples.on_first 5 [] = (UB flow_off_end, range) /\
  getString Samples.on_first 5 [] = (UB flow_off_end, range) /\
  getInt Samples.before_first 0 [] = (UB flow_off_end, norow) /\
  getLong Samples.before_first 0 [] = (UB flow_off_end, norow) /\
  getDouble Samples.stod_integral Samples.before_first 0 [] = (UB flow_off_end, norow) /\
  isNull Samples.before_first 0 [] = (UB flow_off_end, norow) /\
  getString Samples.before_first 0 [] =
    (Thrown (runtime_error "Please invoke next() before getString()"), []).
Proof.
  cbv zeta. repeat split; vm_compute; reflexivity.
Qed.

End QRFacts.

(** * Properties of the connection *)

Module ConnFacts.

Import Conn.

Section AnyEnvironment.

Context {D : Type} `{Environment D}.

Ltac step :=
  unfold bind, ret, lock, unlock, get_self, update_self, observe,
    LOG_DEBUG, LOG_INFO, LOG_WARNING, LOG_ERROR; cbn [self env trace fst snd].

(** Taking the mutex and giving it back leaves the object as it was. *)
Lemma release_restores (c : Connection) :
  set_mutex (pred (m_mutex (set_mutex (S (m_mutex c)) c))) (set_mutex (S (m_mutex c)) c) = c.
Proof.
  destruct c; reflexivity.
Qed.

Lemma release_after_activity (t : Z) (c : Connection) :
  set_mutex (pred (m_mutex (set_lastActiveTime t (set_mutex (S (m_mutex c)) c))))
    (set_lastActiveTime t (set_mutex (S (m_mutex c)) c))
  = set_lastActiveTime t c.
Proof.
  destruct c; reflexivity.
Qed.

Lemma added_one (w w' : World D) (e : event) :
  trace w' = (trace w ++ [e])%list -> added w w' = [e].
Proof.
  intros Ht. unfold added. rewrite Ht, skipn_app, skipn_all, Nat.sub_diag.
  reflexivity.
Qed.

(** [connect] on a connected object: one warning, nothing else. *)
Lemma connect_when_connected (fuel : nat) (w : World D) :
  m_connected (self w) = true ->
  connect fuel w =
  (Returned true,
   {| self := self w; env := env w;
      trace := (trace w ++
                [Log WARNING ("connection to MySQL Server has established [" ++
                              m_connectionId (self w) ++ "]")])%list |}).
Proof.
  intros Hc. unfold connect. step. cbn [m_connected set_mutex]. rewrite Hc.
  step. cbn [m_connectionId set_mutex]. now rewrite release_restores.
Qed.

(** [connect] answers true only on an object it leaves connected. *)
Lemma connect_true_connected (fuel : nat) (w w1 : World D) :
  connect fuel w = (Returned true, w1) -> m_connected (self w1) = true.
Proof.
  unfold connect. step. cbn [m_connected m_mysql set_mutex].
  destruct (m_connected (self w)) eqn:Hc.
  - step. intros Heq. injection Heq as <-. cbn. exact Hc.
  - destruct (m_mysql (self w)) as [p|]; [|step; discriminate].
    step. unfold outside. cbn [self env trace].
    destruct (mysql_real_connect _ _ _ _ _ _ _) as [[p'|] d].
    + unfold updateLastActiveTime, outside. step.
      destruct (currentTimeMillis d) as [t d']. step.
      intros Heq. injection Heq as <-. reflexivity.
    + destruct (getLastError fuel _) as [[s| | |] w']; step; discriminate.
Qed.

(** C6: once [connect()] has answered true, a further [connect()] answers
    true again, leaves the object and the outside world as they are (no
    handshake is issued, only a warning is logged), and so leaves
    [lastActiveTime] no older than it was after the first call. *)
Theorem C6_connect_idempotent (fuel1 fuel2 : nat) (w w1 : World D) :
  connect fuel1 w = (Returned true, w1) ->
  exists w2,
    connect fuel2 w1 = (Returned true, w2) /\
    self w2 = self w1 /\
    env w2 = env w1 /\
    added w1 w2 =
      [Log WARNING ("connection to MySQL Server has established [" ++
                    m_connectionId (self w1) ++ "]")] /\
    count_events is_call_mysql_real_connect (added w1 w2) = 0 /\
    (m_lastActiveTime (self w1) <= m_lastActiveTime (self w2))%Z.
Proof.
  intros Hfirst. apply connect_true_connected in Hfirst.
  eexists. split; [apply (connect_when_connected fuel2 w1 Hfirst)|].
  cbn [self env]. split; [reflexivity|]. split; [reflexivity|].
  erewrite added_one by (cbn [trace]; reflexivity).
  split; [reflexivity|]. split; [reflexivity|lia].
Qed.

(** The handle and the connected flag are written by the constructor,
    [connect] and [close] only. *)
Lemma keeps_ret {A : Type} (a : A) : keeps_handle (D := D) (ret a).
Proof.
  intros w. cbn. auto.
Qed.

Lemma keeps_throw {A : Type} (e : exn) : keeps_handle (D := D) (@throw (World D) A e).
Proof.
  intros w. cbn. auto.
Qed.

Lemma keeps_undefined {A : Type} (u : undefined) :
  keeps_handle (D := D) (@undefined_behaviour (World D) A u).
Proof.
  intros w. cbn. auto.
Qed.

Lemma keeps_out_of_fuel {A : Type} : keeps_handle (D := D) (@out_of_fuel (World D) A).
Proof.
  intros w. cbn. auto.
Qed.

Lemma keeps_bind {A B : Type} (m : M (World D) A) (k : A -> M (World D) B) :
  keeps_handle (D := D) m -> (forall a, keeps_handle (D := D) (k a)) -> keeps_handle (D := D) (bind m k).
Proof.
  intros Hm Hk w. unfold bind. specialize (Hm w).
  destruct (m w) as [[a|e|u|] w1]; cbn [snd] in *; try exact Hm.
  destruct (Hk a w1) as [H1 H2]. destruct Hm as [H3 H4]. split; congruence.
Qed.

Lemma keeps_observe (e : event) : keeps_handle (D := D) (observe e).
Proof.
  intros w. cbn. auto.
Qed.

Lemma keeps_outside {A : Type} (c : option api_call) (f : D -> A * D) :
  keeps_handle (D := D) (outside c f).
Proof.
  intros w. unfold outside. destruct (f (env w)). cbn. auto.
Qed.

Lemma keeps_get_self : keeps_handle (D := D) get_self.
Proof.
  intros w. cbn. auto.
Qed.

Lemma keeps_lock : keeps_handle (D := D) lock.
Proof.
  intros w. cbn. auto.
Qed.

Lemma keeps_unlock : keeps_handle (D := D) unlock.
Proof.
  intros w. cbn. auto.
Qed.

Lemma keeps_set_lastActiveTime (t : Z) : keeps_handle (D := D) (update_self (set_lastActiveTime t)).
Proof.
  intros w. cbn. auto.
Qed.

Lemma keeps_on_handle {A : Type} (h : option MYSQL_ptr) (k : MYSQL_ptr -> M (World D) A) :
  (forall p, keeps_handle (D := D) (k p)) -> keeps_handle (D := D) (on_handle h k).
Proof.
  intros Hk. destruct h as [p|]; cbn; [apply Hk|apply keeps_undefined].
Qed.

Create HintDb keeps.

#[local] Hint Resolve keeps_ret keeps_throw keeps_undefined keeps_out_of_fuel
  keeps_observe keeps_outside keeps_get_self keeps_lock keeps_unlock
  keeps_set_lastActiveTime keeps_on_handle : keeps.

Ltac keeps :=
  repeat first
    [ solve [auto with keeps]
    | progress (unfold LOG_DEBUG, LOG_INFO, LOG_WARNING, LOG_ERROR,
                  updateLastActiveTime, do_mysql_query, do_mysql_ping,
                  do_mysql_error, do_mysql_errno)
    | match goal with
      | |- keeps_handle (if ?b then _ else _) => destruct b
      | |- keeps_handle (match ?x with _ => _ end) => destruct x
      | |- keeps_handle (bind _ _) => apply keeps_bind; [|intros ?]
      end ].

Lemma keeps_getLastError_with (check : M (World D) bool) :
  keeps_handle (D := D) check -> keeps_handle (D := D) (getLastError_with check).
Proof.
  intros Hc. unfold getLastError_with. keeps.
Qed.

Lemma keeps_getLastErrorCode_with (check : M (World D) bool) :
  keeps_handle (D := D) check -> keeps_handle (D := D) (getLastErrorCode_with check).
Proof.
  intros Hc. unfold getLastErrorCode_with. keeps.
Qed.

Lemma keeps_isValid (fuel : nat) : keeps_handle (D := D) (isValid fuel).
Proof.
  induction fuel as [|fuel IH]; cbn [isValid]; [apply keeps_out_of_fuel|].
  pose proof (keeps_getLastError_with _ IH) as Herr. keeps.
Qed.

Lemma keeps_getLastError (fuel : nat) : keeps_handle (D := D) (getLastError fuel).
Proof.
  apply keeps_getLastError_with, keeps_isValid.
Qed.

Lemma keeps_getLastErrorCode (fuel : nat) : keeps_handle (D := D) (getLastErrorCode fuel).
Proof.
  apply keeps_getLastErrorCode_with, keeps_isValid.
Qed.

Lemma keeps_beginTransaction (fuel : nat) : keeps_handle (D := D) (beginTransaction fuel).
Proof.
  pose proof (keeps_getLastError fuel). unfold beginTransaction. keeps.
Qed.

Lemma keeps_commit (fuel : nat) : keeps_handle (D := D) (commit fuel).
Proof.
  pose proof (keeps_getLastError fuel). unfold commit. keeps.
Qed.

Lemma keeps_rollback (fuel : nat) : keeps_handle (D := D) (rollback fuel).
Proof.
  pose proof (keeps_getLastError fuel). unfold rollback. keeps.
Qed.

Lemma keeps_getLastActiveTime : keeps_handle (D := D) getLastActiveTime.
Proof.
  unfold getLastActiveTime. keeps.
Qed.

Lemma invariant_of_keeps {A : Type} (m : M (World D) A) (w : World D) :
  keeps_handle (D := D) m -> handle_invariant (self w) -> handle_invariant (self (snd (m w))).
Proof.
  intros Hk Hinv. destruct (Hk w) as [H1 H2]. unfold handle_invariant in *.
  rewrite H1, H2. exact Hinv.
Qed.

(** One [close()]. *)
Lemma close_once (w : World D) :
  handle_invariant (self w) ->
  exists w1,
    close w = (Returned tt, w1) /\
    self w1 = set_connected false (set_mysql None (self w)) /\
    m_mysql (self w1) = None /\
    m_connected (self w1) = false /\
    env w1 = match m_mysql (self w) with
             | Some p => mysql_close p (env w)
             | None => env w
             end /\
    added w w1 =
      (match m_mysql (self w) with
       | Some p => [Call (call_mysql_close p)]
       | None => []
       end ++ [Log INFO ("MySQL Connection closed [" ++ m_connectionId (self w) ++ "]")])%list.
Proof.
  intros Hinv. unfold close. step. cbn [m_mysql set_mutex m_connectionId].
  destruct (m_mysql (self w)) as [p|] eqn:Hh.
  - unfold outside. step. eexists. split; [reflexivity|]. cbn [self env trace].
    split; [destruct (self w); cbn in *; reflexivity|].
    split; [reflexivity|]. split; [reflexivity|]. split; [reflexivity|].
    unfold added. cbn [trace]. rewrite <- app_assoc, skipn_app, skipn_all, Nat.sub_diag.
    reflexivity.
  - step. eexists. split; [reflexivity|]. cbn [self env trace].
    specialize (Hinv Hh).
    split; [destruct (self w); cbn in *; subst; reflexivity|].
    split; [exact Hh|]. split; [exact Hinv|]. split; [reflexivity|].
    unfold added. cbn [trace]. rewrite skipn_app, skipn_all, Nat.sub_diag.
    reflexivity.
Qed.

(** Any number of [close()] calls on a closed object: only log lines. *)
Lemma close_again (n : nat) (w : World D) :
  m_mysql (self w) = None ->
  m_connected (self w) = false ->
  exists wn,
    close_times n w = (Returned tt, wn) /\
    self wn = self w /\
    env wn = env w /\
    trace wn =
      (trace w ++
       repeat (Log INFO ("MySQL Connection closed [" ++ m_connectionId (self w) ++ "]")) n)%list.
Proof.
  revert w. induction n as [|n IH]; intros w Hh Hc; cbn [close_times repeat].
  - exists w. rewrite app_nil_r. unfold ret. auto.
  - assert (Hinv : handle_invariant (self w)) by (intros _; exact Hc).
    destruct (close_once w Hinv) as (w1 & Hrun & Hself & Hh1 & Hc1 & Henv & Hadd).
    rewrite Hh in Henv, Hadd. cbn [app] in Hadd.
    assert (Hsame : self w1 = self w).
    { rewrite Hself. destruct (self w); cbn in *; subst; reflexivity. }
    destruct (IH w1 Hh1 Hc1) as (wn & Hrest & Hs & He & Ht).
    exists wn. unfold bind. rewrite Hrun, Hrest.
    split; [reflexivity|]. split; [congruence|]. split; [congruence|].
    rewrite Ht, Hsame.
    assert (Ht1 : trace w1 = (trace w ++ added w w1)%list).
    { unfold added. revert Hrun. unfold close. step.
      cbn [m_mysql set_mutex]. rewrite Hh. step. intros Heq.
      injection Heq as <-. cbn [trace].
      now rewrite skipn_app, skipn_all, Nat.sub_diag. }
    rewrite Ht1, Hadd, <- app_assoc. reflexivity.
Qed.

Lemma count_repeat_log (p : event -> bool) (level : LogLevel) (msg : string) (n : nat) :
  p (Log level msg) = false ->
  count_events p (repeat (Log level msg) n) = 0.
Proof.
  intros Hp. unfold count_events. induction n as [|n IH]; cbn; [reflexivity|].
  now rewrite Hp.
Qed.

(** C7: on an object that satisfies the class invariant, connected or not,
    the first [close()] returns, hands the handle to [mysql_close] exactly
    once if one is allocated (never otherwise) and leaves the handle empty
    and [connected] false; any number of further calls return as well, do
    not call the driver, and leave the object and the outside world
    unchanged. *)
Theorem C7_close_idempotent (n : nat) (w : World D) :
  handle_invariant (self w) ->
  exists w1 wn,
    close w = (Returned tt, w1) /\
    m_mysql (self w1) = None /\
    m_connected (self w1) = false /\
    count_events is_call_mysql_close (added w w1) =
      match m_mysql (self w) with Some _ => 1 | None => 0 end /\
    close_times n w1 = (Returned tt, wn) /\
    self wn = self w1 /\
    env wn = env w1 /\
    count_events is_call_mysql_close (added w1 wn) = 0 /\
    close_times (S n) w = (Returned tt, wn).
Proof.
  intros Hinv.
  destruct (close_once w Hinv) as (w1 & Hrun & _ & Hh1 & Hc1 & _ & Hadd).
  destruct (close_again n w1 Hh1 Hc1) as (wn & Hrest & Hs & He & Ht).
  exists w1, wn. repeat split; try assumption.
  - rewrite Hadd. destruct (m_mysql (self w)); reflexivity.
  - unfold added. rewrite Ht, skipn_app, skipn_all, Nat.sub_diag. cbn [skipn app].
    now apply count_repeat_log.
  - cbn [close_times]. unfold bind. now rewrite Hrun.
Qed.

(** A liveness check whose probe succeeds. *)
Lemma isValid_alive (fuel : nat) (w : World D) (p : MYSQL_ptr) :
  m_mysql (self w) = Some p ->
  m_connected (self w) = true ->
  fst (mysql_ping p (env w)) = 0%Z ->
  isValid (S fuel) w =
  (Returned true,
   {| self := set_lastActiveTime (fst (currentTimeMillis (snd (mysql_ping p (env w)))))
                (self w);
      env := snd (currentTimeMillis (snd (mysql_ping p (env w))));
      trace := (trace w ++ [Call (call_mysql_ping p)])%list |}).
Proof.
  intros Hh Hc Hping. cbn [isValid]. step. cbn [m_mysql m_connected set_mutex].
  rewrite Hh, Hc. cbn [negb]. unfold do_mysql_ping, on_handle, outside. step.
  destruct (mysql_ping p (env w)) as [rc d1]. cbn [fst snd] in *. subst rc.
  cbn [Z.eqb]. unfold updateLastActiveTime, outside. step.
  destruct (currentTimeMillis d1) as [t d2]. step.
  now rewrite release_after_activity.
Qed.

(** A liveness check on an allocated handle without a session: no probe. *)
Lemma isValid_not_connected (fuel : nat) (w : World D) (p : MYSQL_ptr) :
  m_mysql (self w) = Some p ->
  m_connected (self w) = false ->
  isValid (S fuel) w =
  (Returned false,
   {| self := self w; env := env w;
      trace := (trace w ++
                [Log WARNING ("Please connect to MySQL Server [" ++
                              m_connectionId (self w) ++ "]")])%list |}).
Proof.
  intros Hh Hc. cbn [isValid]. step. cbn [m_mysql m_connected set_mutex m_connectionId].
  rewrite Hh, Hc. cbn [negb]. step. now rewrite release_restores.
Qed.

Lemma set_lastActiveTime_frame (t : Z) (c : Connection) :
  same_but_lastActiveTime c (set_lastActiveTime t c) /\
  m_lastActiveTime (set_lastActiveTime t c) = t.
Proof.
  unfold same_but_lastActiveTime. cbn. auto 12.
Qed.

(** C9: on a connected object whose probe succeeds, [getLastError()] and
    [getLastErrorCode()] return the driver's text and code and, through the
    liveness check, set [lastActiveTime] to the clock reading taken after
    the probe; every other member of the object is as before. *)
Theorem C9_error_getters_refresh_activity (fuel : nat) (w : World D) (p : MYSQL_ptr) :
  m_mysql (self w) = Some p ->
  m_connected (self w) = true ->
  fst (mysql_ping p (env w)) = 0%Z ->
  exists (now : Z) (after : D) (w1 w2 : World D),
    currentTimeMillis (snd (mysql_ping p (env w))) = (now, after) /\
    getLastError (S fuel) w = (Returned (mysql_error p after), w1) /\
    getLastErrorCode (S fuel) w = (Returned (mysql_errno p after), w2) /\
    m_lastActiveTime (self w1) = now /\
    m_lastActiveTime (self w2) = now /\
    same_but_lastActiveTime (self w) (self w1) /\
    same_but_lastActiveTime (self w) (self w2).
Proof.
  intros Hh Hc Hping.
  pose proof (isValid_alive fuel w p Hh Hc Hping) as Hvalid.
  destruct (currentTimeMillis (snd (mysql_ping p (env w)))) as [now after] eqn:Hclock.
  cbn [fst snd] in Hvalid.
  exists now, after.
  unfold getLastError, getLastErrorCode, getLastError_with, getLastErrorCode_with.
  unfold bind at 1 3. rewrite Hvalid. cbn [negb]. step.
  cbn [m_mysql set_lastActiveTime]. rewrite Hh.
  unfold do_mysql_error, do_mysql_errno, on_handle, outside. cbn [self env trace].
  do 2 eexists. split; [reflexivity|]. split; [reflexivity|]. split; [reflexivity|].
  cbn [self].
  destruct (set_lastActiveTime_frame now (self w)) as [Hframe Htime].
  auto.
Qed.

(** What [connect] does when the handshake fails, for every driver: the text
    it logs is the fixed one [getLastError] gives for an object that is not
    connected, whatever the driver recorded. *)
Lemma connect_failure_reports_sentinel (fuel : nat) (w : World D) (p : MYSQL_ptr) :
  m_mysql (self w) = Some p ->
  m_connected (self w) = false ->
  fst (mysql_real_connect p (m_host (self w)) (m_user (self w)) (m_password (self w))
         (m_database (self w)) (m_port (self w)) (env w)) = None ->
  exists w',
    connect (S fuel) w = (Returned false, w') /\
    self w' = self w /\
    added w w' =
      [Log INFO ("Connecting to MySQL server [" ++ m_connectionId (self w) ++ "]");
       Call (call_mysql_real_connect p);
       Log WARNING ("Please connect to MySQL Server [" ++ m_connectionId (self w) ++ "]");
       Log ERROR ("Failed to connect to MySQL Server: [" ++ m_connectionId (self w) ++
                  "]: " ++ "MySQL connection not established!")].
Proof.
  intros Hh Hc Hfail. unfold connect. step.
  cbn [m_connected m_mysql m_host m_user m_password m_database m_port
       m_connectionId set_mutex].
  rewrite Hc, Hh. step. unfold outside at 1. cbn [self env trace].
  destruct (mysql_real_connect _ _ _ _ _ _ _) as [res d]. cbn [fst] in Hfail.
  subst res. unfold getLastError, getLastError_with. unfold bind at 1.
  rewrite (isValid_not_connected fuel _ p) by (cbn; assumption).
  cbn [negb]. step. cbn [m_connectionId set_mutex].
  eexists. split; [reflexivity|]. cbn [self].
  split; [apply release_restores|].
  unfold added. cbn [trace].
  rewrite <- !app_assoc, skipn_app, skipn_all, Nat.sub_diag. reflexivity.
Qed.

(** The class invariant holds after construction and after every method. *)
Lemma construct_invariant (host user password database : string) (port : N) (d : D) :
  handle_invariant (self (snd (construct host user password database port d))).
Proof.
  unfold construct.
  destruct (generateRandomString 16 d) as [id d1].
  destruct (currentTimeMillis d1) as [now d2].
  unfold init, do_mysql_options, warn_unless_zero, outside. do 2 step.
  destruct (mysql_init d2) as [[p|] d3]; step; [|intros _; reflexivity].
  repeat match goal with
         | |- context [mysql_options ?p ?o ?v ?e] =>
             destruct (mysql_options p o v e) as [? ?]
         | |- context [(?rc =? 0)%Z] => destruct (rc =? 0)%Z
         | _ => progress step
         end;
    intros Hnull; discriminate Hnull.
Qed.

Lemma connect_invariant (fuel : nat) (w : World D) :
  handle_invariant (self w) -> handle_invariant (self (snd (connect fuel w))).
Proof.
  intros Hinv. unfold connect. step. cbn [m_connected m_mysql set_mutex].
  destruct (m_connected (self w)) eqn:Hc.
  - step. intros Hnull. cbn in Hnull. rewrite (Hinv Hnull) in Hc. discriminate.
  - destruct (m_mysql (self w)) as [p|] eqn:Hh; step.
    + unfold outside at 1. cbn [self env trace].
      destruct (mysql_real_connect _ _ _ _ _ _ _) as [[p'|] d].
      * unfold updateLastActiveTime, outside. step.
        destruct (currentTimeMillis d) as [t d']. step.
        intros Hnull. cbn in Hnull. congruence.
      * match goal with
        | |- context [getLastError fuel ?x] =>
            destruct (keeps_getLastError fuel x) as [K1 K2];
            destruct (getLastError fuel x) as [[e| | |] w']
        end; cbn [self snd set_mutex m_mysql m_connected] in *;
          intros Hnull; cbn in *; congruence.
    + intros _. cbn. exact Hc.
Qed.

Lemma close_invariant (w : World D) :
  handle_invariant (self w) -> handle_invariant (self (snd (close w))).
Proof.
  intros Hinv. destruct (close_once w Hinv) as (w1 & Hrun & _ & _ & Hc & _).
  rewrite Hrun. intros _. exact Hc.
Qed.

Lemma method_invariant (fuel : nat) (w : World D) (m : method) :
  handle_invariant (self w) -> handle_invariant (self (after fuel w m)).
Proof.
  intros Hinv. destruct m; cbn [after].
  - now apply connect_invariant.
  - now apply close_invariant.
  - now apply invariant_of_keeps; [apply keeps_isValid|].
  - now apply invariant_of_keeps; [apply keeps_beginTransaction|].
  - now apply invariant_of_keeps; [apply keeps_commit|].
  - now apply invariant_of_keeps; [apply keeps_rollback|].
  - now apply invariant_of_keeps; [apply keeps_getLastError|].
  - now apply invariant_of_keeps; [apply keeps_getLastErrorCode|].
  - now apply invariant_of_keeps; [apply keeps_getLastActiveTime|].
Qed.

(** So every object reached from its constructor by calls of these methods
    satisfies it.  ([executeQuery], [executeUpdate] and [escapeString], not
    modelled here, assign neither [m_mysql] nor [m_connected].) *)
Lemma reachable_invariant (fuel : nat) (host user password database : string)
    (port : N) (d : D) (calls : list method) :
  handle_invariant
    (self (fold_left (after fuel) calls
             (snd (construct host user password database port d)))).
Proof.
  generalize (construct_invariant host user password database port d).
  generalize (snd (construct host user password database port d)).
  induction calls as [|m calls IH]; intros w Hinv; cbn [fold_left]; [exact Hinv|].
  apply IH. now apply method_invariant.
Qed.

(** The guard of [beginTransaction] and [commit]: one error line, the answer
    false, nothing sent. *)
Lemma mutex_blind (c : Connection) (n : nat) :
  not_established (set_mutex n c) = not_established c.
Proof.
  destruct c; reflexivity.
Qed.

Lemma beginTransaction_guard (fuel : nat) (w : World D) :
  not_established (self w) = true ->
  beginTransaction fuel w =
  (Returned false,
   {| self := self w; env := env w;
      trace := (trace w ++
                [Log ERROR ("Connection not established [" ++
                            m_connectionId (self w) ++ "]")])%list |}).
Proof.
  intros Hn. unfold beginTransaction. step. rewrite mutex_blind, Hn.
  step. cbn [m_connectionId set_mutex]. now rewrite release_restores.
Qed.

Lemma commit_guard (fuel : nat) (w : World D) :
  not_established (self w) = true ->
  commit fuel w =
  (Returned false,
   {| self := self w; env := env w;
      trace := (trace w ++
                [Log ERROR ("Connection not established! [" ++
                            m_connectionId (self w) ++ "]")])%list |}).
Proof.
  intros Hn. unfold commit. step. rewrite mutex_blind, Hn.
  step. cbn [m_connectionId set_mutex]. now rewrite release_restores.
Qed.

(** An accepted control statement: the activity time is refreshed and the
    answer is true, in all three methods. *)
Ltac accepted Hh Hc Hq :=
  unfold not_established; step;
  cbn [m_mysql m_connected m_connectionId set_mutex]; rewrite Hh, Hc; cbn [negb];
  do 2 step; unfold do_mysql_query, on_handle, outside; cbn [self env trace];
  match goal with
  | |- context [mysql_query ?p ?stmt ?e] =>
      destruct (mysql_query p stmt e) as [rc d1]
  end;
  cbn [fst snd] in *; subst; cbn [Z.eqb negb];
  unfold updateLastActiveTime, outside; step;
  match goal with
  | |- context [currentTimeMillis ?e] => destruct (currentTimeMillis e) as [t d2]
  end;
  step; eexists; split; [reflexivity|]; cbn [self trace fst];
  split; [apply release_after_activity|];
  unfold added; cbn [trace];
  rewrite <- !app_assoc, skipn_app, skipn_all, Nat.sub_diag; reflexivity.

Lemma beginTransaction_success (fuel : nat) (w : World D) (p : MYSQL_ptr) :
  m_mysql (self w) = Some p ->
  m_connected (self w) = true ->
  fst (mysql_query p "START TRANSACTION" (env w)) = 0%Z ->
  exists w',
    beginTransaction fuel w = (Returned true, w') /\
    self w' = set_lastActiveTime
                (fst (currentTimeMillis (snd (mysql_query p "START TRANSACTION" (env w)))))
                (self w) /\
    added w w' =
      [Log DEBUG ("start transaction [" ++ m_connectionId (self w) ++ "]");
       Call (call_mysql_query p "START TRANSACTION")].
Proof.
  intros Hh Hc Hq. unfold beginTransaction. accepted Hh Hc Hq.
Qed.

Lemma commit_success (fuel : nat) (w : World D) (p : MYSQL_ptr) :
  m_mysql (self w) = Some p ->
  m_connected (self w) = true ->
  fst (mysql_query p "COMMIT" (env w)) = 0%Z ->
  exists w',
    commit fuel w = (Returned true, w') /\
    self w' = set_lastActiveTime
                (fst (currentTimeMillis (snd (mysql_query p "COMMIT" (env w)))))
                (self w) /\
    added w w' =
      [Log DEBUG ("commit transaction [" ++ m_connectionId (self w) ++ "]");
       Call (call_mysql_query p "COMMIT")].
Proof.
  intros Hh Hc Hq. unfold commit. accepted Hh Hc Hq.
Qed.

Lemma rollback_success (fuel : nat) (w : World D) (p : MYSQL_ptr) :
  m_mysql (self w) = Some p ->
  m_connected (self w) = true ->
  fst (mysql_query p "ROLLBACK" (env w)) = 0%Z ->
  exists w',
    rollback fuel w = (Returned true, w') /\
    self w' = set_lastActiveTime
                (fst (currentTimeMillis (snd (mysql_query p "ROLLBACK" (env w)))))
                (self w) /\
    added w w' =
      [Log DEBUG ("roll back transaction [" ++ m_connectionId (self w) ++ "]");
       Call (call_mysql_query p "ROLLBACK")].
Proof.
  intros Hh Hc Hq. unfold rollback. accepted Hh Hc Hq.
Qed.

End AnyEnvironment.

Import Sim.

(** C6 on the sample server: the second [connect()] of a connected object. *)
Lemma C6_connect_idempotent_witness :
  exists w2,
    connect 1 (Sim.connected Sim.server_up) = (Returned true, w2) /\
    self w2 = self (Sim.connected Sim.server_up) /\
    env w2 = env (Sim.connected Sim.server_up) /\
    added (Sim.connected Sim.server_up) w2 =
      [Log WARNING ("connection to MySQL Server has established [" ++
                    m_connectionId (self (Sim.connected Sim.server_up)) ++ "]")] /\
    count_events is_call_mysql_real_connect (added (Sim.connected Sim.server_up) w2) = 0 /\
    (m_lastActiveTime (self (Sim.connected Sim.server_up)) <= m_lastActiveTime (self w2))%Z.
Proof.
  apply (C6_connect_idempotent 1 1 (Sim.fresh Sim.server_up) (Sim.connected Sim.server_up)).
  reflexivity.
Defined.

(** C7 on the sample server: three [close()] calls on an object that was
    never connected. *)
Lemma C7_close_idempotent_witness :
  exists w1 wn,
    close (Sim.fresh Sim.server_up) = (Returned tt, w1) /\
    m_mysql (self w1) = None /\
    m_connected (self w1) = false /\
    count_events is_call_mysql_close (added (Sim.fresh Sim.server_up) w1) =
      match m_mysql (self (Sim.fresh Sim.server_up)) with Some _ => 1 | None => 0 end /\
    close_times 2 w1 = (Returned tt, wn) /\
    self wn = self w1 /\
    env wn = env w1 /\
    count_events is_call_mysql_close (added w1 wn) = 0 /\
    close_times 3 (Sim.fresh Sim.server_up) = (Returned tt, wn).
Proof.
  apply (C7_close_idempotent 2 (Sim.fresh Sim.server_up)).
  intros Hnull. reflexivity.
Defined.

(** C9 on the sample server, connected and answering. *)
Lemma C9_error_getters_refresh_activity_witness :
  exists (now : Z) (after : Sim.Server) (w1 w2 : World Sim.Server),
    currentTimeMillis (snd (mysql_ping 1%N (env (Sim.connected Sim.server_up))))
      = (now, after) /\
    getLastError 1 (Sim.connected Sim.server_up) = (Returned (mysql_error 1%N after), w1) /\
    getLastErrorCode 1 (Sim.connected Sim.server_up) = (Returned (mysql_errno 1%N after), w2) /\
    m_lastActiveTime (self w1) = now /\
    m_lastActiveTime (self w2) = now /\
    same_but_lastActiveTime (self (Sim.connected Sim.server_up)) (self w1) /\
    same_but_lastActiveTime (self (Sim.connected Sim.server_up)) (self w2).
Proof.
  apply (C9_error_getters_refresh_activity 0 (Sim.connected Sim.server_up) 1%N).
  - reflexivity.
  - reflexivity.
  - reflexivity.
Defined.

(** Once the server has stopped answering, the liveness check and the error
    getter keep calling each other: no amount of fuel lets [isValid], or a
    control statement that fails and asks for the error text, return. *)
Lemma isValid_dead_session (fuel : nat) (w : World Sim.Server) (p : MYSQL_ptr) :
  m_mysql (self w) = Some p ->
  m_connected (self w) = true ->
  Sim.reachable (env w) = false ->
  fst (isValid fuel w) = OutOfFuel.
Proof.
  revert w. induction fuel as [|fuel IH]; intros w Hh Hc Hdown; [reflexivity|].
  cbn [isValid]. unfold bind at 1 2, lock, get_self, update_self. cbn [self env trace].
  cbn [m_mysql m_connected set_mutex]. rewrite Hh, Hc. cbn [negb].
  unfold bind at 1. unfold do_mysql_ping, on_handle, outside. cbn [self env trace].
  cbn [mysql_ping server_environment]. unfold Sim.sim_ping. rewrite Hdown, andb_false_r.
  cbn [Z.eqb]. unfold getLastError_with. unfold bind at 1 2.
  match goal with
  | |- context [isValid fuel ?x] =>
      pose proof (IH x Hh Hc Hdown) as Hrec; destruct (isValid fuel x) as [o w']
  end.
  cbn [fst] in Hrec. subst o. reflexivity.
Qed.

Lemma commit_dead_session (fuel : nat) :
  fst (commit fuel (Sim.unplug (Sim.connected Sim.server_up))) = OutOfFuel.
Proof.
  unfold commit. unfold bind at 1 2, lock, get_self, update_self. cbn [self env trace].
  change (not_established _) with false. cbv iota.
  unfold bind at 1 2. unfold LOG_DEBUG, observe. cbn [self env trace].
  unfold do_mysql_query, on_handle, outside.
  change (m_mysql _) with (Some 1%N). cbv iota. cbn [self env trace].
  cbn [mysql_query server_environment]. unfold Sim.sim_query.
  change (Sim.reachable _) with false. rewrite andb_false_r. cbn [Z.eqb negb].
  unfold getLastError, getLastError_with. unfold bind at 1 2.
  match goal with
  | |- context [isValid fuel ?x] =>
      pose proof (isValid_dead_session fuel x 1%N eq_refl eq_refl eq_refl) as Hrec;
      destruct (isValid fuel x) as [o w']
  end.
  cbn [fst] in Hrec. subst o. reflexivity.
Qed.

(** C2 (the code departs from it): on an object whose handle is allocated
    but not connected, [beginTransaction()] and [commit()] log, return false
    and submit nothing, whereas [rollback()] logs and goes on: it submits
    ROLLBACK to the driver before it returns false.  On a closed object
    (null handle) [rollback()] hands the null handle to [mysql_query]. *)
Theorem C2_rollback_submits_when_not_connected :
  let w := Sim.fresh Sim.server_up in
  m_mysql (self w) = Some 1%N /\
  m_connected (self w) = false /\
  fst (beginTransaction 1 w) = Returned false /\
  added w (snd (beginTransaction 1 w)) =
    [Log ERROR "Connection not established [k3Yx09QwErTy42Zz]"] /\
  fst (commit 1 w) = Returned false /\
  added w (snd (commit 1 w)) =
    [Log ERROR "Connection not established! [k3Yx09QwErTy42Zz]"] /\
  fst (rollback 1 w) = Returned false /\
  added w (snd (rollback 1 w)) =
    [Log ERROR "Connection not eatablished [k3Yx09QwErTy42Zz]";
     Log DEBUG "roll back transaction [k3Yx09QwErTy42Zz]";
     Call (call_mysql_query 1%N "ROLLBACK");
     Log WARNING "Please connect to MySQL Server [k3Yx09QwErTy42Zz]";
     Log ERROR "Failed to rollback [k3Yx09QwErTy42Zz]: MySQL connection not established!"] /\
  count_events is_call_mysql_query (added w (snd (rollback 1 w))) = 1 /\
  fst (rollback 1 (snd (close w))) = UB null_dereference.
Proof.
  cbv zeta. repeat split; vm_compute; reflexivity.
Qed.

(** C3 (the code departs from it): the server refuses the handshake and the
    driver records its reason, yet [connect()] logs the fixed text of an
    object that is not connected; it returns false and throws nothing. *)
Theorem C3_connect_failure_hides_driver_error :
  let w := Sim.fresh Sim.server_down in
  m_mysql (self w) = Some 1%N /\
  m_connected (self w) = false /\
  fst (connect 1 w) = Returned false /\
  mysql_error 1%N (env (snd (connect 1 w))) =
    "Can't connect to MySQL server on 'localhost' (111)" /\
  added w (snd (connect 1 w)) =
    [Log INFO "Connecting to MySQL server [k3Yx09QwErTy42Zz]";
     Call (call_mysql_real_connect 1%N);
     Log WARNING "Please connect to MySQL Server [k3Yx09QwErTy42Zz]";
     Log ERROR "Failed to connect to MySQL Server: [k3Yx09QwErTy42Zz]: MySQL connection not established!"].
Proof.
  cbv zeta. repeat split; vm_compute; reflexivity.
Qed.

End ConnFacts.

(** * Further properties of the result cursor *)

Module QRExtra.

Import QR QRMore.

(** The result set behind a cursor after [k] calls of [next()]. *)
Lemma advance_result (k : nat) (q : QueryResult) (r : MYSQL_RES) :
  m_result q = Some r ->
  exists rk,
    m_result (navigate_all (repeat do_next k) q) = Some rk /\
    data rk = data r /\
    data_cursor rk =
      Nat.min (data_cursor r + k) (Nat.max (data_cursor r) (List.length (data r))).
Proof.
  revert q r. induction k as [|k IH]; intros q r Hr.
  - exists r. cbn. repeat split; [exact Hr|lia].
  - cbn [repeat navigate_all fold_left]. fold (navigate_all (repeat do_next k)).
    unfold navigate at 2. unfold next. rewrite Hr. unfold mysql_fetch_row.
    destruct (nth_error (data r) (data_cursor r)) as [row|] eqn:Hrow; cbn [snd].
    + assert (Hlt : data_cursor r < List.length (data r))
        by (apply nth_error_Some; congruence).
      match goal with
      | |- context [fold_left navigate _ ?x] =>
          destruct (IH x _ eq_refl) as (rk & H1 & H2 & H3)
      end.
      exists rk. cbn [data data_cursor] in *. repeat split; [exact H1|exact H2|lia].
    + assert (Hge : List.length (data r) <= data_cursor r)
        by (apply nth_error_None; exact Hrow).
      match goal with
      | |- context [fold_left navigate _ ?x] =>
          destruct (IH x _ eq_refl) as (rk & H1 & H2 & H3)
      end.
      exists rk. cbn [data data_cursor] in *. repeat split; [exact H1|exact H2|lia].
Qed.

(** What [next] does, read off the result set it finds. *)
Lemma next_spec (q : QueryResult) (r : MYSQL_RES) :
  m_result q = Some r ->
  fst (next q) = (data_cursor r <? List.length (data r))%nat /\
  m_currentRow (snd (next q)) = nth_error (data r) (data_cursor r) /\
  (forall row, nth_error (data r) (data_cursor r) = Some row ->
     m_lengths (snd (next q)) = Some (map cell_length row)) /\
  (nth_error (data r) (data_cursor r) = None ->
     m_lengths (snd (next q)) = m_lengths q) /\
  m_fieldCount (snd (next q)) = m_fieldCount q /\
  hasResultSet (snd (next q)) = true.
Proof.
  intros Hr. unfold next, hasResultSet. rewrite Hr. unfold mysql_fetch_row.
  destruct (nth_error (data r) (data_cursor r)) as [row|] eqn:Hrow; cbn -[Nat.ltb].
  - assert (Hlt : data_cursor r < List.length (data r))
      by (apply nth_error_Some; congruence).
    apply Nat.ltb_lt in Hlt. rewrite Hlt.
    repeat split; try reflexivity; try discriminate.
    intros row' Heq. injection Heq as <-. reflexivity.
  - assert (Hge : List.length (data r) <= data_cursor r)
      by (apply nth_error_None; exact Hrow).
    apply Nat.ltb_ge in Hge. rewrite Hge.
    repeat split; try reflexivity; discriminate.
Qed.

(** X1: on a cursor built from a result set positioned at its start, the
    call of [next()] that follows [k] earlier ones answers true exactly when
    [k] is below the row count, and then makes row [k] the current row with
    the byte lengths of its columns; from the row count on it answers false
    and there is no current row. *)
Theorem X1_next_walks_the_rows (r : MYSQL_RES) (affectedRows : N) (tr : console)
    (k : nat) :
  data_cursor r = 0 ->
  exists q tr',
    construct (Some r) affectedRows tr = (Returned q, tr') /\
    fst (next (navigate_all (repeat do_next k) q)) = (N.of_nat k <? getRowCount q)%N /\
    m_currentRow (snd (next (navigate_all (repeat do_next k) q))) = nth_error (data r) k /\
    (forall row, nth_error (data r) k = Some row ->
       m_lengths (snd (next (navigate_all (repeat do_next k) q)))
       = Some (map cell_length row)).
Proof.
  intros Hstart.
  destruct (QRFacts.construct_result_set r affectedRows tr)
    as (q & tr' & Hq & Hres & _ & _ & Hrows & _).
  exists q, tr'. split; [exact Hq|].
  destruct (advance_result k q r Hres) as (rk & Hk & Hdata & Hcur).
  destruct (next_spec _ rk Hk) as (Hfst & Hrow & Hlen & _).
  rewrite Hdata, Hcur, Hstart in *. cbn [Nat.add Nat.max] in *.
  unfold getRowCount. rewrite Hrows. unfold mysql_num_rowCount.
  assert (Hnth : nth_error (data r) (Nat.min k (List.length (data r)))
                 = nth_error (data r) k).
  { destruct (Nat.le_gt_cases (List.length (data r)) k) as [Hge|Hlt].
    - rewrite Nat.min_r by exact Hge.
      rewrite (proj2 (nth_error_None _ _) Hge).
      apply nth_error_None. lia.
    - rewrite Nat.min_l by lia. reflexivity. }
  rewrite Hnth in *. split; [|split; [exact Hrow|exact Hlen]].
  rewrite Hfst.
  destruct (Nat.ltb_spec (Nat.min k (List.length (data r))) (List.length (data r)));
    destruct (N.ltb_spec (N.of_nat k) (N.of_nat (List.length (data r)))); lia.
Qed.

(** X1 on the sample: the third [next()] on two rows. *)
Lemma X1_next_walks_the_rows_witness :
  exists q tr',
    construct (Some Samples.users) 0 [] = (Returned q, tr') /\
    fst (next (navigate_all (repeat do_next 2) q)) = (N.of_nat 2 <? getRowCount q)%N /\
    m_currentRow (snd (next (navigate_all (repeat do_next 2) q)))
    = nth_error (data Samples.users) 2 /\
    (forall row, nth_error (data Samples.users) 2 = Some row ->
       m_lengths (snd (next (navigate_all (repeat do_next 2) q)))
       = Some (map cell_length row)).
Proof.
  apply (X1_next_walks_the_rows Samples.users 0 [] 2). reflexivity.
Defined.

(** The index-based accessors read four things of the cursor only. *)
Lemma accessors_agree (stod : strtod_model) (qa qb : QueryResult) :
  hasResultSet qa = hasResultSet qb ->
  m_currentRow qa = m_currentRow qb ->
  m_lengths qa = m_lengths qb ->
  m_fieldCount qa = m_fieldCount qb ->
  forall (index : N) (tr : console),
    getString qa index tr = getString qb index tr /\
    getInt qa index tr = getInt qb index tr /\
    getLong qa index tr = getLong qb index tr /\
    getDouble stod qa index tr = getDouble stod qb index tr /\
    isNull qa index tr = isNull qb index tr.
Proof.
  intros Hres Hrow Hlen Hcount index tr.
  unfold getString, getInt, getLong, getDouble, isNull, checkIndex, checkRow,
    currentRow_at, lengths_at.
  rewrite Hrow, Hlen, Hcount. unfold hasResultSet in Hres.
  destruct (m_result qa), (m_result qb); try discriminate Hres; auto.
Qed.

(** Navigation keeps the result set in place, with the same rows. *)
Lemma navigated_result (ns : list navigation) (q : QueryResult) (r : MYSQL_RES) :
  m_result q = Some r ->
  exists r',
    m_result (navigate_all ns q) = Some r' /\
    data r' = data r /\
    m_fieldCount (navigate_all ns q) = m_fieldCount q.
Proof.
  intros Hr.
  destruct (QRFacts.navigate_all_frame ns q) as (Hcount & _ & _ & _ & _ & Hdata).
  rewrite Hr in Hdata. cbn [option_map] in Hdata.
  destruct (m_result (navigate_all ns q)) as [r'|]; [|discriminate].
  exists r'. cbn [option_map] in Hdata. injection Hdata as Hdata. auto.
Qed.

(** X2: wherever earlier [next()] and [reset()] calls left a cursor built
    from a result set positioned at its start, [reset()] answers true and
    clears the current row and the lengths; the [next()] after it answers
    as the first [next()] after construction did and brings back the first
    row, so that every index-based accessor gives what it gave then. *)
Theorem X2_reset_brings_back_first_row (stod : strtod_model) (r : MYSQL_RES)
    (affectedRows : N) (tr : console) (ns : list navigation) :
  data_cursor r = 0 ->
  exists q tr',
    construct (Some r) affectedRows tr = (Returned q, tr') /\
    fst (reset (navigate_all ns q)) = true /\
    m_currentRow (snd (reset (navigate_all ns q))) = None /\
    m_lengths (snd (reset (navigate_all ns q))) = None /\
    let again := next (snd (reset (navigate_all ns q))) in
    fst again = fst (next q) /\
    m_currentRow (snd again) = nth_error (data r) 0 /\
    forall (index : N) (tr0 : console),
      getString (snd again) index tr0 = getString (snd (next q)) index tr0 /\
      getInt (snd again) index tr0 = getInt (snd (next q)) index tr0 /\
      getLong (snd again) index tr0 = getLong (snd (next q)) index tr0 /\
      getDouble stod (snd again) index tr0 = getDouble stod (snd (next q)) index tr0 /\
      isNull (snd again) index tr0 = isNull (snd (next q)) index tr0.
Proof.
  intros Hstart.
  destruct (QRFacts.construct_result_set r affectedRows tr)
    as (q & tr' & Hq & Hres & Hnorow & _).
  exists q, tr'. split; [exact Hq|].
  destruct (navigated_result ns q r Hres) as (r' & Hres' & Hdata & Hcount).
  assert (Hnolen : m_lengths q = None).
  { revert Hq. unfold construct, initializeMetaData, bind, ret, LOG_DEBUG, emit.
    cbn [m_result]. destruct (push_field_names _ _ _ _); intros Heq;
      try discriminate Heq. injection Heq as <- _. reflexivity. }
  unfold reset. rewrite Hres'. cbn [fst snd].
  split; [reflexivity|]. split; [reflexivity|]. split; [reflexivity|].
  set (rewound := set_cursor (navigate_all ns q) (mysql_data_seek r' 0) None None).
  destruct (next_spec rewound (mysql_data_seek r' 0) eq_refl)
    as (A1 & A2 & A3 & A4 & A5 & A6).
  destruct (next_spec q r Hres) as (B1 & B2 & B3 & B4 & B5 & B6).
  cbn [mysql_data_seek data data_cursor] in A1, A2, A3, A4.
  rewrite Hdata in A1, A2, A3, A4. rewrite Hstart in B1, B2, B3, B4.
  cbv zeta. split; [congruence|]. split; [exact A2|].
  apply accessors_agree.
  - congruence.
  - congruence.
  - destruct (nth_error (data r) 0) as [row|] eqn:Hrow.
    + rewrite (A3 row eq_refl), (B3 row eq_refl). reflexivity.
    + rewrite (A4 eq_refl), (B4 eq_refl). cbn. now rewrite Hnolen.
  - rewrite A5, B5. cbn. exact Hcount.
Qed.

(** X2 on the sample, rewound after two [next()] calls. *)
Lemma X2_reset_brings_back_first_row_witness :
  exists q tr',
    construct (Some Samples.users) 0 [] = (Returned q, tr') /\
    fst (reset (navigate_all [do_next; do_next] q)) = true /\
    m_currentRow (snd (reset (navigate_all [do_next; do_next] q))) = None /\
    m_lengths (snd (reset (navigate_all [do_next; do_next] q))) = None /\
    let again := next (snd (reset (navigate_all [do_next; do_next] q))) in
    fst again = fst (next q) /\
    m_currentRow (snd again) = nth_error (data Samples.users) 0 /\
    forall (index : N) (tr0 : console),
      getString (snd again) index tr0 = getString (snd (next q)) index tr0 /\
      getInt (snd again) index tr0 = getInt (snd (next q)) index tr0 /\
      getLong (snd again) index tr0 = getLong (snd (next q)) index tr0 /\
      getDouble Samples.stod_integral (snd again) index tr0
      = getDouble Samples.stod_integral (snd (next q)) index tr0 /\
      isNull (snd again) index tr0 = isNull (snd (next q)) index tr0.
Proof.
  apply (X2_reset_brings_back_first_row Samples.stod_integral Samples.users 0 []
           [do_next; do_next]).
  reflexivity.
Defined.

(** X3: a cursor built from a result set positioned at its start has a
    result set, and [isEmpty()] is true exactly when its first [next()]
    answers false; both answers stay the same through any [next()] and
    [reset()] calls. *)
Theorem X3_isEmpty_means_no_first_row (r : MYSQL_RES) (affectedRows : N)
    (tr : console) (ns : list navigation) :
  data_cursor r = 0 ->
  exists q tr',
    construct (Some r) affectedRows tr = (Returned q, tr') /\
    hasResultSet q = true /\
    isEmpty q = negb (fst (next q)) /\
    hasResultSet (navigate_all ns q) = true /\
    isEmpty (navigate_all ns q) = isEmpty q.
Proof.
  intros Hstart.
  destruct (QRFacts.construct_result_set r affectedRows tr)
    as (q & tr' & Hq & Hres & _ & _ & Hrows & _).
  exists q, tr'. split; [exact Hq|].
  destruct (navigated_result ns q r Hres) as (r' & Hres' & _ & _).
  destruct (QRFacts.navigate_all_frame ns q) as (_ & Hrc & _).
  destruct (next_spec q r Hres) as (Hfst & _).
  unfold isEmpty, hasResultSet, getRowCount in *.
  rewrite Hres, Hres', Hrc, Hfst, Hstart, Hrows. unfold mysql_num_rowCount.
  repeat split. cbn [andb].
  destruct (data r); reflexivity.
Qed.

(** X3 on the sample, which has rows. *)
Lemma X3_isEmpty_means_no_first_row_witness :
  exists q tr',
    construct (Some Samples.users) 0 [] = (Returned q, tr') /\
    hasResultSet q = true /\
    isEmpty q = negb (fst (next q)) /\
    hasResultSet (navigate_all [do_next; do_reset] q) = true /\
    isEmpty (navigate_all [do_next; do_reset] q) = isEmpty q.
Proof.
  apply (X3_isEmpty_means_no_first_row Samples.users 0 [] [do_next; do_reset]).
  reflexivity.
Defined.

(** X4: a cursor built without a result set carries the affected-row count
    and nothing else: it has no result set and is not empty, [next()] and
    [reset()] answer false and change nothing, [getString] throws, and the
    other index-based accessors print the out-of-range text and run off
    their end at every index. *)
Theorem X4_cursor_of_an_update (stod : strtod_model) (affectedRows : N) (tr : console)
    (ns : list navigation) (index : N) (tr0 : console) :
  exists q tr',
    construct None affectedRows tr = (Returned q, tr') /\
    getAffectedRows q = affectedRows /\
    hasResultSet q = false /\
    isEmpty q = false /\
    fst (next q) = false /\
    fst (reset q) = false /\
    navigate_all ns q = q /\
    getString q index tr0 =
      (Thrown (runtime_error "this is non-select operation, cannot getString"), tr0) /\
    fst (getInt q index tr0) = UB flow_off_end /\
    fst (getLong q index tr0) = UB flow_off_end /\
    fst (getDouble stod q index tr0) = UB flow_off_end /\
    fst (isNull q index tr0) = UB flow_off_end.
Proof.
  do 2 eexists. split; [reflexivity|].
  repeat split; try (destruct index; reflexivity).
  induction ns as [|[|] ns IH]; cbn; auto.
Qed.

(** [find_field] gives the first position of the name, if there is one. *)
Lemma find_field_spec (names : list string) (i : N) (fieldName : string) :
  match find_field names i fieldName with
  | Some j =>
      exists k, j = (i + N.of_nat k)%N /\
                nth_error names k = Some fieldName /\
                forall k', k' < k -> nth_error names k' <> Some fieldName
  | None => ~ In fieldName names
  end.
Proof.
  revert i. induction names as [|n names IH]; intros i; cbn [find_field].
  - intros [].
  - destruct (String.eqb n fieldName) eqn:Heq.
    + apply String.eqb_eq in Heq. subst n. exists 0. cbn.
      repeat split; [lia|]. intros k' Hlt. lia.
    + apply String.eqb_neq in Heq. specialize (IH (i + 1)%N).
      destruct (find_field names (i + 1) fieldName) as [j|].
      * destruct IH as (k & Hj & Hk & Hfirst). exists (S k). cbn.
        repeat split; [lia|exact Hk|]. intros [|k'] Hlt; cbn.
        -- congruence.
        -- apply Hfirst. lia.
      * intros [Hin|Hin]; [congruence|exact (IH Hin)].
Qed.

Lemma not_a_field_spec (q : QueryResult) (fieldName : string) :
  not_a_field q fieldName = true <-> ~ In fieldName (m_fieldNames q).
Proof.
  unfold not_a_field. rewrite negb_true_iff. split.
  - intros Hno Hin. assert (Hyes : existsb (String.eqb fieldName) (m_fieldNames q) = true).
    { apply existsb_exists. exists fieldName. split; [exact Hin|apply String.eqb_refl]. }
    congruence.
  - intros Hnot. destruct (existsb _ _) eqn:Hex; [|reflexivity].
    apply existsb_exists in Hex. destruct Hex as (n & Hin & Heq).
    apply String.eqb_eq in Heq. subst n. contradiction.
Qed.

(** X5: when the field names are pairwise distinct, [getFieldIndex] finds
    the position of every one of them (looking up the name at position [k]
    gives [k] back); for a name that is no field name it throws
    [std::out_of_range]. *)
Theorem X5_getFieldIndex_round_trip (q : QueryResult) (k : nat) (fieldName : string)
    (tr : console) :
  NoDup (m_fieldNames q) ->
  (nth_error (m_fieldNames q) k = Some fieldName ->
   getFieldIndex q fieldName tr = (Returned (N.of_nat k), tr)) /\
  (~ In fieldName (m_fieldNames q) ->
   getFieldIndex q fieldName tr =
   (Thrown (out_of_range ("Field name not found: " ++ fieldName)), tr)).
Proof.
  intros Hnodup. unfold getFieldIndex.
  pose proof (find_field_spec (m_fieldNames q) 0 fieldName) as Hspec.
  destruct (find_field (m_fieldNames q) 0 fieldName) as [j|]; split.
  - intros Hk. destruct Hspec as (k0 & Hj & Hk0 & _).
    assert (k0 = k).
    { apply (proj1 (NoDup_nth_error (m_fieldNames q)) Hnodup).
      - apply nth_error_Some. congruence.
      - congruence. }
    subst. reflexivity.
  - intros Hnot. destruct Hspec as (k0 & _ & Hk0 & _).
    exfalso. apply Hnot. eapply nth_error_In. exact Hk0.
  - intros Hk. exfalso. apply Hspec. eapply nth_error_In. exact Hk.
  - reflexivity.
Qed.

(** X5 on the sample: the position of [note]. *)
Lemma X5_getFieldIndex_round_trip_witness :
  getFieldIndex Samples.before_first "note" [] = (Returned (N.of_nat 2), []) /\
  getFieldIndex Samples.before_first "mail" [] =
    (Thrown (out_of_range ("Field name not found: " ++ "mail")), []).
Proof.
  assert (Hnodup : NoDup (m_fieldNames Samples.before_first)).
  { vm_compute. repeat constructor; cbn; intuition discriminate. }
  destruct (X5_getFieldIndex_round_trip Samples.before_first 2 "note" [] Hnodup)
    as [Hfound _].
  destruct (X5_getFieldIndex_round_trip Samples.before_first 2 "mail" [] Hnodup)
    as [_ Hmissing].
  split.
  - apply Hfound. reflexivity.
  - apply Hmissing. vm_compute. intuition discriminate.
Defined.

(** X6: for a name that is a field name, each accessor by name does what the
    accessor by index does at the first position holding that name, also
    when several columns share it. *)
Theorem X6_by_name_is_by_first_index (stod : strtod_model) (q : QueryResult)
    (fieldName : string) (tr : console) :
  In fieldName (m_fieldNames q) ->
  exists k,
    nth_error (m_fieldNames q) k = Some fieldName /\
    (forall k', k' < k -> nth_error (m_fieldNames q) k' <> Some fieldName) /\
    getString_byName q fieldName tr = getString q (N.of_nat k) tr /\
    getInt_byName q fieldName tr = getInt q (N.of_nat k) tr /\
    getLong_byName q fieldName tr = getLong q (N.of_nat k) tr /\
    getDouble_byName stod q fieldName tr = getDouble stod q (N.of_nat k) tr /\
    isNull_byName q fieldName tr = isNull q (N.of_nat k) tr.
Proof.
  intros Hin.
  assert (Hknown : not_a_field q fieldName = false).
  { destruct (not_a_field q fieldName) eqn:Hn; [|reflexivity].
    apply not_a_field_spec in Hn. contradiction. }
  pose proof (find_field_spec (m_fieldNames q) 0 fieldName) as Hspec.
  unfold getString_byName, getInt_byName, getLong_byName, getDouble_byName,
    isNull_byName, getFieldIndex, bind.
  rewrite Hknown.
  destruct (find_field (m_fieldNames q) 0 fieldName) as [j|]; [|contradiction].
  destruct Hspec as (k & Hj & Hk & Hfirst). cbn [N.add] in Hj. subst j.
  exists k. unfold ret. auto 10.
Qed.

(** X6 on a cursor whose two columns are both called [n]: the name reaches
    the first of them. *)
Lemma X6_by_name_is_by_first_index_witness :
  exists k,
    nth_error (m_fieldNames MoreSamples.twins) k = Some "n" /\
    (forall k', k' < k -> nth_error (m_fieldNames MoreSamples.twins) k' <> Some "n") /\
    getString_byName MoreSamples.twins "n" [] = getString MoreSamples.twins (N.of_nat k) [] /\
    getInt_byName MoreSamples.twins "n" [] = getInt MoreSamples.twins (N.of_nat k) [] /\
    getLong_byName MoreSamples.twins "n" [] = getLong MoreSamples.twins (N.of_nat k) [] /\
    getDouble_byName Samples.stod_integral MoreSamples.twins "n" []
    = getDouble Samples.stod_integral MoreSamples.twins (N.of_nat k) [] /\
    isNull_byName MoreSamples.twins "n" [] = isNull MoreSamples.twins (N.of_nat k) [].
Proof.
  apply (X6_by_name_is_by_first_index Samples.stod_integral MoreSamples.twins "n" []).
  left. reflexivity.
Defined.

(** X7: for a name that is no field name, every accessor by name throws
    [std::invalid_argument] with the name in its text, before any look-up;
    nothing is printed or logged. *)
Theorem X7_unknown_name_throws (stod : strtod_model) (q : QueryResult)
    (fieldName : string) (tr : console) :
  ~ In fieldName (m_fieldNames q) ->
  let refusal :=
    invalid_argument (fieldName ++ " is an invalid fieldName, please check and input again!") in
  getString_byName q fieldName tr = (Thrown refusal, tr) /\
  getInt_byName q fieldName tr = (Thrown refusal, tr) /\
  getLong_byName q fieldName tr = (Thrown refusal, tr) /\
  getDouble_byName stod q fieldName tr = (Thrown refusal, tr) /\
  isNull_byName q fieldName tr = (Thrown refusal, tr).
Proof.
  intros Hnot. apply not_a_field_spec in Hnot.
  unfold getString_byName, getInt_byName, getLong_byName, getDouble_byName,
    isNull_byName.
  rewrite Hnot. cbv zeta. repeat split.
Qed.

(** X7 on the sample, asked for [mail]. *)
Lemma X7_unknown_name_throws_witness :
  let refusal :=
    invalid_argument ("mail" ++ " is an invalid fieldName, please check and input again!") in
  getString_byName Samples.on_first "mail" [] = (Thrown refusal, []) /\
  getInt_byName Samples.on_first "mail" [] = (Thrown refusal, []) /\
  getLong_byName Samples.on_first "mail" [] = (Thrown refusal, []) /\
  getDouble_byName Samples.stod_integral Samples.on_first "mail" [] = (Thrown refusal, []) /\
  isNull_byName Samples.on_first "mail" [] = (Thrown refusal, []).
Proof.
  apply (X7_unknown_name_throws Samples.stod_integral Samples.on_first "mail" []).
  vm_compute. intuition discriminate.
Defined.

(** X8: moving never duplicates or loses a result set.  After the move
    constructor, destroying both objects frees the result set of the source
    exactly once and the source is an empty cursor.  After a move assignment
    between two objects, the assignment and the two destructors together
    free the old result set of the target and the result set of the source,
    each exactly once; a self-assignment frees nothing and changes
    nothing. *)
Theorem X8_moves_free_each_result_once (this other : QueryResult) (tr : console) :
  let result_of (q : QueryResult) := freed [m_result q] in
  let released (q : QueryResult) := fst (destroy q tr) in
  (exists a b,
     released (fst (move_construct other)) = Returned a /\
     released (snd (move_construct other)) = Returned b /\
     freed [a; b] = result_of other /\
     hasResultSet (snd (move_construct other)) = false /\
     fst (next (snd (move_construct other))) = false) /\
  (exists a b,
     released (fst (fst (move_assign true this other))) = Returned a /\
     released (snd (fst (move_assign true this other))) = Returned b /\
     freed [snd (move_assign true this other); a; b]
     = (result_of this ++ result_of other)%list) /\
  move_assign false this this = (this, this, None).
Proof.
  cbv zeta. unfold destroy, move_construct, move_assign, moved_from, freed, bind,
    LOG_DEBUG, emit, ret.
  cbn [fst snd m_result hasResultSet next].
  destruct (m_result this), (m_result other); cbn;
    (split; [do 2 eexists; repeat split|split; [do 2 eexists; repeat split|reflexivity]]).
Qed.

End QRExtra.

(** * Further properties of the connection *)

Module ConnExtra.

Import Conn ConnMore.

Section AnyDriver.

Context {D : Type} `{Environment D} `{StatementDriver D}.

Ltac run :=
  unfold bind, ret, lock, unlock, get_self, update_self, observe,
    LOG_DEBUG, LOG_INFO, LOG_WARNING, LOG_ERROR; cbn [self env trace fst snd].

(** *** The mutex count along a computation *)

Lemma moves_ret {A : Type} (n e : nat) (a : A) : moves (D := D) n n e (ret a).
Proof.
  intros base w Hw. exact Hw.
Qed.

Lemma moves_throw {A : Type} (k e : nat) (x : exn) :
  moves (D := D) e k e (@throw (World D) A x).
Proof.
  intros base w Hw. exact Hw.
Qed.

Lemma moves_undefined {A : Type} (n k e : nat) (u : undefined) :
  moves (D := D) n k e (@undefined_behaviour (World D) A u).
Proof.
  intros base w Hw. exact I.
Qed.

Lemma moves_out_of_fuel {A : Type} (n k e : nat) :
  moves (D := D) n k e (@out_of_fuel (World D) A).
Proof.
  intros base w Hw. exact I.
Qed.

Lemma moves_bind {A B : Type} (n j k e : nat) (m : M (World D) A)
    (f : A -> M (World D) B) :
  moves n j e m -> (forall a, moves j k e (f a)) -> moves n k e (bind m f).
Proof.
  intros Hm Hf base w Hw. unfold bind. specialize (Hm base w Hw).
  destruct (m w) as [[a|x|u|] w1]; cbn [fst snd] in *; try exact Hm; try exact I.
  apply (Hf a base w1 Hm).
Qed.

Lemma moves_observe (n e : nat) (ev : event) : moves (D := D) n n e (observe ev).
Proof.
  intros base w Hw. exact Hw.
Qed.

Lemma moves_outside {A : Type} (n e : nat) (c : option api_call) (f : D -> A * D) :
  moves n n e (outside c f).
Proof.
  intros base w Hw. unfold outside. destruct (f (env w)). exact Hw.
Qed.

Lemma moves_get_self (n e : nat) : moves (D := D) n n e get_self.
Proof.
  intros base w Hw. exact Hw.
Qed.

Lemma moves_lock (n e : nat) : moves (D := D) n (S n) e lock.
Proof.
  intros base w Hw. cbn. rewrite Hw. lia.
Qed.

Lemma moves_unlock (n e : nat) : moves (D := D) (S n) n e unlock.
Proof.
  intros base w Hw. cbn. rewrite Hw. lia.
Qed.

Lemma moves_set_lastActiveTime (n e : nat) (t : Z) :
  moves (D := D) n n e (update_self (set_lastActiveTime t)).
Proof.
  intros base w Hw. exact Hw.
Qed.

Lemma moves_set_connected (n e : nat) (b : bool) :
  moves (D := D) n n e (update_self (set_connected b)).
Proof.
  intros base w Hw. exact Hw.
Qed.

Lemma moves_set_mysql (n e : nat) (h : option MYSQL_ptr) :
  moves (D := D) n n e (update_self (set_mysql h)).
Proof.
  intros base w Hw. exact Hw.
Qed.

Lemma moves_on_handle {A : Type} (n k e : nat) (h : option MYSQL_ptr)
    (f : MYSQL_ptr -> M (World D) A) :
  (forall p, moves n k e (f p)) -> moves n k e (on_handle h f).
Proof.
  intros Hf. destruct h as [p|]; cbn; [apply Hf|apply moves_undefined].
Qed.

Lemma moves_on_console {A : Type} (n e : nat) (m : M QR.console A) :
  (forall tr x, fst (m tr) <> Thrown x) ->
  moves (D := D) n n e (on_console m).
Proof.
  intros Hm base w Hw. unfold on_console. specialize (Hm (trace w)).
  destruct (m (trace w)) as [[a|x|u|] tr]; cbn in *; try exact Hw; try exact I.
  now destruct (Hm x).
Qed.

Lemma construct_never_throws (result : option QR.MYSQL_RES) (affectedRows : N)
    (tr : QR.console) (x : exn) :
  fst (QR.construct result affectedRows tr) <> Thrown x.
Proof.
  destruct result as [r|].
  - destruct (QRFacts.construct_result_set r affectedRows tr) as (q & tr' & Hq & _).
    rewrite Hq. discriminate.
  - cbn. discriminate.
Qed.

Lemma destroy_never_throws (q : QR.QueryResult) (tr : QR.console) (x : exn) :
  fst (QRMore.destroy q tr) <> Thrown x.
Proof.
  unfold QRMore.destroy. destruct (QR.m_result q); cbn; discriminate.
Qed.

Lemma moves_construct (n e : nat) (result : option QR.MYSQL_RES) (affectedRows : N) :
  moves (D := D) n n e (on_console (QR.construct result affectedRows)).
Proof.
  apply moves_on_console. intros tr x. apply construct_never_throws.
Qed.

Lemma moves_destroy (n e : nat) (q : QR.QueryResult) :
  moves (D := D) n n e (on_console (QRMore.destroy q)).
Proof.
  apply moves_on_console. intros tr x. apply destroy_never_throws.
Qed.

Create HintDb moves.

#[local] Hint Resolve moves_ret moves_throw moves_undefined moves_out_of_fuel
  moves_observe moves_outside moves_get_self moves_lock moves_unlock
  moves_set_lastActiveTime moves_set_connected moves_set_mysql
  moves_on_handle moves_construct moves_destroy : moves.

Ltac mutex :=
  repeat first
    [ solve [eauto with moves]
    | progress (unfold LOG_DEBUG, LOG_INFO, LOG_WARNING, LOG_ERROR,
                  updateLastActiveTime, do_mysql_query, do_mysql_ping,
                  do_mysql_error, do_mysql_errno)
    | match goal with
      | |- moves _ _ _ (if ?b then _ else _) => destruct b
      | |- moves _ _ _ (match ?x with _ => _ end) => destruct x
      | |- moves _ _ _ (bind _ _) => eapply moves_bind; [|intros ?]
      | |- moves _ _ _ (on_handle _ _) => apply moves_on_handle; intros ?
      end ].

Lemma moves_getLastError_with (n e : nat) (check : M (World D) bool) :
  moves n n e check -> moves n n e (getLastError_with check).
Proof.
  intros Hc. unfold getLastError_with. mutex.
Qed.

Lemma moves_getLastErrorCode_with (n e : nat) (check : M (World D) bool) :
  moves n n e check -> moves n n e (getLastErrorCode_with check).
Proof.
  intros Hc. unfold getLastErrorCode_with. mutex.
Qed.

Lemma moves_isValid (fuel n e : nat) : moves (D := D) n n e (isValid fuel).
Proof.
  revert n e. induction fuel as [|fuel IH]; intros n e; cbn [isValid].
  - apply moves_out_of_fuel.
  - pose proof (moves_getLastError_with (S n) e _ (IH (S n) e)) as Herr. mutex.
Qed.

Lemma moves_getLastError (fuel n e : nat) : moves (D := D) n n e (getLastError fuel).
Proof.
  apply moves_getLastError_with, moves_isValid.
Qed.

Lemma moves_getLastErrorCode (fuel n e : nat) :
  moves (D := D) n n e (getLastErrorCode fuel).
Proof.
  apply moves_getLastErrorCode_with, moves_isValid.
Qed.

#[local] Hint Resolve moves_isValid moves_getLastError moves_getLastErrorCode : moves.

Lemma moves_connect (fuel n e : nat) : moves (D := D) n n e (connect fuel).
Proof.
  unfold connect. mutex.
Qed.

Lemma moves_close (n e : nat) : moves (D := D) n n e close.
Proof.
  unfold close. mutex.
Qed.

Lemma moves_beginTransaction (fuel n e : nat) :
  moves (D := D) n n e (beginTransaction fuel).
Proof.
  unfold beginTransaction. mutex.
Qed.

Lemma moves_commit (fuel n e : nat) : moves (D := D) n n e (commit fuel).
Proof.
  unfold commit. mutex.
Qed.

Lemma moves_rollback (fuel n e : nat) : moves (D := D) n n e (rollback fuel).
Proof.
  unfold rollback. mutex.
Qed.

Lemma moves_getLastActiveTime (n e : nat) : moves (D := D) n n e getLastActiveTime.
Proof.
  unfold getLastActiveTime. mutex.
Qed.

Lemma moves_executeInternal (fuel n : nat) (sql : string) (isQuery : bool) :
  moves n n n (executeInternal fuel sql isQuery).
Proof.
  unfold executeInternal. mutex.
Qed.

Lemma moves_executeUpdate (fuel n : nat) (sql : string) :
  moves n n n (executeUpdate fuel sql).
Proof.
  pose proof (moves_executeInternal fuel n sql false).
  unfold executeUpdate. mutex.
Qed.

Lemma settled_moves {A : Type} (m : M (World D) A) (w w' : World D) :
  moves 0 0 0 m ->
  finish (m w) = (true, w') ->
  m_mutex (self w') = m_mutex (self w).
Proof.
  intros Hm Hf. specialize (Hm (m_mutex (self w)) w (eq_sym (Nat.add_0_r _))).
  unfold finish in Hf. injection Hf as Hs <-.
  destruct (fst (m w)); try discriminate Hs; rewrite Hm; lia.
Qed.

(** X9: whichever public method is called and however it ends, by a return
    or by an exception, the object's mutex is held exactly as often
    afterwards as before: no path of [connect], [close], [isValid],
    [executeQuery], [executeUpdate], the transaction calls, the error
    getters, [escapeString] or [getLastActiveTime] leaves it locked. *)
Theorem X9_no_method_keeps_the_mutex (fuel : nat) (c : call) (w w' : World D) :
  perform fuel c w = (true, w') ->
  m_mutex (self w') = m_mutex (self w).
Proof.
  destruct c; cbn [perform];
    try (apply settled_moves;
         first [ apply moves_connect | apply moves_close | apply moves_isValid
               | apply moves_executeInternal | apply moves_executeUpdate
               | apply moves_beginTransaction | apply moves_commit
               | apply moves_rollback | apply moves_getLastError
               | apply moves_getLastErrorCode | apply moves_getLastActiveTime ]).
  unfold escapeString.
  match goal with
  | |- context [match ?m w with _ => _ end] =>
      assert (Hm : moves 0 0 0 m) by mutex;
      specialize (Hm (m_mutex (self w)) w (eq_sym (Nat.add_0_r _)));
      destruct (m w) as [[text|x|u|] w1]
  end; cbn [fst snd] in *.
  - destruct (_ <=? _)%N; cbn [settled]; intros Heq; inversion Heq; subst.
    rewrite Hm. lia.
  - cbn [settled]. intros Heq. inversion Heq; subst. rewrite Hm. lia.
  - cbn [settled]. intros Heq. discriminate Heq.
  - cbn [settled]. intros Heq. discriminate Heq.
Qed.

(** *** What the methods leave untouched *)

Section Frame.

Variables (X : Type) (f : Connection -> X).

Lemma preserves_ret {A : Type} (a : A) : preserves (D := D) f (ret a).
Proof.
  intros w. reflexivity.
Qed.

Lemma preserves_throw {A : Type} (x : exn) : preserves f (@throw (World D) A x).
Proof.
  intros w. reflexivity.
Qed.

Lemma preserves_undefined {A : Type} (u : undefined) :
  preserves f (@undefined_behaviour (World D) A u).
Proof.
  intros w. reflexivity.
Qed.

Lemma preserves_out_of_fuel {A : Type} : preserves f (@out_of_fuel (World D) A).
Proof.
  intros w. reflexivity.
Qed.

Lemma preserves_bind {A B : Type} (m : M (World D) A) (k : A -> M (World D) B) :
  preserves f m -> (forall a, preserves f (k a)) -> preserves f (bind m k).
Proof.
  intros Hm Hk w. unfold bind. specialize (Hm w).
  destruct (m w) as [[a|x|u|] w1]; cbn [snd] in *; try exact Hm.
  rewrite (Hk a w1). exact Hm.
Qed.

Lemma preserves_observe (ev : event) : preserves (D := D) f (observe ev).
Proof.
  intros w. reflexivity.
Qed.

Lemma preserves_outside {A : Type} (c : option api_call) (g : D -> A * D) :
  preserves f (outside c g).
Proof.
  intros w. unfold outside. destruct (g (env w)). reflexivity.
Qed.

Lemma preserves_get_self : preserves (D := D) f get_self.
Proof.
  intros w. reflexivity.
Qed.

Lemma preserves_update_self (g : Connection -> Connection) :
  (forall c, f (g c) = f c) -> preserves (D := D) f (update_self g).
Proof.
  intros Hg w. apply Hg.
Qed.

Lemma preserves_on_handle {A : Type} (h : option MYSQL_ptr)
    (k : MYSQL_ptr -> M (World D) A) :
  (forall p, preserves f (k p)) -> preserves f (on_handle h k).
Proof.
  intros Hk. destruct h as [p|]; cbn; [apply Hk|apply preserves_undefined].
Qed.

Lemma preserves_on_console {A : Type} (m : M QR.console A) :
  preserves (D := D) f (on_console m).
Proof.
  intros w. unfold on_console. destruct (m (trace w)). reflexivity.
Qed.

End Frame.

Ltac frame :=
  repeat first
    [ assumption
    | apply preserves_ret | apply preserves_throw | apply preserves_undefined
    | apply preserves_out_of_fuel | apply preserves_observe
    | apply preserves_outside | apply preserves_get_self
    | apply preserves_on_console
    | apply preserves_update_self; intros ?; reflexivity
    | apply preserves_on_handle; intros ?
    | progress (unfold LOG_DEBUG, LOG_INFO, LOG_WARNING, LOG_ERROR, lock, unlock,
                  updateLastActiveTime, do_mysql_query, do_mysql_ping,
                  do_mysql_error, do_mysql_errno)
    | match goal with
      | |- preserves _ (if ?b then _ else _) => destruct b
      | |- preserves _ (match ?x with _ => _ end) => destruct x
      | |- preserves _ (bind _ _) => apply preserves_bind; [|intros ?]
      end ].

Lemma isValid_frame {X : Type} (f : Connection -> X) (fuel : nat) :
  (forall n c, f (set_mutex n c) = f c) ->
  (forall t c, f (set_lastActiveTime t c) = f c) ->
  preserves (D := D) f (isValid fuel).
Proof.
  intros Fm Ft.
  assert (Hl : preserves (D := D) f lock) by (apply preserves_update_self; intros; apply Fm).
  assert (Hu : preserves (D := D) f unlock) by (apply preserves_update_self; intros; apply Fm).
  assert (Ht : forall t, preserves (D := D) f (update_self (set_lastActiveTime t)))
    by (intros t; apply preserves_update_self; intros; apply Ft).
  induction fuel as [|fuel IH]; cbn [isValid]; [apply preserves_out_of_fuel|].
  assert (Herr : preserves f (getLastError_with (isValid fuel)))
    by (unfold getLastError_with; frame).
  repeat first
    [ assumption | apply Ht
    | apply preserves_ret | apply preserves_observe | apply preserves_outside
    | apply preserves_get_self
    | progress (unfold LOG_WARNING, LOG_ERROR, updateLastActiveTime, do_mysql_ping,
                  on_handle)
    | match goal with
      | |- preserves _ (if ?b then _ else _) => destruct b
      | |- preserves _ (match ?x with _ => _ end) => destruct x
      | |- preserves _ (bind _ _) => apply preserves_bind; [|intros ?]
      end ].
Qed.

Lemma getLastError_frame {X : Type} (f : Connection -> X) (fuel : nat) :
  (forall n c, f (set_mutex n c) = f c) ->
  (forall t c, f (set_lastActiveTime t c) = f c) ->
  preserves (D := D) f (getLastError fuel) /\
  preserves (D := D) f (getLastErrorCode fuel).
Proof.
  intros Fm Ft. pose proof (isValid_frame f fuel Fm Ft) as Hv.
  unfold getLastError, getLastErrorCode, getLastError_with, getLastErrorCode_with.
  split; frame.
Qed.

(** Everything but [connect] and [close] leaves [f] alone as soon as the
    mutex count and the activity time do not show in [f]. *)
Lemma quiet_methods_frame {X : Type} (f : Connection -> X) (fuel : nat) :
  (forall n c, f (set_mutex n c) = f c) ->
  (forall t c, f (set_lastActiveTime t c) = f c) ->
  preserves (D := D) f (isValid fuel) /\
  (forall sql isQuery, preserves f (executeInternal fuel sql isQuery)) /\
  (forall sql, preserves f (executeUpdate fuel sql)) /\
  preserves (D := D) f (beginTransaction fuel) /\
  preserves (D := D) f (commit fuel) /\
  preserves (D := D) f (rollback fuel) /\
  preserves (D := D) f (getLastError fuel) /\
  preserves (D := D) f (getLastErrorCode fuel) /\
  preserves (D := D) f getLastActiveTime /\
  (forall sql w, f (self (snd (escapeString fuel sql w))) = f (self w)).
Proof.
  intros Fm Ft.
  pose proof (isValid_frame f fuel Fm Ft) as Hv.
  destruct (getLastError_frame f fuel Fm Ft) as [Herr Hcode].
  assert (Hl : preserves (D := D) f lock) by (apply preserves_update_self; intros; apply Fm).
  assert (Hu : preserves (D := D) f unlock) by (apply preserves_update_self; intros; apply Fm).
  assert (Ht : forall t, preserves (D := D) f (update_self (set_lastActiveTime t)))
    by (intros t; apply preserves_update_self; intros; apply Ft).
  assert (Hq : forall sql isQuery, preserves f (executeInternal fuel sql isQuery)).
  { intros sql isQuery. unfold executeInternal.
    repeat first
      [ assumption | apply Ht
      | apply preserves_ret | apply preserves_throw | apply preserves_observe
      | apply preserves_outside | apply preserves_get_self | apply preserves_on_console
      | apply preserves_on_handle; intros ?
      | progress (unfold LOG_DEBUG, LOG_ERROR, updateLastActiveTime, do_mysql_query)
      | match goal with
        | |- preserves _ (if ?b then _ else _) => destruct b
        | |- preserves _ (match ?x with _ => _ end) => destruct x
        | |- preserves _ (bind _ _) => apply preserves_bind; [|intros ?]
        end ]. }
  repeat split; try assumption.
  - intros sql. unfold executeUpdate.
    apply preserves_bind; [apply Hq|intros q].
    apply preserves_bind; [apply preserves_on_console|intros _; apply preserves_ret].
  - unfold beginTransaction.
    repeat first
      [ assumption | apply Ht
      | apply preserves_ret | apply preserves_observe | apply preserves_outside
      | apply preserves_get_self | apply preserves_on_handle; intros ?
      | progress (unfold LOG_DEBUG, LOG_ERROR, updateLastActiveTime, do_mysql_query)
      | match goal with
        | |- preserves _ (if ?b then _ else _) => destruct b
        | |- preserves _ (bind _ _) => apply preserves_bind; [|intros ?]
        end ].
  - unfold commit.
    repeat first
      [ assumption | apply Ht
      | apply preserves_ret | apply preserves_observe | apply preserves_outside
      | apply preserves_get_self | apply preserves_on_handle; intros ?
      | progress (unfold LOG_DEBUG, LOG_ERROR, updateLastActiveTime, do_mysql_query)
      | match goal with
        | |- preserves _ (if ?b then _ else _) => destruct b
        | |- preserves _ (bind _ _) => apply preserves_bind; [|intros ?]
        end ].
  - unfold rollback.
    repeat first
      [ assumption | apply Ht
      | apply preserves_ret | apply preserves_observe | apply preserves_outside
      | apply preserves_get_self | apply preserves_on_handle; intros ?
      | progress (unfold LOG_DEBUG, LOG_ERROR, updateLastActiveTime, do_mysql_query)
      | match goal with
        | |- preserves _ (if ?b then _ else _) => destruct b
        | |- preserves _ (bind _ _) => apply preserves_bind; [|intros ?]
        end ].
  - unfold getLastActiveTime.
    repeat first
      [ assumption | apply preserves_ret | apply preserves_get_self
      | apply preserves_bind; [|intros ?] ].
  - intros sql w. unfold escapeString.
    match goal with
    | |- context [match ?m w with _ => _ end] =>
        assert (Hm : preserves f m);
        [ repeat first
            [ assumption | apply preserves_throw | apply preserves_observe
            | apply preserves_outside | apply preserves_get_self
            | apply preserves_on_handle; intros ?
            | progress (unfold LOG_ERROR)
            | match goal with
              | |- preserves _ (if ?b then _ else _) => destruct b
              | |- preserves _ (bind _ _) => apply preserves_bind; [|intros ?]
              end ]
        | specialize (Hm w); destruct (m w) as [[text|x|u|] w1] ]
    end; cbn [snd] in *; try exact Hm.
    destruct (_ <=? _)%N; exact Hm.
Qed.

Lemma identity_frame (fuel : nat) (c : call) (w : World D) :
  identity (self (snd (perform fuel c w))) = identity (self w).
Proof.
  destruct (quiet_methods_frame identity fuel
              (fun _ _ => eq_refl) (fun _ _ => eq_refl))
    as (F1 & F2 & F3 & F4 & F5 & F6 & F7 & F8 & F9 & F10).
  destruct c; cbn [perform finish snd];
    try solve [apply F1 | apply F2 | apply F3 | apply F4 | apply F5 | apply F6
              | apply F7 | apply F8 | apply F9].
  - assert (Hc : preserves (D := D) identity (connect fuel))
      by (unfold connect; pose proof F7; frame).
    apply Hc.
  - assert (Hc : preserves (D := D) identity close) by (unfold close; frame).
    apply Hc.
  - specialize (F10 sql w). destruct (escapeString fuel sql w) as [[o|? ?] w1];
      exact F10.
Qed.

Lemma state_frame (fuel : nat) (c : call) (w : World D) :
  match c with
  | connect_ | close_ => True
  | _ => state (self (snd (perform fuel c w))) = state (self w)
  end.
Proof.
  destruct (quiet_methods_frame state fuel
              (fun _ _ => eq_refl) (fun _ _ => eq_refl))
    as (F1 & F2 & F3 & F4 & F5 & F6 & F7 & F8 & F9 & F10).
  destruct c; cbn [perform finish snd];
    try solve [exact I | apply F1 | apply F2 | apply F3 | apply F4 | apply F5
              | apply F6 | apply F7 | apply F8 | apply F9].
  specialize (F10 sql w). destruct (escapeString fuel sql w) as [[o|? ?] w1];
    exact F10.
Qed.

(** X10: no public method ever changes the host, user, password, database
    or port the object was built with, its connection identifier or its
    creation time, however the call ends. *)
Theorem X10_identity_is_immutable (fuel : nat) (calls : list call) (w : World D) :
  identity (self (perform_all fuel calls w)) = identity (self w).
Proof.
  revert w. unfold perform_all.
  induction calls as [|c calls IH]; intros w; cbn [fold_left]; [reflexivity|].
  rewrite IH. apply identity_frame.
Qed.

(** X11: the handle and the connected flag are changed by [connect] and
    [close] only: [isValid], [executeQuery], [executeUpdate], the
    transaction calls, the error getters, [escapeString] and
    [getLastActiveTime] leave both as they found them, however they end. *)
Theorem X11_only_connect_and_close_change_the_state (fuel : nat) (c : call)
    (w : World D) :
  match c with
  | connect_ | close_ => True
  | _ => m_mysql (self (snd (perform fuel c w))) = m_mysql (self w) /\
         m_connected (self (snd (perform fuel c w))) = m_connected (self w)
  end.
Proof.
  pose proof (state_frame fuel c w) as Hs. unfold state in Hs.
  destruct c; try exact I;
    (split; [exact (f_equal fst Hs)|exact (f_equal snd Hs)]).
Qed.

(** X12: whatever sequence of public methods is called on an object after
    its construction, and however each call ends, a null handle never goes
    with [connected == true]. *)
Theorem X12_class_invariant_always_holds (fuel : nat)
    (host user password database : string) (port : N) (d : D) (calls : list call) :
  handle_invariant
    (self (perform_all fuel calls
             (snd (construct host user password database port d)))).
Proof.
  generalize (ConnFacts.construct_invariant host user password database port d).
  generalize (snd (construct host user password database port d)).
  unfold perform_all.
  induction calls as [|c calls IH]; intros w Hinv; cbn [fold_left]; [exact Hinv|].
  apply IH.
  pose proof (state_frame fuel c w) as Hs. unfold state in Hs.
  destruct c;
    try (pose proof (f_equal fst Hs) as H1; pose proof (f_equal snd Hs) as H2;
         cbn [fst snd] in H1, H2; unfold handle_invariant in *;
         rewrite H1, H2; exact Hinv).
  - cbn [perform finish snd]. now apply ConnFacts.connect_invariant.
  - cbn [perform finish snd]. now apply ConnFacts.close_invariant.
Qed.

(** *** Construction and connection *)

Lemma added_after (w w' : World D) (l : list event) :
  trace w' = (trace w ++ l)%list -> added w w' = l.
Proof.
  intros Ht. unfold added. rewrite Ht, skipn_app, skipn_all, Nat.sub_diag.
  reflexivity.
Qed.

(** One option of [init]: the call, then a warning if it failed. *)
Lemma init_option {A : Type} (p : MYSQL_ptr) (o : mysql_option) (v : option_value)
    (msg : string) (rest : M (World D) A) (w : World D) :
  exists w',
    (rc <- do_mysql_options p o v ;; warn_unless_zero rc msg ;; rest)%monad w = rest w' /\
    self w' = self w /\
    filter is_call (trace w') =
      (filter is_call (trace w) ++ [Call (call_mysql_options p o)])%list.
Proof.
  unfold do_mysql_options, warn_unless_zero, outside. run.
  destruct (mysql_options p o v (env w)) as [rc d1].
  destruct (rc =? 0)%Z; run; eexists; (split; [reflexivity|]); cbn [self trace];
    (split; [reflexivity|]); rewrite !filter_app; cbn; now rewrite ?app_nil_r.
Qed.

(** [init] on a world in which [mysql_init] gives a handle. *)
Lemma init_with_handle (w : World D) (p : MYSQL_ptr) (d1 : D) :
  mysql_init (env w) = (Some p, d1) ->
  exists w',
    init w = (Returned tt, w') /\
    self w' = set_mysql (Some p) (self w) /\
    filter is_call (trace w') =
      (filter is_call (trace w) ++
       [Call call_mysql_init;
        Call (call_mysql_options p MYSQL_OPT_CONNECT_TIMEOUT);
        Call (call_mysql_options p MYSQL_OPT_READ_TIMEOUT);
        Call (call_mysql_options p MYSQL_OPT_WRITE_TIMEOUT);
        Call (call_mysql_options p MYSQL_SET_CHARSET_NAME)])%list.
Proof.
  intros Hinit. unfold init. unfold bind at 1. unfold outside at 1. rewrite Hinit.
  unfold bind at 1. unfold update_self at 1. cbv beta iota. cbn [self env trace].
  match goal with
  | |- context [bind _ _ ?x] => set (w0 := x)
  end.
  match goal with
  | |- context [(rc <- do_mysql_options p ?o ?v ;; warn_unless_zero rc ?msg ;; ?rest)%monad w0] =>
      destruct (init_option p o v msg rest w0) as (w1 & E1 & S1 & T1); rewrite E1
  end.
  match goal with
  | |- context [(rc <- do_mysql_options p ?o ?v ;; warn_unless_zero rc ?msg ;; ?rest)%monad w1] =>
      destruct (init_option p o v msg rest w1) as (w2 & E2 & S2 & T2); rewrite E2
  end.
  match goal with
  | |- context [(rc <- do_mysql_options p ?o ?v ;; warn_unless_zero rc ?msg ;; ?rest)%monad w2] =>
      destruct (init_option p o v msg rest w2) as (w3 & E3 & S3 & T3); rewrite E3
  end.
  match goal with
  | |- context [(rc <- do_mysql_options p ?o ?v ;; warn_unless_zero rc ?msg ;; ?rest)%monad w3] =>
      destruct (init_option p o v msg rest w3) as (w4 & E4 & S4 & T4); rewrite E4
  end.
  run. eexists. split; [reflexivity|]. cbn [self trace].
  split; [rewrite S4, S3, S2, S1; reflexivity|].
  rewrite filter_app, T4, T3, T2, T1. subst w0. cbn [trace].
  rewrite filter_app. cbn. rewrite <- !app_assoc. reflexivity.
Qed.

(** X13: constructing a [Connection] contacts no server.  The only driver
    calls are [mysql_init] and, when it gives a handle, the four
    [mysql_options] calls, whose failures are only logged; without a handle
    the constructor throws.  The object starts unconnected, with
    [lastActiveTime] equal to the creation time and the arguments stored. *)
Theorem X13_construction_is_local (host user password database : string) (port : N)
    (d d1 d2 d3 : D) (id : string) (now : Z) (handle : option MYSQL_ptr) :
  generateRandomString 16 d = (id, d1) ->
  currentTimeMillis d1 = (now, d2) ->
  mysql_init d2 = (handle, d3) ->
  exists o w,
    construct host user password database port d = (o, w) /\
    self w = {| m_mysql := handle; m_host := host; m_user := user;
                m_password := password; m_database := database; m_port := port;
                m_connectionId := id; m_creationTime := now;
                m_lastActiveTime := now; m_mutex := 0; m_connected := false |} /\
    match handle with
    | Some p =>
        o = Returned tt /\
        filter is_call (trace w) =
          [Call call_mysql_init;
           Call (call_mysql_options p MYSQL_OPT_CONNECT_TIMEOUT);
           Call (call_mysql_options p MYSQL_OPT_READ_TIMEOUT);
           Call (call_mysql_options p MYSQL_OPT_WRITE_TIMEOUT);
           Call (call_mysql_options p MYSQL_SET_CHARSET_NAME)]
    | None =>
        o = Thrown (runtime_error "Failed to initialize MYSQL connection object.") /\
        filter is_call (trace w) = [Call call_mysql_init]
    end.
Proof.
  intros Hid Hnow Hinit. unfold construct. rewrite Hid, Hnow.
  unfold bind at 1. unfold LOG_INFO at 1, observe at 1. cbn [self env trace].
  destruct handle as [p|].
  - match goal with
    | |- context [init ?x] =>
        destruct (init_with_handle x p d3 Hinit) as (w' & Hrun & Hself & Hcalls)
    end.
    rewrite Hrun. do 2 eexists. split; [reflexivity|].
    split; [rewrite Hself; reflexivity|]. split; [reflexivity|].
    rewrite Hcalls. reflexivity.
  - unfold init. unfold bind at 1. unfold outside at 1. cbn [self env trace].
    rewrite Hinit. run. do 2 eexists. split; [reflexivity|].
    cbn. auto.
Qed.

(** X14: [connect()] on an unconnected object with a handle makes exactly
    one handshake, with the stored host, user, password, database and port.
    When the driver accepts it, the call answers true, marks the object
    connected and sets [lastActiveTime] to the clock reading taken after the
    handshake; every other member is as before. *)
Theorem X14_connect_establishes_the_session (fuel : nat) (w : World D) (p q : MYSQL_ptr)
    (d1 d2 : D) (now : Z) :
  m_mysql (self w) = Some p ->
  m_connected (self w) = false ->
  mysql_real_connect p (m_host (self w)) (m_user (self w)) (m_password (self w))
    (m_database (self w)) (m_port (self w)) (env w) = (Some q, d1) ->
  currentTimeMillis d1 = (now, d2) ->
  exists w',
    connect fuel w = (Returned true, w') /\
    self w' = set_lastActiveTime now (set_connected true (self w)) /\
    env w' = d2 /\
    filter is_call (added w w') = [Call (call_mysql_real_connect p)].
Proof.
  intros Hh Hc Hconn Hclock. unfold connect. run.
  cbn [m_connected m_mysql m_host m_user m_password m_database m_port
       m_connectionId set_mutex].
  rewrite Hc, Hh. run. unfold outside at 1. cbn [self env trace].
  rewrite Hconn. unfold updateLastActiveTime, outside. run. rewrite Hclock. run.
  eexists. split; [reflexivity|]. cbn [self env trace].
  split; [destruct (self w); reflexivity|]. split; [reflexivity|].
  erewrite added_after by (cbn [trace]; rewrite <- !app_assoc; reflexivity).
  reflexivity.
Qed.

(** X15: a closed object cannot be connected again: after [close()],
    [connect()] answers false and makes no handshake, on every object that
    satisfies the class invariant. *)
Theorem X15_no_reconnect_after_close (fuel : nat) (w : World D) :
  handle_invariant (self w) ->
  exists w1 w2,
    close w = (Returned tt, w1) /\
    connect fuel w1 = (Returned false, w2) /\
    self w2 = self w1 /\
    env w2 = env w1 /\
    added w1 w2 =
      [Log ERROR ("MySQL connection object not initialized [" ++
                  m_connectionId (self w) ++ "]")].
Proof.
  intros Hinv.
  destruct (ConnFacts.close_once w Hinv) as (w1 & Hrun & Hself & Hh & Hc & _).
  exists w1. unfold connect. run. cbn [m_connected m_mysql m_connectionId set_mutex].
  rewrite Hc, Hh. run. cbn [m_connectionId set_mutex].
  eexists. split; [exact Hrun|]. split; [reflexivity|]. cbn [self env trace].
  split; [apply ConnFacts.release_restores|]. split; [reflexivity|].
  erewrite added_after by (cbn [trace]; reflexivity).
  rewrite Hself. reflexivity.
Qed.

(** The liveness check on an object that is not established. *)
Lemma isValid_refuses (fuel : nat) (w : World D) :
  not_established (self w) = true ->
  isValid (S fuel) w =
  (Returned false,
   {| self := self w; env := env w;
      trace := (trace w ++
                [Log WARNING
                   (match m_mysql (self w) with
                    | None => "Please initialize mysql connection object ["
                    | Some _ => "Please connect to MySQL Server ["
                    end ++ m_connectionId (self w) ++ "]")])%list |}).
Proof.
  unfold not_established. intros Hn. cbn [isValid]. run.
  cbn [m_mysql m_connected m_connectionId set_mutex].
  destruct (m_mysql (self w)) as [p|].
  - rewrite Hn. run. now rewrite ConnFacts.release_restores.
  - run. now rewrite ConnFacts.release_restores.
Qed.

(** X16: on an object without a handle or without a session, [isValid()]
    answers false, [getLastError()] the fixed text and [getLastErrorCode()]
    0; none of them throws, calls the driver or changes the object: one
    warning is logged. *)
Theorem X16_not_established_is_answered_locally (fuel : nat) (w : World D) :
  not_established (self w) = true ->
  exists w',
    isValid (S fuel) w = (Returned false, w') /\
    getLastError (S fuel) w = (Returned "MySQL connection not established!", w') /\
    getLastErrorCode (S fuel) w = (Returned 0%N, w') /\
    self w' = self w /\
    env w' = env w /\
    filter is_call (added w w') = [].
Proof.
  intros Hn. pose proof (isValid_refuses fuel w Hn) as Hv.
  eexists. split; [exact Hv|].
  unfold getLastError, getLastErrorCode, getLastError_with, getLastErrorCode_with, bind.
  rewrite Hv. cbn [negb]. unfold ret.
  repeat split.
  erewrite added_after by (cbn [trace]; reflexivity). reflexivity.
Qed.

(** X17: while the probe keeps failing, the liveness check and the error
    getter call each other without end: on a connected object [isValid()],
    [getLastError()] and [getLastErrorCode()] do not come back, whatever
    depth of recursion is allowed. *)
Theorem X17_failing_probe_recurses_forever (dead : D -> Prop) (fuel : nat)
    (w : World D) (p : MYSQL_ptr) :
  (forall d, dead d ->
     fst (mysql_ping p d) <> 0%Z /\ dead (snd (mysql_ping p d))) ->
  m_mysql (self w) = Some p ->
  m_connected (self w) = true ->
  dead (env w) ->
  fst (isValid fuel w) = OutOfFuel /\
  fst (getLastError fuel w) = OutOfFuel /\
  fst (getLastErrorCode fuel w) = OutOfFuel.
Proof.
  intros Hdead Hh Hc Hd.
  assert (Hv : forall fuel w, m_mysql (self w) = Some p -> m_connected (self w) = true ->
                 dead (env w) -> fst (isValid fuel w) = OutOfFuel).
  { clear fuel w Hh Hc Hd.
    induction fuel as [|fuel IH]; intros w Hh Hc Hd; [reflexivity|].
    cbn [isValid]. unfold bind at 1 2, lock, get_self, update_self.
    cbn [self env trace]. cbn [m_mysql m_connected set_mutex]. rewrite Hh, Hc.
    cbn [negb]. unfold bind at 1. unfold do_mysql_ping, on_handle, outside.
    cbn [self env trace]. destruct (Hdead (env w) Hd) as [Hfail Hstill].
    destruct (mysql_ping p (env w)) as [rc d1]. cbn [fst snd] in *.
    apply Z.eqb_neq in Hfail. rewrite Hfail.
    unfold getLastError_with. unfold bind at 1 2.
    match goal with
    | |- context [isValid fuel ?x] =>
        pose proof (IH x Hh Hc Hstill) as Hrec; destruct (isValid fuel x) as [o w']
    end.
    cbn [fst] in Hrec. subst o. reflexivity. }
  specialize (Hv fuel w Hh Hc Hd).
  unfold getLastError, getLastErrorCode, getLastError_with, getLastErrorCode_with, bind.
  destruct (isValid fuel w) as [o w']. cbn [fst] in Hv. subst o. auto.
Qed.

(** *** Statements *)

(** The liveness check with which every statement starts, when it passes. *)
Lemma isValid_passes (fuel : nat) (w : World D) (p : MYSQL_ptr) (d1 d2 : D) (t : Z) :
  m_mysql (self w) = Some p ->
  m_connected (self w) = true ->
  mysql_ping p (env w) = (0%Z, d1) ->
  currentTimeMillis d1 = (t, d2) ->
  isValid (S fuel) w =
  (Returned true,
   {| self := set_lastActiveTime t (self w); env := d2;
      trace := (trace w ++ [Call (call_mysql_ping p)])%list |}).
Proof.
  intros Hh Hc Hping Hclock.
  rewrite (ConnFacts.isValid_alive fuel w p Hh Hc) by (now rewrite Hping).
  rewrite Hping. cbn [fst snd]. rewrite Hclock. reflexivity.
Qed.

Lemma bind_returned {A B : Type} (m : M (World D) A) (k : A -> M (World D) B)
    (w w' : World D) (a : A) :
  m w = (Returned a, w') -> bind m k w = k a w'.
Proof.
  intros Hm. unfold bind. now rewrite Hm.
Qed.

Ltac submit Hh Hconn Hping Hc1 Hc2 Hq :=
  unfold executeUpdate, executeQuery; try unfold bind at 1; unfold executeInternal;
  rewrite (bind_returned _ _ _ _ _ (isValid_passes _ _ _ _ _ _ Hh Hconn Hping Hc1));
  cbn [negb];
  run; cbn [m_mysql m_connectionId set_lastActiveTime set_mutex];
  rewrite Hh; unfold updateLastActiveTime, do_mysql_query, on_handle, outside;
  run; rewrite Hc2; run; rewrite Hq; run; cbn [negb Z.eqb]; cbv beta iota;
  cbn [self env trace].

(** X18: [executeUpdate] on a live connection.  After a successful probe the
    statement text, up to its first zero byte, is submitted exactly once;
    when the driver accepts it the call returns the driver's affected-row
    count and [lastActiveTime] is the clock reading taken just before the
    submission; no other member changes. *)
Theorem X18_executeUpdate_returns_affected_rows (fuel : nat) (sql : string)
    (w : World D) (p : MYSQL_ptr) (d1 d2 d3 d4 : D) (t1 t2 : Z) :
  m_mysql (self w) = Some p ->
  m_connected (self w) = true ->
  mysql_ping p (env w) = (0%Z, d1) ->
  currentTimeMillis d1 = (t1, d2) ->
  currentTimeMillis d2 = (t2, d3) ->
  mysql_query p (QR.c_str sql) d3 = (0%Z, d4) ->
  exists w',
    executeUpdate (S fuel) sql w = (Returned (mysql_affected_rows p d4), w') /\
    self w' = set_lastActiveTime t2 (self w) /\
    env w' = d4 /\
    filter is_call (added w w') =
      [Call (call_mysql_ping p); Call (call_mysql_query p (QR.c_str sql))].
Proof.
  intros Hh Hconn Hping Hc1 Hc2 Hq.
  submit Hh Hconn Hping Hc1 Hc2 Hq.
  unfold on_console, QR.construct, QRMore.destroy, QR.LOG_DEBUG, QR.emit. run.
  eexists. split; [reflexivity|]. cbn [self env trace].
  split; [destruct (self w); reflexivity|]. split; [reflexivity|].
  erewrite added_after by (cbn [trace]; rewrite <- !app_assoc; reflexivity).
  reflexivity.
Qed.

(** X19: what [executeQuery] returns once the statement is accepted.  If the
    driver stores a result set, the cursor owns it, has its field count,
    row count and field names and no current row.  If there is none and
    the statement has no columns, the cursor has no result set and its
    affected-row count is 0: the driver's count is not read. *)
Theorem X19_executeQuery_wraps_the_result (fuel : nat) (sql : string) (w : World D)
    (p : MYSQL_ptr) (d1 d2 d3 d4 d5 : D) (t1 t2 : Z) (result : option QR.MYSQL_RES) :
  m_mysql (self w) = Some p ->
  m_connected (self w) = true ->
  mysql_ping p (env w) = (0%Z, d1) ->
  currentTimeMillis d1 = (t1, d2) ->
  currentTimeMillis d2 = (t2, d3) ->
  mysql_query p (QR.c_str sql) d3 = (0%Z, d4) ->
  mysql_store_result p d4 = (result, d5) ->
  (result = None -> mysql_field_count p d5 = 0%N) ->
  exists q w',
    executeQuery (S fuel) sql w = (Returned q, w') /\
    self w' = set_lastActiveTime t2 (self w) /\
    env w' = d5 /\
    QR.m_result q = result /\
    QR.m_currentRow q = None /\
    QR.getAffectedRows q = 0%N /\
    match result with
    | Some r =>
        QR.getFieldCount q = QR.mysql_num_fields r /\
        QR.getRowCount q = QR.mysql_num_rowCount r /\
        QR.getFieldNames q = map QR.name (QR.fields r)
    | None => QR.hasResultSet q = false /\ QR.getFieldCount q = 0%N
    end.
Proof.
  intros Hh Hconn Hping Hc1 Hc2 Hq Hstore Hnone.
  submit Hh Hconn Hping Hc1 Hc2 Hq. rewrite Hstore. cbv beta iota.
  cbn [self env trace].
  destruct result as [r|].
  - run. cbn [N.ltb N.compare]. unfold on_console. cbn [trace].
    match goal with
    | |- context [QR.construct (Some r) ?a ?tr] =>
        destruct (QRFacts.construct_result_set r a tr)
          as (q & tr' & Hbuilt & R1 & R2 & R3 & R4 & R5);
        assert (Haff : QR.m_affectedRows q = 0%N);
        [ revert Hbuilt; unfold QR.construct, QR.initializeMetaData, bind, ret,
            QR.LOG_DEBUG, QR.emit; cbn [QR.m_result];
          destruct (QR.push_field_names _ _ _ _); intros Heq; try discriminate Heq;
          injection Heq as <- _; reflexivity
        | rewrite Hbuilt ]
    end.
    run. exists q. eexists. split; [reflexivity|]. cbn [self env].
    split; [destruct (self w); reflexivity|]. split; [reflexivity|].
    unfold QR.getAffectedRows, QR.getFieldCount, QR.getRowCount, QR.getFieldNames.
    auto 10.
  - cbv beta iota. cbn [self env trace]. rewrite (Hnone eq_refl). run.
    cbn [N.ltb N.compare]. cbv beta iota.
    unfold on_console, QR.construct, QR.LOG_DEBUG, QR.emit. run.
    do 2 eexists. split; [reflexivity|]. cbn [self env].
    split; [destruct (self w); reflexivity|]. cbn. auto 10.
Qed.

Ltac submit_any Hh Hconn Hping Hc1 Hc2 Hq :=
  unfold executeUpdate, executeQuery; try unfold bind at 1; unfold executeInternal;
  rewrite (bind_returned _ _ _ _ _ (isValid_passes _ _ _ _ _ _ Hh Hconn Hping Hc1));
  cbn [negb];
  run; cbn [m_mysql m_connectionId set_lastActiveTime set_mutex];
  rewrite Hh; unfold updateLastActiveTime, do_mysql_query, on_handle, outside;
  run; rewrite Hc2; run; rewrite Hq; run.

(** X20: a statement the driver refuses never yields a value: on a live
    connection, when [mysql_query] fails, [executeQuery] returns no cursor
    and [executeUpdate] no count; and when the statement is accepted but no
    result set can be stored although the statement has columns,
    [executeQuery] returns no cursor either.  This holds whatever the
    driver answers afterwards. *)
Theorem X20_failed_statement_yields_no_value (fuel : nat) (sql : string) (w : World D)
    (p : MYSQL_ptr) (d1 d2 d3 d4 d5 : D) (t1 t2 : Z) (rc : Z) :
  m_mysql (self w) = Some p ->
  m_connected (self w) = true ->
  mysql_ping p (env w) = (0%Z, d1) ->
  currentTimeMillis d1 = (t1, d2) ->
  currentTimeMillis d2 = (t2, d3) ->
  mysql_query p (QR.c_str sql) d3 = (rc, d4) ->
  mysql_store_result p d4 = (None, d5) ->
  rc <> 0%Z \/ (0 < mysql_field_count p d5)%N ->
  (forall q, fst (executeQuery (S fuel) sql w) <> Returned q) /\
  (rc <> 0%Z -> forall n, fst (executeUpdate (S fuel) sql w) <> Returned n).
Proof.
  intros Hh Hconn Hping Hc1 Hc2 Hq Hstore Hbad. split.
  - intros q. submit_any Hh Hconn Hping Hc1 Hc2 Hq.
    destruct (rc =? 0)%Z eqn:Hrc; cbn [negb]; cbv beta iota.
    + apply Z.eqb_eq in Hrc. destruct Hbad as [Hne|Hcols]; [contradiction|].
      cbn [self env trace]. rewrite Hstore. cbv beta iota. cbn [self env trace].
      apply N.ltb_lt in Hcols. rewrite Hcols. cbv beta iota.
      destruct (getLastError (S fuel) _) as [[e|x|u|] w']; cbn; discriminate.
    + destruct (getLastError (S fuel) _) as [[e|x|u|] w']; cbn; discriminate.
  - intros Hne n. submit_any Hh Hconn Hping Hc1 Hc2 Hq.
    apply Z.eqb_neq in Hne. rewrite Hne. cbn [negb]. cbv beta iota.
    destruct (getLastError (S fuel) _) as [[e|x|u|] w']; cbn; discriminate.
Qed.

(** X21: the text a failed statement is reported with.  When [mysql_query]
    fails and the probe that [getLastError()] then makes succeeds,
    [executeQuery] and [executeUpdate] throw a runtime error whose text is
    the driver's error text as it is after that probe, not as the failed
    statement left it; the mutex is released and [lastActiveTime] is the
    clock reading taken after the probe. *)
Theorem X21_failure_text_is_read_after_a_probe (fuel : nat) (sql : string)
    (w : World D) (p : MYSQL_ptr) (d1 d2 d3 d4 d5 d6 : D) (t1 t2 t3 : Z) (rc : Z) :
  m_mysql (self w) = Some p ->
  m_connected (self w) = true ->
  mysql_ping p (env w) = (0%Z, d1) ->
  currentTimeMillis d1 = (t1, d2) ->
  currentTimeMillis d2 = (t2, d3) ->
  mysql_query p (QR.c_str sql) d3 = (rc, d4) ->
  rc <> 0%Z ->
  mysql_ping p d4 = (0%Z, d5) ->
  currentTimeMillis d5 = (t3, d6) ->
  exists w',
    executeQuery (S fuel) sql w =
      (Thrown (runtime_error ("SQL execution failed: " ++ mysql_error p d6)), w') /\
    fst (executeUpdate (S fuel) sql w) =
      Thrown (runtime_error ("SQL execution failed: " ++ mysql_error p d6)) /\
    self w' = set_lastActiveTime t3 (self w) /\
    env w' = d6 /\
    filter is_call (added w w') =
      [Call (call_mysql_ping p); Call (call_mysql_query p (QR.c_str sql));
       Call (call_mysql_ping p); Call (call_mysql_error p)].
Proof.
  intros Hh Hconn Hping Hc1 Hc2 Hq Hne Hping2 Hc3.
  apply Z.eqb_neq in Hne.
  assert (Herr : forall (w0 : World D),
            m_mysql (self w0) = Some p -> m_connected (self w0) = true ->
            env w0 = d4 ->
            getLastError (S fuel) w0 =
            (Returned (mysql_error p d6),
             {| self := set_lastActiveTime t3 (self w0); env := d6;
                trace := (trace w0 ++ [Call (call_mysql_ping p);
                                       Call (call_mysql_error p)])%list |})).
  { intros w0 H1 H2 H3. unfold getLastError, getLastError_with.
    rewrite <- H3 in Hping2.
    rewrite (bind_returned _ _ _ _ _ (isValid_passes fuel w0 p d5 d6 t3 H1 H2 Hping2 Hc3)).
    cbn [negb]. run. cbn [m_mysql set_lastActiveTime]. rewrite H1.
    unfold do_mysql_error, on_handle, outside. cbn [self env trace].
    now rewrite <- app_assoc. }
  eexists. split; [|split].
  - submit_any Hh Hconn Hping Hc1 Hc2 Hq. rewrite Hne. cbn [negb]. cbv beta iota.
    rewrite Herr by (cbn; auto). run. unfold throw. reflexivity.
  - submit_any Hh Hconn Hping Hc1 Hc2 Hq. rewrite Hne. cbn [negb]. cbv beta iota.
    rewrite Herr by (cbn; auto). reflexivity.
  - cbn [self env trace]. split; [destruct (self w); reflexivity|].
    split; [reflexivity|].
    erewrite added_after by (cbn [trace]; rewrite <- !app_assoc; reflexivity).
    reflexivity.
Qed.

(** X22: on an object without a handle or without a session,
    [executeQuery], [executeUpdate] and [escapeString] throw their
    connection-state errors; nothing is sent to the driver and the object
    is unchanged. *)
Theorem X22_statements_need_a_session (fuel : nat) (sql : string) (w : World D) :
  not_established (self w) = true ->
  let refusal :=
    runtime_error ("Connection not established [" ++ m_connectionId (self w) ++ "]") in
  exists w' w'',
    executeQuery (S fuel) sql w = (Thrown refusal, w') /\
    executeUpdate (S fuel) sql w = (Thrown refusal, w') /\
    escapeString (S fuel) sql w =
      (escape_ended
         (Thrown (runtime_error "connection not established, cannot escape string!")),
       w'') /\
    self w' = self w /\ env w' = env w /\ filter is_call (added w w') = [] /\
    self w'' = self w /\ env w'' = env w /\ filter is_call (added w w'') = [].
Proof.
  intros Hn. cbv zeta.
  assert (He : forall isQuery, exists w',
             executeInternal (S fuel) sql isQuery w =
             (Thrown (runtime_error ("Connection not established [" ++
                                     m_connectionId (self w) ++ "]")), w') /\
             self w' = self w /\ env w' = env w /\
             w' = snd (executeInternal (S fuel) sql true w) /\
             filter is_call (added w w') = []).
  { intros isQuery. unfold executeInternal.
    rewrite !(bind_returned _ _ _ _ _ (isValid_refuses fuel w Hn)).
    cbn [negb]. run. unfold throw.
    eexists. split; [reflexivity|]. cbn [self env trace snd].
    repeat split.
    erewrite added_after by (cbn [trace]; rewrite <- !app_assoc; reflexivity).
    reflexivity. }
  destruct (He true) as (w1 & E1 & S1 & V1 & _ & C1).
  destruct (He false) as (w2 & E2 & _ & _ & Same & _).
  exists w1. unfold executeQuery, executeUpdate. unfold bind at 1.
  rewrite E1, E2. rewrite E1 in Same. cbn [snd] in Same. subst w2.
  unfold escapeString.
  rewrite (bind_returned _ _ _ _ _ (isValid_refuses fuel w Hn)).
  cbn [negb]. run. unfold throw.
  eexists. repeat split; try assumption.
  erewrite added_after by (cbn [trace]; rewrite <- !app_assoc; reflexivity).
  reflexivity.
Qed.

(** [escapeString] once the liveness check has passed. *)
Lemma escapeString_alive (fuel : nat) (sql text : string) (w : World D)
    (p : MYSQL_ptr) (d1 d2 d3 : D) (t : Z) :
  m_mysql (self w) = Some p ->
  m_connected (self w) = true ->
  mysql_ping p (env w) = (0%Z, d1) ->
  currentTimeMillis d1 = (t, d2) ->
  mysql_real_escape_string p sql d2 = (text, d3) ->
  exists w',
    escapeString (S fuel) sql w =
      (if (String.length text <=? String.length sql)%nat
       then escape_ended (Returned text)
       else escape_overrun (N.of_nat (String.length sql) + 1)
                           (N.of_nat (String.length text) + 1),
       w') /\
    self w' = set_lastActiveTime t (self w) /\
    env w' = d3.
Proof.
  intros Hh Hconn Hping Hc1 Hesc. unfold escapeString.
  rewrite (bind_returned _ _ _ _ _ (isValid_passes _ _ _ _ _ _ Hh Hconn Hping Hc1)).
  cbn [negb]. run. cbn [m_mysql set_lastActiveTime]. rewrite Hh.
  unfold on_handle, outside. cbn [self env trace]. rewrite Hesc.
  rewrite QRFacts.string_of_bytes_exact.
  destruct (Nat.leb_spec (String.length text) (String.length sql)) as [Hle|Hgt].
  - assert (Hfit : (N.of_nat (String.length text) + 1 <=?
                    N.of_nat (String.length sql) + 1)%N = true)
      by (apply N.leb_le; lia).
    rewrite Hfit. eexists. repeat split.
  - assert (Hfit : (N.of_nat (String.length text) + 1 <=?
                    N.of_nat (String.length sql) + 1)%N = false)
      by (apply N.leb_gt; lia).
    rewrite Hfit. eexists. repeat split.
Qed.

(** X23: [escapeString] on a live connection hands the whole text to the
    driver and offers it a buffer of the text's length plus one.  If the
    escaped text is no longer than the text, it is returned; if it is
    longer, the driver has written past the end of the buffer. *)
Theorem X23_escapeString_buffer (fuel : nat) (sql text : string) (w : World D)
    (p : MYSQL_ptr) (d1 d2 d3 : D) (t : Z) :
  m_mysql (self w) = Some p ->
  m_connected (self w) = true ->
  mysql_ping p (env w) = (0%Z, d1) ->
  currentTimeMillis d1 = (t, d2) ->
  mysql_real_escape_string p sql d2 = (text, d3) ->
  exists w',
    escapeString (S fuel) sql w =
      (if (String.length text <=? String.length sql)%nat
       then escape_ended (Returned text)
       else escape_overrun (N.of_nat (String.length sql) + 1)
                           (N.of_nat (String.length text) + 1),
       w') /\
    self w' = set_lastActiveTime t (self w) /\
    env w' = d3.
Proof.
  apply escapeString_alive.
Qed.

Lemma escape_text_length (s : string) :
  String.length (Live.escape_text s) = String.length s + Live.specials s.
Proof.
  induction s as [|c s IH]; cbn [Live.escape_text Live.specials String.length];
    [reflexivity|].
  destruct (Live.needs_escape c); cbn [String.length]; rewrite IH; lia.
Qed.

Lemma escape_text_plain (s : string) :
  Live.specials s = 0 -> Live.escape_text s = s.
Proof.
  induction s as [|c s IH]; cbn [Live.escape_text Live.specials]; [reflexivity|].
  destruct (Live.needs_escape c); cbn; [discriminate|].
  intros Hs. now rewrite IH.
Qed.

(** X24: with a driver that escapes by the client library's rule (a
    backslash before each zero byte, line feed, carriage return, Ctrl-Z,
    quote, double quote and backslash), [escapeString] on a live connection
    returns a text free of such bytes unchanged, and overruns its buffer as
    soon as the text holds one of them. *)
Theorem X24_escapeString_overruns_on_special_bytes (fuel : nat) (sql : string)
    (w : World D) (p : MYSQL_ptr) (d1 d2 d3 : D) (t : Z) :
  m_mysql (self w) = Some p ->
  m_connected (self w) = true ->
  mysql_ping p (env w) = (0%Z, d1) ->
  currentTimeMillis d1 = (t, d2) ->
  mysql_real_escape_string p sql d2 = (Live.escape_text sql, d3) ->
  fst (escapeString (S fuel) sql w) =
    match Live.specials sql with
    | O => escape_ended (Returned sql)
    | S extra =>
        escape_overrun (N.of_nat (String.length sql) + 1)
                       (N.of_nat (String.length sql + S extra) + 1)
    end.
Proof.
  intros Hh Hconn Hping Hc1 Hesc.
  destruct (escapeString_alive fuel sql (Live.escape_text sql) w p d1 d2 d3 t
              Hh Hconn Hping Hc1 Hesc) as (w' & Hrun & _).
  rewrite Hrun. cbn [fst]. rewrite escape_text_length.
  destruct (Live.specials sql) as [|extra] eqn:Hs.
  - rewrite Nat.add_0_r, Nat.leb_refl. now rewrite escape_text_plain.
  - destruct (Nat.leb_spec (String.length sql + S extra) (String.length sql)); [lia|].
    reflexivity.
Qed.

(** X25: the destructor releases the handle once at most.  On an object
    that satisfies the class invariant it returns, leaves the handle null
    and [connected] false, and calls [mysql_close] exactly once if a handle
    was still allocated; after an explicit [close()] it calls the driver no
    more. *)
Theorem X25_destructor_releases_once (w : World D) :
  handle_invariant (self w) ->
  exists w1 w2 w3,
    destroy w = (Returned tt, w1) /\
    m_mysql (self w1) = None /\
    m_connected (self w1) = false /\
    count_events is_call_mysql_close (added w w1) =
      match m_mysql (self w) with Some _ => 1 | None => 0 end /\
    close w = (Returned tt, w2) /\
    destroy w2 = (Returned tt, w3) /\
    count_events is_call_mysql_close (added w2 w3) = 0.
Proof.
  assert (Hd : forall w0, handle_invariant (self w0) -> exists w1,
             destroy w0 = (Returned tt, w1) /\
             m_mysql (self w1) = None /\ m_connected (self w1) = false /\
             count_events is_call_mysql_close (added w0 w1) =
               match m_mysql (self w0) with Some _ => 1 | None => 0 end).
  { intros w0 Hinv.
    destruct (ConnFacts.close_once w0 Hinv) as (w1 & Hrun & Hself & Hh & Hc & _ & Hadd).
    unfold destroy. rewrite (bind_returned _ _ _ _ _ Hrun). run.
    eexists. split; [reflexivity|]. cbn [self trace].
    split; [exact Hh|]. split; [reflexivity|].
    assert (Ht : trace w1 = (trace w0 ++ added w0 w1)%list).
    { revert Hrun. unfold close. run. cbn [m_mysql set_mutex m_connectionId].
      destruct (m_mysql (self w0)); unfold outside; run; intros Heq;
        injection Heq as <-; unfold added; cbn [trace];
        rewrite <- ?app_assoc, skipn_app, skipn_all, Nat.sub_diag; reflexivity. }
    erewrite added_after by (cbn [trace]; rewrite Ht, <- app_assoc; reflexivity).
    rewrite Hadd. unfold count_events. rewrite !filter_app.
    destruct (m_mysql (self w0)); reflexivity. }
  intros Hinv.
  destruct (Hd w Hinv) as (w1 & D1 & D2 & D3 & D4).
  destruct (ConnFacts.close_once w Hinv) as (w2 & Hrun & _ & Hh & Hc & _).
  assert (Hinv2 : handle_invariant (self w2)) by (intros _; exact Hc).
  destruct (Hd w2 Hinv2) as (w3 & E1 & _ & _ & E4).
  rewrite Hh in E4.
  exists w1, w2, w3. auto 10.
Qed.

End AnyDriver.

#[local] Existing Instance Live.session_environment.
#[local] Existing Instance Live.session_statements.

(** X9 on the sample session: an update that returns, and a statement that
    throws. *)
Lemma X9_no_method_keeps_the_mutex_witness :
  m_mutex (self (snd (perform 1 (executeUpdate_ "DELETE FROM users")
                        Live.online)))
  = m_mutex (self Live.online) /\
  m_mutex (self (snd (perform 1 (executeQuery_ "COMMIT")
                        Live.online)))
  = m_mutex (self Live.online).
Proof.
  split.
  - apply (X9_no_method_keeps_the_mutex 1 (executeUpdate_ "DELETE FROM users")
             Live.online).
    vm_compute. reflexivity.
  - apply (X9_no_method_keeps_the_mutex 1 (executeQuery_ "COMMIT")
             Live.online).
    vm_compute. reflexivity.
Defined.

(** X13 on the sample session. *)
Lemma X13_construction_is_local_witness :
  exists o w,
    construct "localhost" "admin" "123456" "testdb" 3306 (Live.idle Sim.server_up) = (o, w) /\
    self w = {| m_mysql := Some 1%N; m_host := "localhost"; m_user := "admin";
                m_password := "123456"; m_database := "testdb"; m_port := 3306;
                m_connectionId := "k3Yx09QwErTy42Zz"; m_creationTime := 1000;
                m_lastActiveTime := 1000; m_mutex := 0; m_connected := false |} /\
    o = Returned tt /\
    filter is_call (trace w) =
      [Call call_mysql_init;
       Call (call_mysql_options 1%N MYSQL_OPT_CONNECT_TIMEOUT);
       Call (call_mysql_options 1%N MYSQL_OPT_READ_TIMEOUT);
       Call (call_mysql_options 1%N MYSQL_OPT_WRITE_TIMEOUT);
       Call (call_mysql_options 1%N MYSQL_SET_CHARSET_NAME)].
Proof.
  eapply (X13_construction_is_local "localhost" "admin" "123456" "testdb" 3306
           (Live.idle Sim.server_up) _ _ _ "k3Yx09QwErTy42Zz" 1000%Z (Some 1%N)).
  - reflexivity.
  - reflexivity.
  - reflexivity.
Defined.

(** X14 on the sample session: the first [connect()]. *)
Lemma X14_connect_establishes_the_session_witness :
  exists d2 w',
    connect 1 Live.unconnected = (Returned true, w') /\
    self w' = set_lastActiveTime 1001
                (set_connected true (self Live.unconnected)) /\
    env w' = d2 /\
    filter is_call (added Live.unconnected w')
    = [Call (call_mysql_real_connect 1%N)].
Proof.
  eexists.
  eapply (X14_connect_establishes_the_session 1 Live.unconnected 1%N 1%N
           _ _ 1001%Z).
  - reflexivity.
  - reflexivity.
  - reflexivity.
  - reflexivity.
Defined.

(** X15 on the sample session, closed while connected. *)
Lemma X15_no_reconnect_after_close_witness :
  exists w1 w2,
    close Live.online = (Returned tt, w1) /\
    connect 1 w1 = (Returned false, w2) /\
    self w2 = self w1 /\
    env w2 = env w1 /\
    added w1 w2 =
      [Log ERROR ("MySQL connection object not initialized [" ++
                  m_connectionId (self Live.online) ++ "]")].
Proof.
  apply (X15_no_reconnect_after_close 1 Live.online).
  intros Hnull. discriminate Hnull.
Defined.

(** X16 on the sample session before [connect()]. *)
Lemma X16_not_established_is_answered_locally_witness :
  exists w',
    isValid 1 Live.unconnected = (Returned false, w') /\
    getLastError 1 Live.unconnected
    = (Returned "MySQL connection not established!", w') /\
    getLastErrorCode 1 Live.unconnected = (Returned 0%N, w') /\
    self w' = self Live.unconnected /\
    env w' = env Live.unconnected /\
    filter is_call (added Live.unconnected w') = [].
Proof.
  apply (X16_not_established_is_answered_locally 0 Live.unconnected).
  reflexivity.
Defined.

(** X17 on the sample session, once the server has stopped answering. *)
Lemma X17_failing_probe_recurses_forever_witness :
  fst (isValid 7 Live.stranded) = OutOfFuel /\
  fst (getLastError 7 Live.stranded) = OutOfFuel /\
  fst (getLastErrorCode 7 Live.stranded) = OutOfFuel.
Proof.
  apply (X17_failing_probe_recurses_forever
           (fun d => Sim.reachable (Live.server d) = false) 7
           Live.stranded 1%N).
  - intros [[r s0 rj le ln ck] pd cl af] Hd. cbn in Hd. subst r.
    destruct s0; cbn; (split; [discriminate|reflexivity]).
  - reflexivity.
  - reflexivity.
  - reflexivity.
Defined.

(** X18 on the sample session. *)
Lemma X18_executeUpdate_returns_affected_rows_witness :
  exists d4 w',
    executeUpdate 1 "DELETE FROM users" Live.online
    = (Returned (mysql_affected_rows 1%N d4), w') /\
    self w' = set_lastActiveTime 1003 (self Live.online) /\
    env w' = d4 /\
    filter is_call (added Live.online w') =
      [Call (call_mysql_ping 1%N);
       Call (call_mysql_query 1%N (QR.c_str "DELETE FROM users"))].
Proof.
  eexists.
  eapply (X18_executeUpdate_returns_affected_rows 0 "DELETE FROM users"
           Live.online 1%N _ _ _ _ 1002%Z 1003%Z).
  - reflexivity.
  - reflexivity.
  - reflexivity.
  - reflexivity.
  - reflexivity.
  - reflexivity.
Defined.

(** X19 on the sample session: a query with a result set. *)
Lemma X19_executeQuery_wraps_the_result_witness :
  exists d5 q w',
    executeQuery 1 "SELECT id, name, note FROM users" Live.online
    = (Returned q, w') /\
    self w' = set_lastActiveTime 1003 (self Live.online) /\
    env w' = d5 /\
    QR.m_result q = Some Samples.users /\
    QR.m_currentRow q = None /\
    QR.getAffectedRows q = 0%N /\
    QR.getFieldCount q = QR.mysql_num_fields Samples.users /\
    QR.getRowCount q = QR.mysql_num_rowCount Samples.users /\
    QR.getFieldNames q = map QR.name (QR.fields Samples.users).
Proof.
  eexists.
  eapply (X19_executeQuery_wraps_the_result 0 "SELECT id, name, note FROM users"
           Live.online 1%N _ _ _ _ _ 1002%Z 1003%Z
           (Some Samples.users)).
  - reflexivity.
  - reflexivity.
  - reflexivity.
  - reflexivity.
  - reflexivity.
  - reflexivity.
  - reflexivity.
  - intros Hnone. discriminate Hnone.
Defined.

(** X20 on the sample session: a statement the server refuses. *)
Lemma X20_failed_statement_yields_no_value_witness :
  (forall q, fst (executeQuery 1 "COMMIT" Live.online) <> Returned q) /\
  (1%Z <> 0%Z ->
   forall n, fst (executeUpdate 1 "COMMIT" Live.online) <> Returned n).
Proof.
  eapply (X20_failed_statement_yields_no_value 0 "COMMIT" Live.online
           1%N _ _ _ _ _ 1002%Z 1003%Z 1%Z).
  - reflexivity.
  - reflexivity.
  - reflexivity.
  - reflexivity.
  - reflexivity.
  - reflexivity.
  - reflexivity.
  - left. discriminate.
Defined.

(** X21 on the sample session: the server refuses COMMIT with a syntax
    error; the probe that follows clears the driver's error text, and the
    exception carries the empty text. *)
Lemma X21_failure_text_is_read_after_a_probe_witness :
  exists d4 d6 w',
    snd (mysql_query 1%N (QR.c_str "COMMIT")
           (snd (currentTimeMillis
                   (snd (currentTimeMillis
                           (snd (mysql_ping 1%N (env Live.online)))))))) = d4 /\
    mysql_error 1%N d4 = "You have an error in your SQL syntax" /\
    mysql_error 1%N d6 = EmptyString /\
    executeQuery 1 "COMMIT" Live.online =
      (Thrown (runtime_error ("SQL execution failed: " ++ mysql_error 1%N d6)), w') /\
    fst (executeUpdate 1 "COMMIT" Live.online) =
      Thrown (runtime_error ("SQL execution failed: " ++ mysql_error 1%N d6)) /\
    self w' = set_lastActiveTime 1004 (self Live.online) /\
    env w' = d6 /\
    filter is_call (added Live.online w') =
      [Call (call_mysql_ping 1%N); Call (call_mysql_query 1%N (QR.c_str "COMMIT"));
       Call (call_mysql_ping 1%N); Call (call_mysql_error 1%N)].
Proof.
  edestruct (X21_failure_text_is_read_after_a_probe 0 "COMMIT" Live.online 1%N)
    as (w' & Hq & Hu & Hs & He & Hc).
  - reflexivity.
  - reflexivity.
  - reflexivity.
  - reflexivity.
  - reflexivity.
  - reflexivity.
  - discriminate.
  - reflexivity.
  - reflexivity.
  - eexists. eexists. exists w'.
    split; [reflexivity|]. split; [reflexivity|].
    refine (conj _ (conj Hq (conj Hu (conj Hs (conj He Hc))))). reflexivity.
Defined.

(** X22 on the sample session before [connect()]. *)
Lemma X22_statements_need_a_session_witness :
  let refusal :=
    runtime_error ("Connection not established [" ++
                   m_connectionId (self Live.unconnected) ++ "]") in
  exists w' w'',
    executeQuery 1 "SELECT 1" Live.unconnected = (Thrown refusal, w') /\
    executeUpdate 1 "SELECT 1" Live.unconnected = (Thrown refusal, w') /\
    escapeString 1 "SELECT 1" Live.unconnected =
      (escape_ended
         (Thrown (runtime_error "connection not established, cannot escape string!")),
       w'') /\
    self w' = self Live.unconnected /\
    env w' = env Live.unconnected /\
    filter is_call (added Live.unconnected w') = [] /\
    self w'' = self Live.unconnected /\
    env w'' = env Live.unconnected /\
    filter is_call (added Live.unconnected w'') = [].
Proof.
  apply (X22_statements_need_a_session 0 "SELECT 1" Live.unconnected).
  reflexivity.
Defined.

(** X23 on the sample session: a text with a quote, whose escaped form is
    one byte longer. *)
Lemma X23_escapeString_buffer_witness :
  exists d3 w',
    escapeString 1 "it's" Live.online =
      (if (String.length "it\'s" <=? String.length "it's")%nat
       then escape_ended (Returned "it\'s")
       else escape_overrun (N.of_nat (String.length "it's") + 1)
                           (N.of_nat (String.length "it\'s") + 1),
       w') /\
    self w' = set_lastActiveTime 1002 (self Live.online) /\
    env w' = d3.
Proof.
  eexists.
  eapply (X23_escapeString_buffer 0 "it's" "it\'s" Live.online
           1%N _ _ _ 1002%Z).
  - reflexivity.
  - reflexivity.
  - reflexivity.
  - reflexivity.
  - reflexivity.
Defined.

(** X24 on the sample session, with the text the repository's own test
    escapes. *)
Lemma X24_escapeString_overruns_on_special_bytes_witness :
  fst (escapeString 1 "Robert'); DROP TABLE test_users; --"
         Live.online) =
    match Live.specials "Robert'); DROP TABLE test_users; --" with
    | O => escape_ended (Returned "Robert'); DROP TABLE test_users; --")
    | S extra =>
        escape_overrun
          (N.of_nat (String.length "Robert'); DROP TABLE test_users; --") + 1)
          (N.of_nat (String.length "Robert'); DROP TABLE test_users; --" + S extra) + 1)
    end.
Proof.
  eapply (X24_escapeString_overruns_on_special_bytes 0
           "Robert'); DROP TABLE test_users; --" Live.online
           1%N _ _ _ 1002%Z).
  - reflexivity.
  - reflexivity.
  - reflexivity.
  - reflexivity.
  - reflexivity.
Defined.

(** X25 on the sample session, connected. *)
Lemma X25_destructor_releases_once_witness :
  exists w1 w2 w3,
    destroy Live.online = (Returned tt, w1) /\
    m_mysql (self w1) = None /\
    m_connected (self w1) = false /\
    count_events is_call_mysql_close (added Live.online w1) =
      match m_mysql (self Live.online) with
      | Some _ => 1
      | None => 0
      end /\
    close Live.online = (Returned tt, w2) /\
    destroy w2 = (Returned tt, w3) /\
    count_events is_call_mysql_close (added w2 w3) = 0.
Proof.
  apply (X25_destructor_releases_once Live.online).
  intros Hnull. discriminate Hnull.
Defined.

End ConnExtra.
